(** * SCRAM for JavaScript (dudeami/sasl-scram-js): a shallow embedding

    The development follows the TypeScript sources:
    - the JavaScript built-ins the code calls ([String.prototype.split],
      [indexOf], [substring], [trim], [parseInt], [TextEncoder]) on strings
      seen as lists of UTF-16 code units;
    - [readScramParamString] and the four message classes;
    - [xorArrayBuffer], the [ScramAlgo] port over the platform's crypto,
      the salt generators and the user repository;
    - the exchange engine: [ScramRequest] with its client and server
      specialisations, as state-passing computations that may throw.

    Definitions come first, statements about them afterwards. *)

From Stdlib Require Import ZArith NArith Strings.String Strings.Ascii Strings.Byte Lia.
From stdpp Require Import gmap list.

Local Open Scope Z_scope.

(** ** JavaScript strings *)

(** A JavaScript string is a sequence of 16-bit code units. *)
Abbreviation jsstring := (list N).

(** An ASCII literal as a JavaScript string. *)
Definition lit (s : string) : jsstring :=
  List.map N_of_ascii (list_ascii_of_string s).

(** A [Uint8Array]. *)
Abbreviation bytes := (list byte).

Definition byte_of_N (n : N) : byte :=
  match Byte.of_N (n mod 256) with Some b => b | None => x00 end.

Module JS.

Definition code_eqb (a b : N) : bool := N.eqb a b.

Fixpoint startsWith (p s : jsstring) : bool :=
  match p, s with
  | [], _ => true
  | _ :: _, [] => false
  | a :: p', b :: s' => code_eqb a b && startsWith p' s'
  end.

Definition clamp (len : nat) (z : Z) : nat :=
  Z.to_nat (Z.min (Z.max z 0) (Z.of_nat len)).

(** The scan of [indexOf]: [i] is the index of the head of [s]. *)
Fixpoint indexOf_scan (search s : jsstring) (i : Z) : Z :=
  if startsWith search s then i
  else match s with
       | [] => -1
       | _ :: s' => indexOf_scan search s' (i + 1)
       end.

(** [s.indexOf(search, position)]. *)
Definition indexOf (s search : jsstring) (position : Z) : Z :=
  let p := clamp (length s) position in
  indexOf_scan search (drop p s) (Z.of_nat p).

(** [s.substring(start, end)]; [end_ = None] is an omitted argument. *)
Definition substring (s : jsstring) (start : Z) (end_ : option Z) : jsstring :=
  let a := clamp (length s) start in
  let b := match end_ with Some e => clamp (length s) e | None => length s end in
  let from := Nat.min a b in
  let to := Nat.max a b in
  take (to - from) (drop from s).

(** WhiteSpace and LineTerminator code points of ECMAScript. *)
Definition isWhiteSpace (c : N) : bool :=
  ((c =? 9) || (c =? 10) || (c =? 11) || (c =? 12) || (c =? 13) || (c =? 32)
   || (c =? 160) || (c =? 5760) || ((8192 <=? c) && (c <=? 8202))
   || (c =? 8232) || (c =? 8233) || (c =? 8239) || (c =? 8287)
   || (c =? 12288) || (c =? 65279))%N.

Fixpoint trimStart (s : jsstring) : jsstring :=
  match s with
  | [] => []
  | c :: s' => if isWhiteSpace c then trimStart s' else s
  end.

Definition trimEnd (s : jsstring) : jsstring := rev (trimStart (rev s)).

(** [s.trim()]. *)
Definition trim (s : jsstring) : jsstring := trimEnd (trimStart s).

(** The scan of [split] for a non-empty separator: [skip] counts the code
    units of a separator found that are still to be passed over. *)
Fixpoint split_scan (sep : jsstring) (skip : nat) (s : jsstring) : list jsstring :=
  match s with
  | [] => [[]]
  | c :: s' =>
      match skip with
      | S k => split_scan sep k s'
      | O =>
          if startsWith sep s then [] :: split_scan sep (length sep - 1) s'
          else match split_scan sep 0 s' with
               | piece :: rest => (c :: piece) :: rest
               | [] => [[c]]
               end
      end
  end.

(** [s.split(sep)] with a string separator and no limit. *)
Definition split (s sep : jsstring) : list jsstring :=
  match sep with
  | [] => List.map (fun c => [c]) s
  | _ :: _ => split_scan sep 0 s
  end.

(** [parts.join(sep)]. *)
Fixpoint join (parts : list jsstring) (sep : jsstring) : jsstring :=
  match parts with
  | [] => []
  | [p] => p
  | p :: rest => p ++ sep ++ join rest sep
  end.

(** The value of a digit in radix 10 or 16. *)
Definition digitValue (radix : N) (c : N) : option N :=
  (if (48 <=? c) && (c <=? 57) then Some (c - 48)
   else if (radix =? 16) && (97 <=? c) && (c <=? 102) then Some (c - 87)
   else if (radix =? 16) && (65 <=? c) && (c <=? 70) then Some (c - 55)
   else None)%N.

(** The longest prefix of digits, read left to right; [None] when it is
    empty. *)
Fixpoint readDigits (radix : N) (s : jsstring) (acc : option N) : option N :=
  match s with
  | [] => acc
  | c :: s' =>
      match digitValue radix c with
      | Some d =>
          readDigits radix s'
            (Some (match acc with Some a => a * radix + d | None => d end)%N)
      | None => acc
      end
  end.

(** The sign of the text and the text after it. *)
Definition parseInt_sign (s : jsstring) : Z * jsstring :=
  match s with
  | 45%N :: r => (-1, r)
  | 43%N :: r => (1, r)
  | _ => (1, s)
  end.

(** The radix, 16 after a prefix [0x] or [0X], and the text after it. *)
Definition parseInt_radix (s : jsstring) : N * jsstring :=
  match s with
  | 48%N :: 120%N :: r => (16%N, r)
  | 48%N :: 88%N :: r => (16%N, r)
  | _ => (10%N, s)
  end.

(** [parseInt(s)] with no radix argument; [None] is [NaN]. The value is the
    mathematical integer of the digits (a JavaScript number rounds it to the
    nearest double beyond 2^53). *)
Definition parseInt (s : jsstring) : option Z :=
  let '(sign, s1) := parseInt_sign (trimStart s) in
  let '(radix, s2) := parseInt_radix s1 in
  match readDigits radix s2 None with
  | Some n => Some (sign * Z.of_N n)
  | None => None
  end.

Fixpoint digits_of (fuel : nat) (n : N) (acc : jsstring) : jsstring :=
  match fuel with
  | O => acc
  | S fuel' =>
      let acc' := (48 + n mod 10)%N :: acc in
      if (n / 10 =? 0)%N then acc' else digits_of fuel' (n / 10)%N acc'
  end.

(** The text of an integer number, as a template literal prints it
    (decimal; numbers of magnitude 1e21 and more print with an exponent and
    are outside this model). *)
Definition Number_toString (z : Z) : jsstring :=
  let n := Z.abs_N z in
  let ds := digits_of (S (N.to_nat (N.log2 n))) n [] in
  if z <? 0 then 45%N :: ds else ds.

(** [Boolean(s)] for a property that may be [undefined]. *)
Definition truthy (o : option jsstring) : bool :=
  match o with
  | Some (_ :: _) => true
  | _ => false
  end.

End JS.

(** ** readParamString.ts *)

(** The map holds the own properties of the object [results]. An assignment
    [results[left] = right] creates or overwrites the own property [left],
    for every name but [__proto__]: that assignment reaches the setter which
    [results] inherits from [Object.prototype], and the setter ignores a
    string, so nothing is stored. The names which the message classes read
    from the result ([n], [r], [m], [s], [i], [c], [e], [v]) are not names of
    [Object.prototype]: reading one of them is a lookup among the own
    properties. *)
Definition readScramParamString (str : jsstring) : gmap jsstring jsstring :=
  let parts := JS.split str (lit ",") in
  foldl
    (fun results part =>
       let index := JS.indexOf part (lit "=") 0 in
       if decide (index ≠ -1) then
         let left := JS.trim (JS.substring part 0 (Some index)) in
         let right := JS.trim (JS.substring part (index + 1) None) in
         if decide (left = lit "__proto__") then results
         else <[left := right]> results
       else results)
    ∅ parts.

(** ** TextEncoder *)

Module TextEncoder.

Definition isHighSurrogate (c : N) : bool := ((0xD800 <=? c) && (c <=? 0xDBFF))%N.
Definition isLowSurrogate (c : N) : bool := ((0xDC00 <=? c) && (c <=? 0xDFFF))%N.

(** The UTF-8 bytes of one code point. *)
Definition utf8 (cp : N) : bytes :=
  (if cp <? 0x80 then [byte_of_N cp]
   else if cp <? 0x800 then
     [byte_of_N (0xC0 + cp / 64); byte_of_N (0x80 + cp mod 64)]
   else if cp <? 0x10000 then
     [byte_of_N (0xE0 + cp / 4096); byte_of_N (0x80 + (cp / 64) mod 64);
      byte_of_N (0x80 + cp mod 64)]
   else
     [byte_of_N (0xF0 + cp / 262144); byte_of_N (0x80 + (cp / 4096) mod 64);
      byte_of_N (0x80 + (cp / 64) mod 64); byte_of_N (0x80 + cp mod 64)])%N.

(** [new TextEncoder().encode(s)]: a surrogate pair is one code point, a
    lone surrogate is replaced by U+FFFD. *)
Fixpoint encode (s : jsstring) : bytes :=
  match s with
  | [] => []
  | c :: s' =>
      if isHighSurrogate c then
        match s' with
        | d :: s'' =>
            if isLowSurrogate d
            then utf8 (0x10000 + (c - 0xD800) * 1024 + (d - 0xDC00))%N ++ encode s''
            else utf8 0xFFFD%N ++ encode s'
        | [] => utf8 0xFFFD%N
        end
      else if isLowSurrogate c then utf8 0xFFFD%N ++ encode s'
      else utf8 c ++ encode s'
  end.

End TextEncoder.

(** ** The js-base64 package, as the sources use it *)

Module Base64.

Definition alphabet : jsstring :=
  lit "ABCDEFGHIJKLMNOPQRSTUVWXYZabcdefghijklmnopqrstuvwxyz0123456789+/".

(** The character of a 6-bit value. *)
Definition char (i : N) : N := nth (N.to_nat i) alphabet 0%N.

(** The 6-bit value of a character; [-] and [_] read as [+] and [/]. *)
Definition sextet (c : N) : option N :=
  (if (65 <=? c) && (c <=? 90) then Some (c - 65)
   else if (97 <=? c) && (c <=? 122) then Some (c - 71)
   else if (48 <=? c) && (c <=? 57) then Some (c + 4)
   else if (c =? 43) || (c =? 45) then Some 62
   else if (c =? 47) || (c =? 95) then Some 63
   else None)%N.

(** [Base64.fromUint8Array(u8a)]: padded, not URL-safe. *)
Fixpoint fromUint8Array (u8a : bytes) : jsstring :=
  match u8a with
  | [] => []
  | [a] =>
      let a := Byte.to_N a in
      [char (a / 4); char ((a mod 4) * 16); 61; 61]%N
  | [a; b] =>
      let a := Byte.to_N a in
      let b := Byte.to_N b in
      [char (a / 4); char ((a mod 4) * 16 + b / 16); char ((b mod 16) * 4); 61]%N
  | a :: b :: c :: rest =>
      let a := Byte.to_N a in
      let b := Byte.to_N b in
      let c := Byte.to_N c in
      [char (a / 4); char ((a mod 4) * 16 + b / 16);
       char ((b mod 16) * 4 + c / 64); char (c mod 64)]%N
      ++ fromUint8Array rest
  end.

Fixpoint fromSextets (l : list N) : bytes :=
  match l with
  | w :: x :: y :: z :: rest =>
      [byte_of_N (w * 4 + x / 16); byte_of_N ((x mod 16) * 16 + y / 4);
       byte_of_N ((y mod 4) * 64 + z)]%N ++ fromSextets rest
  | [w; x; y] => [byte_of_N (w * 4 + x / 16); byte_of_N ((x mod 16) * 16 + y / 4)]%N
  | [w; x] => [byte_of_N (w * 4 + x / 16)%N]
  | _ => []
  end.

(** [Base64.toUint8Array(a)]: code units outside the alphabet (padding
    included) are dropped before decoding, and decoding does not fail. *)
Definition toUint8Array (a : jsstring) : bytes := fromSextets (omap sextet a).

(** [Base64.encode(s)]: the base64 text of the UTF-8 bytes of [s]. *)
Definition encode (s : jsstring) : jsstring :=
  fromUint8Array (TextEncoder.encode s).

End Base64.

(** ** utils/xorArrayBuffer.ts *)

Definition xor_bits (x y : bool * (bool * (bool * (bool * (bool * (bool * (bool * bool)))))))
  : bool * (bool * (bool * (bool * (bool * (bool * (bool * bool)))))) :=
  let '(x0, (x1, (x2, (x3, (x4, (x5, (x6, x7))))))) := x in
  let '(y0, (y1, (y2, (y3, (y4, (y5, (y6, y7))))))) := y in
  (xorb x0 y0, (xorb x1 y1, (xorb x2 y2, (xorb x3 y3,
   (xorb x4 y4, (xorb x5 y5, (xorb x6 y6, xorb x7 y7))))))).

(** [a ^ b] on two bytes. *)
Definition byte_xor (a b : byte) : byte :=
  Byte.of_bits (xor_bits (Byte.to_bits a) (Byte.to_bits b)).

(** The result has the length of [leftBuffer]; an index past the end of
    [rightBuffer] reads [undefined], which [^] takes as 0. *)
Fixpoint xorArrayBuffer (leftBuffer rightBuffer : bytes) : bytes :=
  match leftBuffer with
  | [] => []
  | l :: ls =>
      match rightBuffer with
      | r :: rs => byte_xor l r :: xorArrayBuffer ls rs
      | [] => byte_xor l x00 :: xorArrayBuffer ls []
      end
  end.

(** ** utils/ScramError.ts and thrown values *)

Inductive exn : Type :=
| Error (message : jsstring)
| ScramError (errorCode : jsstring).

(** The completion of a call: a returned value or a thrown one. *)
Inductive completion (A : Type) : Type :=
| Return (a : A)
| Throw (e : exn).
Arguments Return {A} a.
Arguments Throw {A} e.

Definition SCRAM_INVALID_ENCODING := lit "invalid-encoding".
Definition SCRAM_EXTENSIONS_NOT_SUPPORTED := lit "extensions-not-supported".
Definition SCRAM_INVALID_PROOF := lit "invalid-proof".
Definition SCRAM_CHANNEL_BINDINGS_DONT_MATCH := lit "channel-bindings-dont-match".
Definition SCRAM_SERVER_DOES_SUPPORT_CHANNEL_BINDING := lit "server-does-support-channel-binding".
Definition SCRAM_CHANNEL_BINDING_NOT_SUPPORTED := lit "channel-binding-not-supported".
Definition SCRAM_UNSUPPORTED_CHANNEL_BINDING_TYPE := lit "unsupported-channel-binding-type".
Definition SCRAM_UNKNOWN_USER := lit "unknown-user".
Definition SCRAM_INVALID_USERNAME_ENCODING := lit "invalid-username-encoding".
Definition SCRAM_NO_RESOURCES := lit "no-resources".
Definition SCRAM_OTHER_ERROR := lit "other-error".

(** [error.errorCode] of a caught value, as a template literal prints it: a
    plain [Error] has no such property. *)
Definition errorCode_text (e : exn) : jsstring :=
  match e with
  | ScramError code => code
  | Error _ => lit "undefined"
  end.

(** ** The platform: WebCrypto and the saslprep package

    The sources call [crypto.subtle] ([digest], HMAC [importKey] and [sign],
    PBKDF2 [importKey] and [deriveBits]) and [saslPrep]; they are parameters
    of the development. [subtle_sign_HMAC hash key data] signs [data] under
    the imported [key]; [subtle_deriveBits_PBKDF2] is the derivation for an
    iteration count that [deriveBits] accepts (see [Crypto] below). The hash
    name and the length in bits are those of a [ScramAlgo] which the platform
    supports. *)
Class Platform : Type := {
  subtle_digest : jsstring -> bytes -> bytes;
  subtle_sign_HMAC : jsstring -> bytes -> bytes -> bytes;
  subtle_deriveBits_PBKDF2 : jsstring -> bytes -> bytes -> Z -> Z -> bytes;
  saslPrep : jsstring -> completion jsstring;
}.

(** ** The @peculiar/webcrypto package, as [ScramAlgo.pbkdf2] uses it

    [crypto.subtle.deriveBits] with the parameters of PBKDF2 checks the
    iteration count before it derives anything. The package refuses a count
    below 1 with a [TypeError]; it derives with the [pbkdf2] of Node.js,
    which in its current versions takes a count up to 2^31 - 1 and refuses a
    greater one with a [RangeError]. An [Error] below stands for either: the
    model keeps the message of a thrown value, not its class. *)

Module Crypto.

(** The greatest iteration count that [pbkdf2] of Node.js takes. *)
Definition INT_MAX : Z := 2147483647.

(** The digits of [reversed], which holds a number's digits from the last to
    the first, with an underscore after every third one while more than
    three are left. *)
Fixpoint separate (fuel : nat) (reversed : jsstring) : jsstring :=
  match fuel with
  | O => reversed
  | S fuel' =>
      if (4 <=? length reversed)%nat
      then take 3 reversed ++ [95%N] ++ separate fuel' (drop 3 reversed)
      else reversed
  end.

(** How Node.js prints the number received in the message of an
    out-of-range error: with separators when it is above 2^32. *)
Definition received (z : Z) : jsstring :=
  if 2 ^ 32 <? z
  then rev (separate (length (JS.Number_toString z)) (rev (JS.Number_toString z)))
  else JS.Number_toString z.

(** The message of the [RangeError] of Node.js for an iteration count that
    is out of range. *)
Definition out_of_range (iterations : Z) : jsstring :=
  lit "The value of " ++ [34%N] ++ lit "iterations" ++ [34%N]
  ++ lit " is out of range. It must be >= 1 && <= 2147483647. Received "
  ++ received iterations.

(** [crypto.subtle.deriveBits({ name: "PBKDF2", salt, iterations, hash },
    keyMaterial, length)], where [keyMaterial] is the imported [password]. *)
Definition deriveBits_PBKDF2 {W : Platform} (hash : jsstring) (password salt : bytes)
    (iterations length : Z) : completion bytes :=
  if iterations <? 1 then Throw (Error (lit "iterations: Is less than 1"))
  else if INT_MAX <? iterations then Throw (Error (out_of_range iterations))
  else Return (subtle_deriveBits_PBKDF2 hash password salt iterations length).

End Crypto.

(** ** algo/ScramAlgo.ts *)

Module ScramAlgo.

(** [algo] is the WebCrypto name of the hash, [keylen] the length asked of
    PBKDF2. *)
Record t : Type := { algo : jsstring; keylen : Z }.

Section Methods.
Context {W : Platform} (this : t).

Definition pbkdf2 (password salt : bytes) (iterations : Z) : completion bytes :=
  Crypto.deriveBits_PBKDF2 (algo this) password salt iterations (keylen this).

(** The key imported is the second argument, [secret]; the first is
    the data signed. *)
Definition hmac (message secret : bytes) : bytes :=
  subtle_sign_HMAC (algo this) secret message.

Definition hash (text : bytes) : bytes :=
  subtle_digest (algo this) text.

Definition getSaltedPassword (password : jsstring) (salt : bytes) (iterations : Z)
  : completion bytes :=
  match saslPrep password with
  | Return prepedPassword =>
      pbkdf2 (TextEncoder.encode prepedPassword) salt iterations
  | Throw e => Throw e
  end.

Definition getClientKey (saltedPassword : bytes) : bytes :=
  hmac saltedPassword (TextEncoder.encode (lit "Client Key")).

Definition getStoredKey (saltedPassword : bytes) : bytes :=
  hash (getClientKey saltedPassword).

Definition getServerKey (saltedPassword : bytes) : bytes :=
  hmac saltedPassword (TextEncoder.encode (lit "Server Key")).

Definition getName : jsstring := algo this.
End Methods.

End ScramAlgo.

(** ** The message classes *)

Module ScramMessageClientFirst.

Record t : Type := {
  message : jsstring;
  messageBare : jsstring;
  user : jsstring;
  gs2CbindFlag : jsstring;
  nonce : jsstring;
  (** [params["m"]], [None] when the parameter is absent. *)
  mext : option jsstring;
}.

Definition unreadable : exn := Error (lit "Unable to read client-first-message").

Definition new {W : Platform} (msg : jsstring) : completion t :=
  let index := JS.indexOf msg (lit ",") (JS.indexOf msg (lit ",") 0 + 1) + 1 in
  let header := JS.split (JS.substring msg 0 (Some index)) (lit ",") in
  let gs2CbindFlag := header !! 0%nat in
  let messageBare := JS.substring msg index None in
  let params := readScramParamString msg in
  if negb (JS.truthy (params !! lit "n")) then Throw unreadable
  else
    let nonce := params !! lit "r" in
    let mext := params !! lit "m" in
    match saslPrep (default [] (params !! lit "n")) with
    | Throw e => Throw e
    | Return user =>
        if negb (JS.truthy nonce) || negb (JS.truthy (Some user))
           || negb (JS.truthy gs2CbindFlag)
        then Throw unreadable
        else Return {| message := msg; messageBare := messageBare; user := user;
                       gs2CbindFlag := default [] gs2CbindFlag;
                       nonce := default [] nonce; mext := mext |}
    end.

Definition getMessage := message.
Definition getMessageBare := messageBare.
Definition getUser := user.
Definition getGS2CbindFlag := gs2CbindFlag.
Definition getNonce := nonce.
Definition getMext := mext.

End ScramMessageClientFirst.

Module ScramMessageServerFirst.

Record t : Type := {
  message : jsstring;
  nonce : jsstring;
  salt : bytes;
  iterations : Z;
}.

Definition unreadable : exn := Error (lit "Unable to read server-first-message").

Definition new (msg : jsstring) : completion t :=
  let params := readScramParamString msg in
  if negb (JS.truthy (params !! lit "r")) || negb (JS.truthy (params !! lit "s"))
     || negb (JS.truthy (params !! lit "i"))
  then Throw unreadable
  else
    let nonce := default [] (params !! lit "r") in
    let salt := Base64.toUint8Array (default [] (params !! lit "s")) in
    match JS.parseInt (default [] (params !! lit "i")) with
    | None => Throw unreadable
    | Some iterations =>
        Return {| message := msg; nonce := nonce; salt := salt; iterations := iterations |}
    end.

Definition getMessage := message.
Definition getNonce := nonce.
Definition getSalt := salt.
Definition getIterations := iterations.

End ScramMessageServerFirst.

Module ScramMessageClientFinal.

Record t : Type := {
  message : jsstring;
  messageWithoutProof : jsstring;
  gs2Header : jsstring;
  nonce : jsstring;
  clientProof : jsstring;
}.

Definition unreadable : exn := Error (lit "Unable to read client-final-message").

Definition new (msg : jsstring) : completion t :=
  let pieces := JS.split msg (lit ",p=") in
  let clientFinalWithoutProof := pieces !! 0%nat in
  let proof := pieces !! 1%nat in
  let params := readScramParamString (default [] clientFinalWithoutProof) in
  let gs2Header := params !! lit "c" in
  let nonce := params !! lit "r" in
  if negb (JS.truthy gs2Header) || negb (JS.truthy nonce)
     || negb (JS.truthy clientFinalWithoutProof) || negb (JS.truthy proof)
  then Throw unreadable
  else Return {| message := msg;
                 messageWithoutProof := default [] clientFinalWithoutProof;
                 gs2Header := default [] gs2Header;
                 nonce := default [] nonce;
                 clientProof := default [] proof |}.

Definition getMessage := message.
Definition getMessageWithoutProof := messageWithoutProof.
Definition getGS2Header := gs2Header.
Definition getNonce := nonce.
Definition getClientProof := clientProof.

End ScramMessageClientFinal.

Module ScramMessageServerFinal.

(** [error] and [verifier] are a string or [false]; [None] is [false]. *)
Record t : Type := {
  message : jsstring;
  error : option jsstring;
  verifier : option jsstring;
}.

Definition unreadable : exn := Error (lit "Unable to read server-final-message").

(** [x || false]. *)
Definition or_false (x : option jsstring) : option jsstring :=
  if JS.truthy x then x else None.

Definition new (msg : jsstring) : completion t :=
  let params := readScramParamString msg in
  let error := or_false (params !! lit "e") in
  let verifier := or_false (params !! lit "v") in
  if negb (JS.truthy error) && negb (JS.truthy verifier)
  then Throw unreadable
  else Return {| message := msg; error := error; verifier := verifier |}.

Definition getMessage := message.
Definition getError := error.
Definition getVerifier := verifier.

End ScramMessageServerFinal.

(** ** user/ScramUser.ts, user/ScramUserRepo.ts, test/MockScramUser.ts *)

Module ScramUser.
Record t : Type := {
  getUsername : jsstring;
  getSalt : bytes;
  getIterations : Z;
  getServerKey : bytes;
  getStoredKey : bytes;
}.
End ScramUser.

Module ScramUserRepo.
Record t : Type := {
  find : jsstring -> completion ScramUser.t;
  has : jsstring -> bool;
}.
End ScramUserRepo.

(** [new MockScramUser(username, salt, iterations, storedKey, serverKey)]. *)
Definition MockScramUser (username : jsstring) (salt : bytes) (iterations : Z)
    (storedKey serverKey : bytes) : ScramUser.t :=
  {| ScramUser.getUsername := username; ScramUser.getSalt := salt;
     ScramUser.getIterations := iterations; ScramUser.getServerKey := serverKey;
     ScramUser.getStoredKey := storedKey |}.

(** ** The dictionary of users in test/MockScramUserRepo.ts and example.ts

    Both repositories keep their users in a plain object, [users = {}], and
    read it with [this.users[name]]: the read finds an own property, or else
    follows the prototype chain. The own properties are the users assigned
    under names other than [__proto__]. An assignment to [__proto__] reaches
    the setter of [Object.prototype] and makes the user assigned the
    prototype of the dictionary, whose chain is then: the user object (its
    five fields), the prototype of its class (its methods), and
    [Object.prototype]. *)

Module UserDictionary.

(** What a read of the dictionary can give. *)
Inductive value : Type :=
| undefined
| user (u : ScramUser.t)       (* a user object *)
| text (s : jsstring)          (* a string *)
| number (n : Z)               (* a number *)
| buffer (b : bytes)           (* a [Uint8Array] *)
| function_                    (* a function *)
| Object_prototype.            (* the object [Object.prototype] *)

(** [Boolean(v)]. *)
Definition Boolean (v : value) : bool :=
  match v with
  | undefined => false
  | text s => negb (bool_decide (s = []))
  | number n => negb (n =? 0)
  | user _ | buffer _ | function_ | Object_prototype => true
  end.

(** [prototype] is the user made the prototype of the dictionary, [None]
    while the prototype is [Object.prototype]. *)
Record t : Type := {
  own : gmap jsstring ScramUser.t;
  prototype : option ScramUser.t;
}.

(** [{}]. *)
Definition empty : t := {| own := ∅; prototype := None |}.

(** The methods of [Object.prototype]; its accessor [__proto__] is apart. *)
Definition Object_prototype_methods : list jsstring :=
  [lit "constructor"; lit "__defineGetter__"; lit "__defineSetter__";
   lit "hasOwnProperty"; lit "__lookupGetter__"; lit "__lookupSetter__";
   lit "isPrototypeOf"; lit "propertyIsEnumerable"; lit "toString";
   lit "valueOf"; lit "toLocaleString"].

(** The members of the prototype of the classes [MockScramUser] and
    [MyScramUser]. *)
Definition user_methods : list jsstring :=
  [lit "constructor"; lit "getUsername"; lit "getSalt"; lit "getIterations";
   lit "getStoredKey"; lit "getServerKey"].

(** [Object.prototype[name]], read on an object whose prototype is
    [proto]. *)
Definition get_Object_prototype (proto : value) (name : jsstring) : value :=
  if decide (name = lit "__proto__") then proto
  else if bool_decide (name ∈ Object_prototype_methods) then function_
  else undefined.

(** [u[name]] for a user object [u]. *)
Definition get_user (u : ScramUser.t) (name : jsstring) : value :=
  if decide (name = lit "username") then text (ScramUser.getUsername u)
  else if decide (name = lit "salt") then buffer (ScramUser.getSalt u)
  else if decide (name = lit "iterations") then number (ScramUser.getIterations u)
  else if decide (name = lit "storedKey") then buffer (ScramUser.getStoredKey u)
  else if decide (name = lit "serverKey") then buffer (ScramUser.getServerKey u)
  else if bool_decide (name ∈ user_methods) then function_
  else undefined.

(** [users[name]]. *)
Definition get (users : t) (name : jsstring) : value :=
  match own users !! name with
  | Some u => user u
  | None =>
      match prototype users with
      | Some u =>
          match get_user u name with
          | undefined => get_Object_prototype (user u) name
          | v => v
          end
      | None => get_Object_prototype Object_prototype name
      end
  end.

(** [users[name] = u]. *)
Definition set (name : jsstring) (u : ScramUser.t) (users : t) : t :=
  if decide (name = lit "__proto__")
  then {| own := own users; prototype := Some u |}
  else {| own := <[name := u]> (own users); prototype := prototype users |}.

(** What the request classes have of a value returned by [find], whose
    declared type is a user: they call one of its methods at once, and on a
    value that is not a user that call throws a [TypeError]. *)
Definition as_user (found : completion value) : completion ScramUser.t :=
  match found with
  | Return (user u) => Return u
  | Return _ => Throw (Error (lit "TypeError"))
  | Throw e => Throw e
  end.

End UserDictionary.

Module MockScramUserRepo.

Definition has (users : UserDictionary.t) (username : jsstring) : bool :=
  UserDictionary.Boolean (UserDictionary.get users username).

Definition find (users : UserDictionary.t) (username : jsstring)
  : completion UserDictionary.value :=
  if has users username then Return (UserDictionary.get users username)
  else Throw (ScramError SCRAM_UNKNOWN_USER).

(** The repository as a [ScramUserRepo]. *)
Definition repo (users : UserDictionary.t) : ScramUserRepo.t :=
  {| ScramUserRepo.find := fun username => UserDictionary.as_user (find users username);
     ScramUserRepo.has := has users |}.

Definition addUser (user : ScramUser.t) (users : UserDictionary.t) : UserDictionary.t :=
  UserDictionary.set (ScramUser.getUsername user) user users.

End MockScramUserRepo.

(** ** utils/SaltGenerator.ts *)

Module SaltGenerator.
Record t : Type := { get : jsstring -> bytes }.
End SaltGenerator.

Definition PepperedSaltGenerator {W : Platform} (algo : ScramAlgo.t) (pepper : jsstring)
  : SaltGenerator.t :=
  {| SaltGenerator.get := fun username =>
       ScramAlgo.hash algo (TextEncoder.encode (username ++ lit ":" ++ pepper)) |}.

(** [buffer] is what [getRandomValues] wrote into the [length] bytes. *)
Definition RandomSaltGenerator {W : Platform} (algo : ScramAlgo.t) (buffer : bytes)
  : SaltGenerator.t :=
  {| SaltGenerator.get := fun _ => ScramAlgo.hash algo buffer |}.

(** ** Methods as state-passing computations

    A method call takes the object's state and gives its completion and the
    state it leaves; a throw keeps the assignments made before it. *)

Definition M (S A : Type) : Type := S -> completion A * S.

Definition ret {S A : Type} (a : A) : M S A := fun s => (Return a, s).

Definition throw {S A : Type} (e : exn) : M S A := fun s => (Throw e, s).

Definition bind {S A B : Type} (m : M S A) (k : A -> M S B) : M S B :=
  fun s =>
    match m s with
    | (Return a, s') => k a s'
    | (Throw e, s') => (Throw e, s')
    end.

Definition this_ {S : Type} : M S S := fun s => (Return s, s).

Definition assign {S : Type} (f : S -> S) : M S unit := fun s => (Return tt, f s).

Definition lift {S A : Type} (c : completion A) : M S A := fun s => (c, s).

Definition try_catch {S A : Type} (body : M S A) (handler : exn -> M S A) : M S A :=
  fun s =>
    match body s with
    | (Return a, s') => (Return a, s')
    | (Throw e, s') => handler e s'
    end.

Notation "x <- m ;; k" := (bind m (fun x => k))
  (at level 100, m at next level, right associativity).
Notation "m ;;; k" := (bind m (fun _ => k))
  (at level 100, right associativity).

(** ** request/ScramRequest.ts *)

Module ScramRequest.

Record t : Type := {
  algo : ScramAlgo.t;
  clientFirstMessage : option ScramMessageClientFirst.t;
  clientFinalMessage : option ScramMessageClientFinal.t;
  serverFirstMessage : option ScramMessageServerFirst.t;
  serverFinalMessage : option ScramMessageServerFinal.t;
}.

Definition new (algo : ScramAlgo.t) : t :=
  {| algo := algo; clientFirstMessage := None; clientFinalMessage := None;
     serverFirstMessage := None; serverFinalMessage := None |}.

Definition setClientFirstMessage (m : ScramMessageClientFirst.t) (this : t) : t :=
  {| algo := algo this; clientFirstMessage := Some m;
     clientFinalMessage := clientFinalMessage this;
     serverFirstMessage := serverFirstMessage this;
     serverFinalMessage := serverFinalMessage this |}.

Definition setClientFinalMessage (m : ScramMessageClientFinal.t) (this : t) : t :=
  {| algo := algo this; clientFirstMessage := clientFirstMessage this;
     clientFinalMessage := Some m;
     serverFirstMessage := serverFirstMessage this;
     serverFinalMessage := serverFinalMessage this |}.

Definition setServerFirstMessage (m : ScramMessageServerFirst.t) (this : t) : t :=
  {| algo := algo this; clientFirstMessage := clientFirstMessage this;
     clientFinalMessage := clientFinalMessage this;
     serverFirstMessage := Some m;
     serverFinalMessage := serverFinalMessage this |}.

Definition setServerFinalMessage (m : ScramMessageServerFinal.t) (this : t) : t :=
  {| algo := algo this; clientFirstMessage := clientFirstMessage this;
     clientFinalMessage := clientFinalMessage this;
     serverFirstMessage := serverFirstMessage this;
     serverFinalMessage := Some m |}.

Definition getClientFirstMessage := clientFirstMessage.
Definition getClientFinalMessage := clientFinalMessage.
Definition getServerFirstMessage := serverFirstMessage.
Definition getServerFinalMessage := serverFinalMessage.

(** The two casts read a property of [undefined] when a slot is unset,
    which throws a [TypeError]. *)
Definition getAuthMessage (this : t) (clientFinalWithoutProof : jsstring)
  : completion bytes :=
  match clientFirstMessage this, serverFirstMessage this with
  | Some cf, Some sf =>
      Return (TextEncoder.encode
                (JS.join [ScramMessageClientFirst.getMessageBare cf;
                          ScramMessageServerFirst.getMessage sf;
                          clientFinalWithoutProof] (lit ",")))
  | _, _ => Throw (Error (lit "TypeError"))
  end.

(** The four message slots. *)
Definition slots (this : t) :=
  (clientFirstMessage this, serverFirstMessage this,
   clientFinalMessage this, serverFinalMessage this).

End ScramRequest.

(** ** request/ScramRequestClient.ts *)

Module ScramRequestClient.

Record ScramRequestClientOptions : Type := { opt_maxIterations : option Z }.
Record ScramRequestClientConfig : Type := { maxIterations : Z }.

Definition DEFAULT_CONFIG : ScramRequestClientConfig :=
  {| maxIterations := 0xffffff |}.

Definition no_options : ScramRequestClientOptions := {| opt_maxIterations := None |}.

Record t : Type := {
  base : ScramRequest.t;
  gs2_header : jsstring;
  options : ScramRequestClientConfig;
}.

(** [Object.assign({}, DEFAULT_CONFIG, options)]. *)
Definition new (algo : ScramAlgo.t) (options : ScramRequestClientOptions) : t :=
  {| base := ScramRequest.new algo;
     gs2_header := lit "n,";
     options := {| maxIterations :=
                     default (maxIterations DEFAULT_CONFIG) (opt_maxIterations options) |} |}.

Definition on_base (f : ScramRequest.t -> ScramRequest.t) (this : t) : t :=
  {| base := f (base this); gs2_header := gs2_header this; options := options this |}.

Definition setClientFirstMessage m := on_base (ScramRequest.setClientFirstMessage m).
Definition setClientFinalMessage m := on_base (ScramRequest.setClientFinalMessage m).
Definition setServerFirstMessage m := on_base (ScramRequest.setServerFirstMessage m).
Definition setServerFinalMessage m := on_base (ScramRequest.setServerFinalMessage m).

Definition algo (this : t) : ScramAlgo.t := ScramRequest.algo (base this).

Section Methods.
Context {W : Platform}.

Definition getSaltedPassword (password : jsstring) : M t bytes :=
  this <- this_ ;;
  match ScramRequest.clientFirstMessage (base this),
        ScramRequest.serverFirstMessage (base this) with
  | Some _, Some serverFirstMessage =>
      let salt := ScramMessageServerFirst.getSalt serverFirstMessage in
      let iterations := ScramMessageServerFirst.getIterations serverFirstMessage in
      if maxIterations (options this) <? iterations then
        throw (Error (lit "Iteration count of " ++ JS.Number_toString iterations
                      ++ lit " exceeed maximum of "
                      ++ JS.Number_toString (maxIterations (options this))))
      else
        lift (ScramAlgo.pbkdf2 (algo this) (TextEncoder.encode password) salt iterations)
  | _, _ =>
      throw (Error (lit "Unable to create salted password, missing client-first-message or server-first-message."))
  end.

(** [randomBuffer] is the 24-byte array after [getRandomValues]. *)
Definition createClientFirstMessage (randomBuffer : bytes) (user : jsstring)
  : M t ScramMessageClientFirst.t :=
  this <- this_ ;;
  let c_nonce := Base64.fromUint8Array randomBuffer in
  m <- lift (ScramMessageClientFirst.new
               (gs2_header this ++ lit ",n=" ++ user ++ lit ",r=" ++ c_nonce)) ;;
  assign (setClientFirstMessage m) ;;;
  ret m.

Definition createClientFinalMessage (saltedPassword : bytes)
  : M t ScramMessageClientFinal.t :=
  this <- this_ ;;
  match ScramRequest.clientFirstMessage (base this),
        ScramRequest.serverFirstMessage (base this) with
  | Some _, Some serverFirstMessage =>
      let clientKey := ScramAlgo.getClientKey (algo this) saltedPassword in
      let storedKey := ScramAlgo.getStoredKey (algo this) saltedPassword in
      let gs2header := Base64.encode (gs2_header this ++ lit ",") in
      let nonce := ScramMessageServerFirst.getNonce serverFirstMessage in
      let clientFinalWithoutProof := lit "c=" ++ gs2header ++ lit ",r=" ++ nonce in
      authMessage <- lift (ScramRequest.getAuthMessage (base this) clientFinalWithoutProof) ;;
      let clientSignature := ScramAlgo.hmac (algo this) storedKey authMessage in
      let proof := Base64.fromUint8Array (xorArrayBuffer clientKey clientSignature) in
      m <- lift (ScramMessageClientFinal.new
                   (clientFinalWithoutProof ++ lit ",p=" ++ proof)) ;;
      assign (setClientFinalMessage m) ;;;
      ret m
  | _, _ =>
      throw (Error (lit "Unable to create client-final-message, missing client-first-message or server-first-message."))
  end.

Definition verifyServerFinalMessage (saltedPassword : bytes) : M t bool :=
  this <- this_ ;;
  match ScramRequest.clientFirstMessage (base this),
        ScramRequest.serverFirstMessage (base this),
        ScramRequest.clientFinalMessage (base this),
        ScramRequest.serverFinalMessage (base this) with
  | Some _, Some _, Some clientFinalMessage, Some serverFinalMessage =>
      let serverKey := ScramAlgo.getServerKey (algo this) saltedPassword in
      authMessage <- lift (ScramRequest.getAuthMessage (base this)
                             (ScramMessageClientFinal.getMessageWithoutProof clientFinalMessage)) ;;
      let proof := Base64.fromUint8Array (ScramAlgo.hmac (algo this) serverKey authMessage) in
      ret (bool_decide (ScramMessageServerFinal.getVerifier serverFinalMessage = Some proof))
  | _, _, _, _ =>
      throw (Error (lit "Unable to verify server-final-message, missing client-first-message, server-first-message, client-final-message or server-final-message."))
  end.
End Methods.

End ScramRequestClient.

(** ** request/ScramRequestServer.ts *)

Module ScramRequestServer.

Record ScramRequestServerOptions : Type := { opt_concealErrors : option bool }.
Record ScramRequestServerConfig : Type := { concealErrors : bool }.

Definition DEFAULT_CONFIG : ScramRequestServerConfig := {| concealErrors := false |}.

Definition no_options : ScramRequestServerOptions := {| opt_concealErrors := None |}.

Record t : Type := {
  base : ScramRequest.t;
  repo : ScramUserRepo.t;
  saltGenerator : SaltGenerator.t;
  iterations : Z;
  options : ScramRequestServerConfig;
}.

Definition new (algo : ScramAlgo.t) (repo : ScramUserRepo.t)
    (saltGenerator : SaltGenerator.t) (iterations : Z)
    (options : ScramRequestServerOptions) : t :=
  {| base := ScramRequest.new algo; repo := repo; saltGenerator := saltGenerator;
     iterations := iterations;
     options := {| concealErrors :=
                     default (concealErrors DEFAULT_CONFIG) (opt_concealErrors options) |} |}.

Definition on_base (f : ScramRequest.t -> ScramRequest.t) (this : t) : t :=
  {| base := f (base this); repo := repo this; saltGenerator := saltGenerator this;
     iterations := iterations this; options := options this |}.

Definition setClientFirstMessage m := on_base (ScramRequest.setClientFirstMessage m).
Definition setClientFinalMessage m := on_base (ScramRequest.setClientFinalMessage m).
Definition setServerFirstMessage m := on_base (ScramRequest.setServerFirstMessage m).
Definition setServerFinalMessage m := on_base (ScramRequest.setServerFinalMessage m).

Definition algo (this : t) : ScramAlgo.t := ScramRequest.algo (base this).

Section Methods.
Context {W : Platform}.

(** [randomBuffer] is the 24-byte array after [getRandomValues]. *)
Definition createServerFirstMessage (randomBuffer : bytes)
  : M t ScramMessageServerFirst.t :=
  this <- this_ ;;
  match ScramRequest.clientFirstMessage (base this) with
  | Some clientFirstMessage =>
      let username := ScramMessageClientFirst.getUser clientFirstMessage in
      let c_nonce := ScramMessageClientFirst.getNonce clientFirstMessage in
      salt_iterations <-
        (if ScramUserRepo.has (repo this) username then
           user <- lift (ScramUserRepo.find (repo this) username) ;;
           ret (ScramUser.getSalt user, ScramUser.getIterations user)
         else
           ret (SaltGenerator.get (saltGenerator this) username, iterations this)) ;;
      let encodedSalt := Base64.fromUint8Array (fst salt_iterations) in
      let s_nonce := Base64.fromUint8Array randomBuffer in
      let nonce := c_nonce ++ s_nonce in
      m <- lift (ScramMessageServerFirst.new
                   (lit "r=" ++ nonce ++ lit ",s=" ++ encodedSalt
                    ++ lit ",i=" ++ JS.Number_toString (snd salt_iterations))) ;;
      assign (setServerFirstMessage m) ;;;
      ret m
  | None =>
      throw (Error (lit "Unable to create server-first-message, missing client-first-message."))
  end.

Definition verifyClientFinalMessage : M t bool :=
  this <- this_ ;;
  match ScramRequest.clientFirstMessage (base this),
        ScramRequest.serverFirstMessage (base this),
        ScramRequest.clientFinalMessage (base this) with
  | Some clientFirstMessage, Some _, Some clientFinalMessage =>
      let username := ScramMessageClientFirst.getUser clientFirstMessage in
      if negb (ScramUserRepo.has (repo this) username) then ret false
      else
        user <- lift (ScramUserRepo.find (repo this) username) ;;
        let clientProof :=
          Base64.toUint8Array (ScramMessageClientFinal.getClientProof clientFinalMessage) in
        let storedKey := ScramUser.getStoredKey user in
        authMessage <- lift (ScramRequest.getAuthMessage (base this)
                               (ScramMessageClientFinal.getMessageWithoutProof clientFinalMessage)) ;;
        let clientSignature := ScramAlgo.hmac (algo this) storedKey authMessage in
        let clientKey := xorArrayBuffer clientSignature clientProof in
        ret (bool_decide (Base64.fromUint8Array storedKey
                          = Base64.fromUint8Array (ScramAlgo.hash (algo this) clientKey)))
  | _, _, _ =>
      throw (Error (lit "Unable to verify client-final-message, missing client-first-message, server-first-message, or client-final-message."))
  end.

Definition createServerFinalMessage : M t (option ScramMessageServerFinal.t) :=
  this <- this_ ;;
  match ScramRequest.clientFirstMessage (base this),
        ScramRequest.serverFirstMessage (base this),
        ScramRequest.clientFinalMessage (base this) with
  | Some clientFirstMessage, Some _, Some clientFinalMessage =>
      let username := ScramMessageClientFirst.getUser clientFirstMessage in
      try_catch
        (if JS.truthy (ScramMessageClientFirst.getMext clientFirstMessage) then
           throw (ScramError SCRAM_EXTENSIONS_NOT_SUPPORTED)
         else if negb (bool_decide
                         (ScramMessageClientFirst.getGS2CbindFlag clientFirstMessage = lit "n")) then
           throw (ScramError SCRAM_CHANNEL_BINDING_NOT_SUPPORTED)
         else
           user <- lift (ScramUserRepo.find (repo this) username) ;;
           let serverKey := ScramUser.getServerKey user in
           authMessage <- lift (ScramRequest.getAuthMessage (base this)
                                  (ScramMessageClientFinal.getMessageWithoutProof clientFinalMessage)) ;;
           let proof := Base64.fromUint8Array (ScramAlgo.hmac (algo this) serverKey authMessage) in
           ok <- verifyClientFinalMessage ;;
           if negb ok then throw (ScramError SCRAM_INVALID_PROOF)
           else
             m <- lift (ScramMessageServerFinal.new (lit "v=" ++ proof)) ;;
             assign (setServerFinalMessage m))
        (fun e =>
           m <- lift (ScramMessageServerFinal.new
                        (if concealErrors (options this)
                         then lit "e=" ++ SCRAM_OTHER_ERROR
                         else lit "e=" ++ errorCode_text e)) ;;
           assign (setServerFinalMessage m)) ;;;
      this' <- this_ ;;
      ret (ScramRequest.serverFinalMessage (base this'))
  | _, _, _ =>
      throw (Error (lit "Unable to create server-final-message, missing client-first-message, server-first-message, or client-final-message."))
  end.
End Methods.

End ScramRequestServer.

(** ** A reference platform

    SHA-256 (FIPS 180-4), HMAC (RFC 2104) and PBKDF2 (RFC 8018) computed on
    byte lists, to evaluate the exchange on concrete inputs. *)

Module SHA256.
Local Open Scope N_scope.

Definition isPrime (n : N) : bool :=
  (2 <=? n) && forallb (fun d => negb (n mod d =? 0)) (List.map N.of_nat (seq 2 (N.to_nat n - 2))).

(** The first sixty-four primes. *)
Definition primes : list N :=
  Eval vm_compute in List.filter isPrime (List.map N.of_nat (seq 2 310)).

(** The integer cube root, one bit at a time from bit [bits - 1] down. *)
Fixpoint cbrt_bits (bits : nat) (n r : N) : N :=
  match bits with
  | O => r
  | S b =>
      let r' := r + 2 ^ N.of_nat b in
      cbrt_bits b n (if r' * r' * r' <=? n then r' else r)
  end.

(** The first 32 bits of the fractional part of a cube root. *)
Definition frac_cbrt (p : N) : N := cbrt_bits 40 (p * 2 ^ 96) 0 mod 2 ^ 32.

(** The first 32 bits of the fractional part of a square root. *)
Definition frac_sqrt (p : N) : N := N.sqrt (p * 2 ^ 64) mod 2 ^ 32.

Definition K : list N := Eval vm_compute in List.map frac_cbrt primes.

Definition state : Type := N * N * N * N * N * N * N * N.

Definition H0 : state :=
  Eval vm_compute in
    (frac_sqrt 2, frac_sqrt 3, frac_sqrt 5, frac_sqrt 7,
     frac_sqrt 11, frac_sqrt 13, frac_sqrt 17, frac_sqrt 19).

(** The low 32 bits. *)
Definition low32 (x : N) : N := N.land x 0xFFFFFFFF.
Definition add32 (x y : N) : N := low32 (x + y).
Definition rotr (n x : N) : N := N.lor (N.shiftr x n) (low32 (N.shiftl x (32 - n))).
Definition not32 (x : N) : N := N.lxor x 0xFFFFFFFF.
Definition Ch (x y z : N) : N := N.lxor (N.land x y) (N.land (not32 x) z).
Definition Maj (x y z : N) : N :=
  N.lxor (N.lxor (N.land x y) (N.land x z)) (N.land y z).
Definition Sigma0 (x : N) : N := N.lxor (N.lxor (rotr 2 x) (rotr 13 x)) (rotr 22 x).
Definition Sigma1 (x : N) : N := N.lxor (N.lxor (rotr 6 x) (rotr 11 x)) (rotr 25 x).
Definition sigma0 (x : N) : N := N.lxor (N.lxor (rotr 7 x) (rotr 18 x)) (N.shiftr x 3).
Definition sigma1 (x : N) : N := N.lxor (N.lxor (rotr 17 x) (rotr 19 x)) (N.shiftr x 10).

(** Big-endian words of a block of bytes. *)
Fixpoint words (block : list N) : list N :=
  match block with
  | a :: b :: c :: d :: rest => (((a * 256 + b) * 256 + c) * 256 + d) :: words rest
  | _ => []
  end.

(** The message schedule, most recent word first: [n] more words. *)
Fixpoint schedule (n : nat) (ws : list N) : list N :=
  match n with
  | O => ws
  | S n' =>
      let w := add32 (add32 (sigma1 (nth 1 ws 0)) (nth 6 ws 0))
                     (add32 (sigma0 (nth 14 ws 0)) (nth 15 ws 0)) in
      schedule n' (w :: ws)
  end.

Definition round (s : state) (kw : N * N) : state :=
  let '(a, b, c, d, e, f, g, h) := s in
  let t1 := add32 (add32 (add32 h (Sigma1 e)) (add32 (Ch e f g) (fst kw))) (snd kw) in
  let t2 := add32 (Sigma0 a) (Maj a b c) in
  (add32 t1 t2, a, b, c, add32 d t1, e, f, g).

Definition compress (s : state) (block : list N) : state :=
  let ws := rev (schedule 48 (rev (words block))) in
  let '(a, b, c, d, e, f, g, h) := foldl round s (zip K ws) in
  let '(a0, b0, c0, d0, e0, f0, g0, h0) := s in
  (add32 a0 a, add32 b0 b, add32 c0 c, add32 d0 d,
   add32 e0 e, add32 f0 f, add32 g0 g, add32 h0 h).

(** [n] as [k] big-endian bytes. *)
Fixpoint be_bytes (k : nat) (n : N) : list N :=
  match k with
  | O => []
  | S k' => N.land (N.shiftr n (8 * N.of_nat k')) 0xFF :: be_bytes k' n
  end.

Definition pad (msg : list N) : list N :=
  let len := N.of_nat (length msg) in
  let zeros := N.to_nat ((119 - len mod 64) mod 64) in
  msg ++ [128] ++ repeat 0 zeros ++ be_bytes 8 (len * 8).

(** The blocks of a padded message: [n] blocks of 64 bytes. *)
Fixpoint blocks (n : nat) (msg : list N) : list (list N) :=
  match n with
  | O => []
  | S n' => take 64 msg :: blocks n' (drop 64 msg)
  end.

Definition digest (msg : bytes) : bytes :=
  let padded := pad (List.map Byte.to_N msg) in
  let '(a, b, c, d, e, f, g, h) :=
    foldl compress H0 (blocks (length padded / 64) padded) in
  List.map byte_of_N
    (be_bytes 4 a ++ be_bytes 4 b ++ be_bytes 4 c ++ be_bytes 4 d
     ++ be_bytes 4 e ++ be_bytes 4 f ++ be_bytes 4 g ++ be_bytes 4 h).

End SHA256.

Module HMAC.

Definition xor_pad (pad : byte) (key : bytes) : bytes :=
  List.map (fun k => byte_xor k pad) key.

(** HMAC over a hash with 64-byte blocks. *)
Definition sign (H : bytes -> bytes) (key data : bytes) : bytes :=
  let key0 := if decide (64 < length key)%nat then H key else key in
  let key0 := key0 ++ repeat x00 (64 - length key0) in
  H (xor_pad x5c key0 ++ H (xor_pad x36 key0 ++ data)).

End HMAC.

Module PBKDF2.

(** [U_1 xor ... xor U_c] where [u] is [U_j] and [acc] the sum so far. *)
Fixpoint iterate (prf : bytes -> bytes) (n : nat) (u acc : bytes) : bytes :=
  match n with
  | O => acc
  | S n' => let u' := prf u in iterate prf n' u' (xorArrayBuffer acc u')
  end.

Definition block (prf : bytes -> bytes) (salt : bytes) (c : nat) (i : N) : bytes :=
  match c with
  | O => []
  | S c' =>
      let u1 := prf (salt ++ List.map byte_of_N (SHA256.be_bytes 4 i)) in
      iterate prf c' u1 u1
  end.

(** [length] is in bits; [hLen] is the length of the PRF's output in
    bytes. An iteration count below 1 gives no bytes here;
    [Crypto.deriveBits_PBKDF2] refuses such a count before it derives. *)
Definition deriveBits (hmac : bytes -> bytes -> bytes) (hLen : nat)
    (password salt : bytes) (iterations length : Z) : bytes :=
  let dkLen := Z.to_nat (length / 8) in
  let n := ((dkLen + hLen - 1) / hLen)%nat in
  take dkLen
    (List.concat
       (List.map (fun i => block (hmac password) salt (Z.to_nat iterations) (N.of_nat i))
                 (seq 1 n))).

End PBKDF2.

Module Reference.

(** RFC 3454 B.1, commonly mapped to nothing. *)
Definition mapped_to_nothing (c : N) : bool :=
  ((c =? 0x00AD) || (c =? 0x034F) || (c =? 0x1806) || ((0x180B <=? c) && (c <=? 0x180D))
   || ((0x200B <=? c) && (c <=? 0x200D)) || (c =? 0x2060)
   || ((0xFE00 <=? c) && (c <=? 0xFE0F)) || (c =? 0xFEFF))%N.

(** RFC 3454 C.1.2, non-ASCII space characters. *)
Definition non_ascii_space (c : N) : bool :=
  ((c =? 0x00A0) || (c =? 0x1680) || ((0x2000 <=? c) && (c <=? 0x200B))
   || (c =? 0x202F) || (c =? 0x205F) || (c =? 0x3000))%N.

(** RFC 3454 C.2.1, ASCII control characters. *)
Definition ascii_control (c : N) : bool := ((c <=? 0x1F) || (c =? 0x7F))%N.

(** The package's steps on the code units it is evaluated at here: map,
    then refuse prohibited characters. Normalisation (NFKC), the other
    prohibited tables and the bidirectional check are left out, so the
    function stands for [saslPrep] on printable ASCII mixed with the
    characters of tables B.1 and C.1.2 only. *)
Definition prep (input : jsstring) : completion jsstring :=
  let mapped :=
    List.filter (fun c => negb (mapped_to_nothing c))
      (List.map (fun c => if non_ascii_space c then 0x20%N else c) input) in
  if existsb ascii_control mapped
  then Throw (Error (lit "Prohibited character, see https://tools.ietf.org/html/rfc4013#section-2.3"))
  else Return mapped.

Definition digest (algo : jsstring) (data : bytes) : bytes :=
  if decide (algo = lit "SHA-256") then SHA256.digest data else [].

Definition sign (algo : jsstring) (key data : bytes) : bytes :=
  if decide (algo = lit "SHA-256") then HMAC.sign SHA256.digest key data else [].

Definition deriveBits (algo : jsstring) (password salt : bytes) (iterations length : Z)
  : bytes :=
  if decide (algo = lit "SHA-256")
  then PBKDF2.deriveBits (HMAC.sign SHA256.digest) 32 password salt iterations length
  else [].

(** The platform with SHA-256 only. *)
Definition platform : Platform :=
  {| subtle_digest := digest; subtle_sign_HMAC := sign;
     subtle_deriveBits_PBKDF2 := deriveBits; saslPrep := prep |}.

End Reference.

(** Modelled from the spec: [ScramSha256] (algo/ScramSha256.ts is not among
    the sources); the hash algorithm with digest name SHA-256 whose output
    key length is the digest length, 256 bits. *)
Definition ScramSha256 : ScramAlgo.t :=
  {| ScramAlgo.algo := lit "SHA-256"; ScramAlgo.keylen := 256 |}.

(** ** The exchange of example.ts

    Both sides of one attempt; each message crosses as text and is read
    again by the receiver, as [runExample] does. *)

Definition on_client {S A : Type} (m : M ScramRequestClient.t A)
  : M (ScramRequestClient.t * S) A :=
  fun cs => let '(r, c) := m (fst cs) in (r, (c, snd cs)).

Definition on_server {C A : Type} (m : M ScramRequestServer.t A)
  : M (C * ScramRequestServer.t) A :=
  fun cs => let '(r, s) := m (snd cs) in (r, (fst cs, s)).

Definition runExchange {W : Platform} (c_random s_random : bytes) (username : jsstring)
    (saltedPassword : bytes)
  : M (ScramRequestClient.t * ScramRequestServer.t) (bool * bool) :=
  clientFirstMessage <- on_client (ScramRequestClient.createClientFirstMessage c_random username) ;;
  let clientFirstMessageText := ScramMessageClientFirst.getMessage clientFirstMessage in
  received <- lift (ScramMessageClientFirst.new clientFirstMessageText) ;;
  on_server (assign (ScramRequestServer.setClientFirstMessage received)) ;;;
  serverFirstMessage <- on_server (ScramRequestServer.createServerFirstMessage s_random) ;;
  let serverFirstMessageText := ScramMessageServerFirst.getMessage serverFirstMessage in
  received <- lift (ScramMessageServerFirst.new serverFirstMessageText) ;;
  on_client (assign (ScramRequestClient.setServerFirstMessage received)) ;;;
  clientFinalMessage <- on_client (ScramRequestClient.createClientFinalMessage saltedPassword) ;;
  let clientFinalMessageText := ScramMessageClientFinal.getMessage clientFinalMessage in
  received <- lift (ScramMessageClientFinal.new clientFinalMessageText) ;;
  on_server (assign (ScramRequestServer.setClientFinalMessage received)) ;;;
  serverFinalMessage <- on_server ScramRequestServer.createServerFinalMessage ;;
  match serverFinalMessage with
  | None => throw (Error (lit "TypeError"))
  | Some serverFinalMessage =>
      let serverFinalMessageText := ScramMessageServerFinal.getMessage serverFinalMessage in
      received <- lift (ScramMessageServerFinal.new serverFinalMessageText) ;;
      on_client (assign (ScramRequestClient.setServerFinalMessage received)) ;;;
      server_ok <- on_server ScramRequestServer.verifyClientFinalMessage ;;
      client_ok <- on_client (ScramRequestClient.verifyServerFinalMessage saltedPassword) ;;
      ret (server_ok, client_ok)
  end.

(** The registration of example.ts: the record stored for a user. *)
Definition registerUser {W : Platform} (algo : ScramAlgo.t) (username : jsstring)
    (salt : bytes) (saltedPassword : bytes) (iterations : Z) : ScramUser.t :=
  MockScramUser username salt iterations
    (ScramAlgo.getStoredKey algo saltedPassword)
    (ScramAlgo.getServerKey algo saltedPassword).

(** ** Messages named in the statements *)

(** The server-final message that reports [code], or [other-error] in its
    place when errors are concealed. *)
Definition error_reply (conceal : bool) (code : jsstring) : ScramMessageServerFinal.t :=
  let sent := if conceal then SCRAM_OTHER_ERROR else code in
  {| ScramMessageServerFinal.message := lit "e=" ++ sent;
     ScramMessageServerFinal.error := Some sent;
     ScramMessageServerFinal.verifier := None |}.

(** The server-final message that carries the verifier [proof]. *)
Definition verifier_reply (proof : jsstring) : ScramMessageServerFinal.t :=
  {| ScramMessageServerFinal.message := lit "v=" ++ proof;
     ScramMessageServerFinal.error := None;
     ScramMessageServerFinal.verifier := Some proof |}.

(** A message with its nonce field replaced, everything else kept. *)
Definition client_first_with_nonce (nonce : jsstring) (m : ScramMessageClientFirst.t)
  : ScramMessageClientFirst.t :=
  {| ScramMessageClientFirst.message := ScramMessageClientFirst.message m;
     ScramMessageClientFirst.messageBare := ScramMessageClientFirst.messageBare m;
     ScramMessageClientFirst.user := ScramMessageClientFirst.user m;
     ScramMessageClientFirst.gs2CbindFlag := ScramMessageClientFirst.gs2CbindFlag m;
     ScramMessageClientFirst.nonce := nonce;
     ScramMessageClientFirst.mext := ScramMessageClientFirst.mext m |}.

Definition server_first_with_nonce (nonce : jsstring) (m : ScramMessageServerFirst.t)
  : ScramMessageServerFirst.t :=
  {| ScramMessageServerFirst.message := ScramMessageServerFirst.message m;
     ScramMessageServerFirst.nonce := nonce;
     ScramMessageServerFirst.salt := ScramMessageServerFirst.salt m;
     ScramMessageServerFirst.iterations := ScramMessageServerFirst.iterations m |}.

Definition client_final_with_nonce (nonce : jsstring) (m : ScramMessageClientFinal.t)
  : ScramMessageClientFinal.t :=
  {| ScramMessageClientFinal.message := ScramMessageClientFinal.message m;
     ScramMessageClientFinal.messageWithoutProof := ScramMessageClientFinal.messageWithoutProof m;
     ScramMessageClientFinal.gs2Header := ScramMessageClientFinal.gs2Header m;
     ScramMessageClientFinal.nonce := nonce;
     ScramMessageClientFinal.clientProof := ScramMessageClientFinal.clientProof m |}.

(** The messages each side builds in an exchange, as records. *)
Definition built_client_first (username user nonce : jsstring) : ScramMessageClientFirst.t :=
  {| ScramMessageClientFirst.message := lit "n," ++ lit ",n=" ++ username ++ lit ",r=" ++ nonce;
     ScramMessageClientFirst.messageBare := lit "n=" ++ username ++ lit ",r=" ++ nonce;
     ScramMessageClientFirst.user := user;
     ScramMessageClientFirst.gs2CbindFlag := lit "n";
     ScramMessageClientFirst.nonce := nonce;
     ScramMessageClientFirst.mext := None |}.

Definition built_server_first (nonce : jsstring) (salt : bytes) (iterations parsed : Z)
  : ScramMessageServerFirst.t :=
  {| ScramMessageServerFirst.message :=
       lit "r=" ++ nonce ++ lit ",s=" ++ Base64.fromUint8Array salt
       ++ lit ",i=" ++ JS.Number_toString iterations;
     ScramMessageServerFirst.nonce := nonce;
     ScramMessageServerFirst.salt := salt;
     ScramMessageServerFirst.iterations := parsed |}.

Definition built_client_final (nonce proof : jsstring) : ScramMessageClientFinal.t :=
  {| ScramMessageClientFinal.message :=
       lit "c=" ++ lit "biws" ++ lit ",r=" ++ nonce ++ lit ",p=" ++ proof;
     ScramMessageClientFinal.messageWithoutProof := lit "c=" ++ lit "biws" ++ lit ",r=" ++ nonce;
     ScramMessageClientFinal.gs2Header := lit "biws";
     ScramMessageClientFinal.nonce := nonce;
     ScramMessageClientFinal.clientProof := proof |}.

(** The transcript of an exchange with these first messages and nonce. *)
Definition transcript (clientFirst : ScramMessageClientFirst.t)
    (serverFirst : ScramMessageServerFirst.t) (clientFinalWithoutProof : jsstring) : bytes :=
  TextEncoder.encode
    (JS.join [ScramMessageClientFirst.getMessageBare clientFirst;
              ScramMessageServerFirst.getMessage serverFirst;
              clientFinalWithoutProof] (lit ",")).

(** The proof the client sends for [saltedPassword] over [authMessage]. *)
Definition client_proof {W : Platform} (algo : ScramAlgo.t) (saltedPassword authMessage : bytes)
  : jsstring :=
  Base64.fromUint8Array
    (xorArrayBuffer (ScramAlgo.getClientKey algo saltedPassword)
       (ScramAlgo.hmac algo (ScramAlgo.getStoredKey algo saltedPassword) authMessage)).

(** The server that holds the three messages it verifies, and the client
    that holds all four. *)
Definition server_holding (clientFirst : ScramMessageClientFirst.t)
    (serverFirst : ScramMessageServerFirst.t) (clientFinal : ScramMessageClientFinal.t)
    (server : ScramRequestServer.t) : ScramRequestServer.t :=
  ScramRequestServer.setClientFinalMessage clientFinal
    (ScramRequestServer.setServerFirstMessage serverFirst
       (ScramRequestServer.setClientFirstMessage clientFirst server)).

Definition client_holding (clientFirst : ScramMessageClientFirst.t)
    (serverFirst : ScramMessageServerFirst.t) (clientFinal : ScramMessageClientFinal.t)
    (serverFinal : ScramMessageServerFinal.t)
    (client : ScramRequestClient.t) : ScramRequestClient.t :=
  ScramRequestClient.setServerFinalMessage serverFinal
    (ScramRequestClient.setClientFinalMessage clientFinal
       (ScramRequestClient.setServerFirstMessage serverFirst
          (ScramRequestClient.setClientFirstMessage clientFirst client))).

(** ** Sample data

    The messages of the repository's tests, and a user registered as the
    tests register theirs. *)

Module Sample.

Definition clientFirstText : jsstring := lit "n,,n=user,r=fyko+d2lbbFgONRv9qkxdawL".

Definition clientFirst : ScramMessageClientFirst.t :=
  {| ScramMessageClientFirst.message := clientFirstText;
     ScramMessageClientFirst.messageBare := lit "n=user,r=fyko+d2lbbFgONRv9qkxdawL";
     ScramMessageClientFirst.user := lit "user";
     ScramMessageClientFirst.gs2CbindFlag := lit "n";
     ScramMessageClientFirst.nonce := lit "fyko+d2lbbFgONRv9qkxdawL";
     ScramMessageClientFirst.mext := None |}.

Definition serverFirstText : jsstring :=
  lit "r=fyko+d2lbbFgONRv9qkxdawL3rfcNHYJY1ZVvWVs7j,s=QSXCR+Q6sek8bf92,i=4096".

Definition salt : bytes := Base64.toUint8Array (lit "QSXCR+Q6sek8bf92").

Definition serverFirst : ScramMessageServerFirst.t :=
  {| ScramMessageServerFirst.message := serverFirstText;
     ScramMessageServerFirst.nonce := lit "fyko+d2lbbFgONRv9qkxdawL3rfcNHYJY1ZVvWVs7j";
     ScramMessageServerFirst.salt := salt;
     ScramMessageServerFirst.iterations := 4096 |}.

(** The client after it has sent its first message and received the
    server's. *)
Definition client (options : ScramRequestClient.ScramRequestClientOptions)
  : ScramRequestClient.t :=
  ScramRequestClient.setServerFirstMessage serverFirst
    (ScramRequestClient.setClientFirstMessage clientFirst
       (ScramRequestClient.new ScramSha256 options)).

(** A server-first message that advertises a single iteration, and the
    client that received it. *)
Definition serverFirstOne : ScramMessageServerFirst.t :=
  {| ScramMessageServerFirst.message :=
       lit "r=fyko+d2lbbFgONRv9qkxdawL3rfcNHYJY1ZVvWVs7j,s=QSXCR+Q6sek8bf92,i=1";
     ScramMessageServerFirst.nonce := lit "fyko+d2lbbFgONRv9qkxdawL3rfcNHYJY1ZVvWVs7j";
     ScramMessageServerFirst.salt := salt;
     ScramMessageServerFirst.iterations := 1 |}.

Definition clientOne : ScramRequestClient.t :=
  ScramRequestClient.setServerFirstMessage serverFirstOne
    (ScramRequestClient.setClientFirstMessage clientFirst
       (ScramRequestClient.new ScramSha256 ScramRequestClient.no_options)).

(** A password with a soft hyphen (U+00AD), which SASLprep maps to nothing. *)
Definition softHyphenPassword : jsstring := lit "pass" ++ [173%N] ++ lit "word".

(** A salted password of 32 bytes. *)
Definition saltedPassword : bytes :=
  TextEncoder.encode (lit "0123456789abcdef0123456789abcdef").

Definition users : UserDictionary.t :=
  MockScramUserRepo.addUser
    (registerUser (W := Reference.platform) ScramSha256 (lit "user") salt saltedPassword 4096)
    UserDictionary.empty.

Definition server (options : ScramRequestServer.ScramRequestServerOptions)
  : ScramRequestServer.t :=
  ScramRequestServer.new ScramSha256 (MockScramUserRepo.repo users)
    (PepperedSaltGenerator (W := Reference.platform) ScramSha256
       (lit "this-should-be-very-random-and-big"))
    4096 options.

Definition clientFinalText : jsstring :=
  lit "c=biws,r=fyko+d2lbbFgONRv9qkxdawL3rfcNHYJY1ZVvWVs7j,p=v0X8v3Bz2T0CJGbJQyF0X+HI4Ts=".

Definition clientFinal : ScramMessageClientFinal.t :=
  {| ScramMessageClientFinal.message := clientFinalText;
     ScramMessageClientFinal.messageWithoutProof :=
       lit "c=biws,r=fyko+d2lbbFgONRv9qkxdawL3rfcNHYJY1ZVvWVs7j";
     ScramMessageClientFinal.gs2Header := lit "biws";
     ScramMessageClientFinal.nonce := lit "fyko+d2lbbFgONRv9qkxdawL3rfcNHYJY1ZVvWVs7j";
     ScramMessageClientFinal.clientProof := lit "v0X8v3Bz2T0CJGbJQyF0X+HI4Ts=" |}.

(** The server after it has received [first], sent its first message and
    received the client's final one. *)
Definition serverReady (options : ScramRequestServer.ScramRequestServerOptions)
    (first : ScramMessageClientFirst.t) : ScramRequestServer.t :=
  ScramRequestServer.setClientFinalMessage clientFinal
    (ScramRequestServer.setServerFirstMessage serverFirst
       (ScramRequestServer.setClientFirstMessage first (server options))).

(** The client-first messages of the tests that the server refuses. *)
Definition withExtension : ScramMessageClientFirst.t :=
  {| ScramMessageClientFirst.message := lit "n,,m=invalid,n=user,r=fyko+d2lbbFgONRv9qkxdawL";
     ScramMessageClientFirst.messageBare := lit "m=invalid,n=user,r=fyko+d2lbbFgONRv9qkxdawL";
     ScramMessageClientFirst.user := lit "user";
     ScramMessageClientFirst.gs2CbindFlag := lit "n";
     ScramMessageClientFirst.nonce := lit "fyko+d2lbbFgONRv9qkxdawL";
     ScramMessageClientFirst.mext := Some (lit "invalid") |}.

Definition withChannelBinding : ScramMessageClientFirst.t :=
  {| ScramMessageClientFirst.message := lit "p=invalid,,n=user,r=T5BSEsIUvPg4V6+P8T57c9mhSbdA";
     ScramMessageClientFirst.messageBare := lit "n=user,r=T5BSEsIUvPg4V6+P8T57c9mhSbdA";
     ScramMessageClientFirst.user := lit "user";
     ScramMessageClientFirst.gs2CbindFlag := lit "p=invalid";
     ScramMessageClientFirst.nonce := lit "T5BSEsIUvPg4V6+P8T57c9mhSbdA";
     ScramMessageClientFirst.mext := None |}.

Definition unknownUser : ScramMessageClientFirst.t :=
  {| ScramMessageClientFirst.message := lit "n,,n=invalid-user,r=fyko+d2lbbFgONRv9qkxdawL";
     ScramMessageClientFirst.messageBare := lit "n=invalid-user,r=fyko+d2lbbFgONRv9qkxdawL";
     ScramMessageClientFirst.user := lit "invalid-user";
     ScramMessageClientFirst.gs2CbindFlag := lit "n";
     ScramMessageClientFirst.nonce := lit "fyko+d2lbbFgONRv9qkxdawL";
     ScramMessageClientFirst.mext := None |}.

Definition concealing : ScramRequestServer.ScramRequestServerOptions :=
  {| ScramRequestServer.opt_concealErrors := Some true |}.

(** The user, password, salt and iteration count of the example of RFC 7677,
    the two 24-byte random buffers of an exchange, and the repository that
    holds the credentials derived from them. *)
Definition rfcPassword : jsstring := lit "pencil".
Definition rfcSalt : bytes := Base64.toUint8Array (lit "W22ZaJ0SNY7soEsUEjb6gQ==").
Definition rfcIterations : Z := 4096.
Definition clientRandom : bytes := TextEncoder.encode (lit "client-random-24-bytes!!").
Definition serverRandom : bytes := TextEncoder.encode (lit "server-random-24-bytes!!").

Definition rfcSaltedPassword : bytes :=
  subtle_deriveBits_PBKDF2 (Platform := Reference.platform) (lit "SHA-256")
    (TextEncoder.encode (lit "pencil")) rfcSalt rfcIterations 256.

Definition rfcUsers : UserDictionary.t :=
  MockScramUserRepo.addUser
    (registerUser (W := Reference.platform) ScramSha256 (lit "user") rfcSalt
       rfcSaltedPassword rfcIterations)
    UserDictionary.empty.

(** A client-final message whose nonce is not the one of [serverFirst],
    with the proof computed for [saltedPassword] over the transcript that
    the server holds: [clientFirst], [serverFirst] and this message without
    its proof. *)
Definition craftedClientFinalText : jsstring :=
  lit "c=biws,r=attacker-chosen-nonce,p=ErNy6K0zPJjBY/MtKO2kOzyHvBF72kRaXEN01kc9cAs=".

Definition craftedClientFinal : ScramMessageClientFinal.t :=
  {| ScramMessageClientFinal.message := craftedClientFinalText;
     ScramMessageClientFinal.messageWithoutProof := lit "c=biws,r=attacker-chosen-nonce";
     ScramMessageClientFinal.gs2Header := lit "biws";
     ScramMessageClientFinal.nonce := lit "attacker-chosen-nonce";
     ScramMessageClientFinal.clientProof :=
       lit "ErNy6K0zPJjBY/MtKO2kOzyHvBF72kRaXEN01kc9cAs=" |}.

(** A server-first message whose nonce does not begin with the nonce of
    [clientFirst], the client-final message the client builds from it for
    [saltedPassword], and the server-final message over that transcript. *)
Definition foreignServerFirstText : jsstring :=
  lit "r=3rfcNHYJY1ZVvWVs7j,s=QSXCR+Q6sek8bf92,i=4096".

Definition foreignServerFirst : ScramMessageServerFirst.t :=
  {| ScramMessageServerFirst.message := foreignServerFirstText;
     ScramMessageServerFirst.nonce := lit "3rfcNHYJY1ZVvWVs7j";
     ScramMessageServerFirst.salt := salt;
     ScramMessageServerFirst.iterations := 4096 |}.

Definition foreignClientFinal : ScramMessageClientFinal.t :=
  {| ScramMessageClientFinal.message :=
       lit "c=biws,r=3rfcNHYJY1ZVvWVs7j,p=NPfZKix+cVMaI67fxB352XD45f9dK1sRcAhXQBXAlqU=";
     ScramMessageClientFinal.messageWithoutProof := lit "c=biws,r=3rfcNHYJY1ZVvWVs7j";
     ScramMessageClientFinal.gs2Header := lit "biws";
     ScramMessageClientFinal.nonce := lit "3rfcNHYJY1ZVvWVs7j";
     ScramMessageClientFinal.clientProof :=
       lit "NPfZKix+cVMaI67fxB352XD45f9dK1sRcAhXQBXAlqU=" |}.

Definition foreignServerFinalText : jsstring :=
  lit "v=19Weco8C8Gk4QpMJe68ryKFTeDzb9PWxMFlNojBuVV4=".

End Sample.

(** ** Reading of the statements

    [cut c s] is the text of [s] before and after its first [c], in the
    words of the specification ("splits each segment at its first ="). *)

Fixpoint cut (c : N) (s : jsstring) : option (jsstring * jsstring) :=
  match s with
  | [] => None
  | x :: s' =>
      if N.eqb x c then Some ([], s')
      else match cut c s' with
           | Some (before, after) => Some (x :: before, after)
           | None => None
           end
  end.

(** The segments of [s] between the occurrences of [c]. *)
Fixpoint segments (c : N) (s : jsstring) : list jsstring :=
  match s with
  | [] => [[]]
  | x :: s' =>
      if N.eqb x c then [] :: segments c s'
      else match segments c s' with
           | seg :: rest => (x :: seg) :: rest
           | [] => [[x]]
           end
  end.

(** The reader as the specification words it: the key is the text before
    the first [=] of a segment and the value the exact text after it. *)
Definition readScramParamString_as_specified (str : jsstring) : gmap jsstring jsstring :=
  foldl (fun results segment =>
           match cut 61 segment with
           | Some (key, value) => <[key := value]> results
           | None => results
           end)
        ∅ (segments 44 str).

(** The parameter [key] that a segment carries with [value], as the code
    reads it: both sides of the first [=] are trimmed. *)
Definition carries (segment key value : jsstring) : Prop :=
  exists before after,
    cut 61 segment = Some (before, after)
    /\ JS.trim before = key /\ JS.trim after = value.

(** A parameter that can be extracted: present and not empty. *)
Definition extractable (key : string) (str : jsstring) : Prop :=
  JS.truthy (readScramParamString str !! lit key) = true.

(** The contract of a user repository at [username]: [find] returns the
    record exactly when [has] holds and fails as unknown-user otherwise. *)
Definition repo_contract (repo : ScramUserRepo.t) (username : jsstring) : Prop :=
  match ScramUserRepo.find repo username with
  | Return _ => ScramUserRepo.has repo username = true
  | Throw e => ScramUserRepo.has repo username = false /\ e = ScramError SCRAM_UNKNOWN_USER
  end.

(** What the loop body of [readScramParamString] does with one segment. *)
Definition param_step (results : gmap jsstring jsstring) (part : jsstring)
  : gmap jsstring jsstring :=
  match cut 61 part with
  | Some (before, after) =>
      if decide (JS.trim before = lit "__proto__") then results
      else <[JS.trim before := JS.trim after]> results
  | None => results
  end.

(** Exactly one of two propositions holds. *)
Definition exactly_one (A B : Prop) : Prop := (A /\ ~ B) \/ (~ A /\ B).

(** The text begins, after white space and an optional sign, with a decimal
    digit, or with [0x] and a hexadecimal digit: what [parseInt] needs to
    return a number. *)
Definition has_leading_digits (s : jsstring) : bool :=
  let '(_, s1) := JS.parseInt_sign (JS.trimStart s) in
  let '(radix, s2) := JS.parseInt_radix s1 in
  match s2 with
  | c :: _ => bool_decide (is_Some (JS.digitValue radix c))
  | [] => false
  end.

(** A code unit that is neither a comma nor white space. *)
Definition plain (c : N) : bool := negb (N.eqb c 44) && negb (JS.isWhiteSpace c).

(** A decimal digit. *)
Definition isDigit (c : N) : bool := ((48 <=? c) && (c <=? 57))%N.

(** ** example.ts: registration and [runExample] *)

(** [new MyScramUser(username, salt, iterations, serverKey, storedKey)]: the
    salt and the two keys arrive as Base64 text and are decoded. *)
Definition MyScramUser (username salt : jsstring) (iterations : Z)
    (serverKey storedKey : jsstring) : ScramUser.t :=
  {| ScramUser.getUsername := username;
     ScramUser.getSalt := Base64.toUint8Array salt;
     ScramUser.getIterations := iterations;
     ScramUser.getServerKey := Base64.toUint8Array serverKey;
     ScramUser.getStoredKey := Base64.toUint8Array storedKey |}.

(** The iteration count of the example. *)
Definition ITERATIONS : Z := 0x10000.

(** The in-memory repository of the example; its class reads as
    [MockScramUserRepo] does. *)
Module MyScramUserRepo.

Definition has (users : UserDictionary.t) (username : jsstring) : bool :=
  UserDictionary.Boolean (UserDictionary.get users username).

Definition find (users : UserDictionary.t) (username : jsstring)
  : completion UserDictionary.value :=
  if has users username then Return (UserDictionary.get users username)
  else Throw (ScramError SCRAM_UNKNOWN_USER).

(** The repository as a [ScramUserRepo]. *)
Definition repo (users : UserDictionary.t) : ScramUserRepo.t :=
  {| ScramUserRepo.find := fun username => UserDictionary.as_user (find users username);
     ScramUserRepo.has := has users |}.

Definition registerUser (user : ScramUser.t) (users : UserDictionary.t)
  : UserDictionary.t :=
  UserDictionary.set (ScramUser.getUsername user) user users.

End MyScramUserRepo.

(** [runExample()]. The three arguments are the bytes that
    [getRandomValues] writes: for the salt of the registration, for the
    client's nonce and for the server's. The calls of [console.log] are
    left out. *)
Definition runExample {W : Platform} (saltRandom c_random s_random : bytes)
  : completion bool :=
  let algo := ScramSha256 in
  let saltGenerator := RandomSaltGenerator algo saltRandom in
  match saslPrep (lit "test") with
  | Throw e => Throw e
  | Return username =>
      let saltBuffer := SaltGenerator.get saltGenerator username in
      let salt := Base64.fromUint8Array saltBuffer in
      match ScramAlgo.getSaltedPassword algo (lit "password") saltBuffer ITERATIONS with
      | Throw e => Throw e
      | Return saltedPassword =>
          let serverKey := Base64.fromUint8Array (ScramAlgo.getServerKey algo saltedPassword) in
          let storedKey := Base64.fromUint8Array (ScramAlgo.getStoredKey algo saltedPassword) in
          let users :=
            MyScramUserRepo.registerUser
              (MyScramUser username salt ITERATIONS serverKey storedKey)
              UserDictionary.empty in
          let serverRequest :=
            ScramRequestServer.new ScramSha256 (MyScramUserRepo.repo users) saltGenerator
              ITERATIONS ScramRequestServer.no_options in
          let clientRequest := ScramRequestClient.new ScramSha256 ScramRequestClient.no_options in
          fst ((clientFirstMessage <-
                  on_client (ScramRequestClient.createClientFirstMessage c_random username) ;;
                let clientFirstMessageText :=
                  ScramMessageClientFirst.getMessage clientFirstMessage in
                received <- lift (ScramMessageClientFirst.new clientFirstMessageText) ;;
                on_server (assign (ScramRequestServer.setClientFirstMessage received)) ;;;
                serverFirstMessage <-
                  on_server (ScramRequestServer.createServerFirstMessage s_random) ;;
                let serverFirstMessageText :=
                  ScramMessageServerFirst.getMessage serverFirstMessage in
                received <- lift (ScramMessageServerFirst.new serverFirstMessageText) ;;
                on_client (assign (ScramRequestClient.setServerFirstMessage received)) ;;;
                clientFinalMessage <-
                  on_client (ScramRequestClient.createClientFinalMessage saltedPassword) ;;
                let clientFinalMessageText :=
                  ScramMessageClientFinal.getMessage clientFinalMessage in
                received <- lift (ScramMessageClientFinal.new clientFinalMessageText) ;;
                on_server (assign (ScramRequestServer.setClientFinalMessage received)) ;;;
                serverFinalMessage <- on_server ScramRequestServer.createServerFinalMessage ;;
                match serverFinalMessage with
                | None => throw (Error (lit "TypeError"))
                | Some serverFinalMessage =>
                    let serverFinalMessageText :=
                      ScramMessageServerFinal.getMessage serverFinalMessage in
                    on_server ScramRequestServer.verifyClientFinalMessage ;;;
                    received <- lift (ScramMessageServerFinal.new serverFinalMessageText) ;;
                    on_client (assign (ScramRequestClient.setServerFinalMessage received)) ;;;
                    on_client (ScramRequestClient.verifyServerFinalMessage saltedPassword) ;;;
                    server_ok <- on_server ScramRequestServer.verifyClientFinalMessage ;;
                    if server_ok
                    then on_client (ScramRequestClient.verifyServerFinalMessage saltedPassword)
                    else ret false
                end)
                 (clientRequest, serverRequest))
      end
  end.

(** ** Further sample data *)

Module Cases.

(** A repository whose user [user] was stored without a salt. *)
Definition saltlessUsers : UserDictionary.t :=
  MockScramUserRepo.addUser (MockScramUser (lit "user") [] 4096 [] []) UserDictionary.empty.

(** The server over that repository, after it received the client-first
    message of the tests. *)
Definition saltlessServer : ScramRequestServer.t :=
  ScramRequestServer.setClientFirstMessage Sample.clientFirst
    (ScramRequestServer.new ScramSha256 (MockScramUserRepo.repo saltlessUsers)
       (PepperedSaltGenerator (W := Reference.platform) ScramSha256 (lit "pepper"))
       4096 ScramRequestServer.no_options).

(** A repository whose lookup fails with an error that is not a
    [ScramError]. *)
Definition failingRepo : ScramUserRepo.t :=
  {| ScramUserRepo.find := fun _ => Throw (Error (lit "connection lost"));
     ScramUserRepo.has := fun _ => true |}.

(** The server over that repository, after it received the three messages
    of the tests. *)
Definition failingServer : ScramRequestServer.t :=
  ScramRequestServer.setClientFinalMessage Sample.clientFinal
    (ScramRequestServer.setServerFirstMessage Sample.serverFirst
       (ScramRequestServer.setClientFirstMessage Sample.clientFirst
          (ScramRequestServer.new ScramSha256 failingRepo
             (PepperedSaltGenerator (W := Reference.platform) ScramSha256 (lit "pepper"))
             4096 ScramRequestServer.no_options))).

(** The server of the tests after it received the client-first message. *)
Definition receivingServer : ScramRequestServer.t :=
  ScramRequestServer.setClientFirstMessage Sample.clientFirst
    (Sample.server ScramRequestServer.no_options).

(** The client that holds the four messages of an exchange whose
    server-first nonce does not extend its own. *)
Definition answeredClient : ScramRequestClient.t :=
  client_holding Sample.clientFirst Sample.foreignServerFirst Sample.foreignClientFinal
    (verifier_reply (lit "19Weco8C8Gk4QpMJe68ryKFTeDzb9PWxMFlNojBuVV4="))
    (ScramRequestClient.new ScramSha256 ScramRequestClient.no_options).

(** A server-first message that advertises the iteration count 0, and the
    client that received it. *)
Definition zeroServerFirstText : jsstring :=
  lit "r=fyko+d2lbbFgONRv9qkxdawL3rfcNHYJY1ZVvWVs7j,s=QSXCR+Q6sek8bf92,i=0".

Definition zeroServerFirst : ScramMessageServerFirst.t :=
  {| ScramMessageServerFirst.message := zeroServerFirstText;
     ScramMessageServerFirst.nonce := lit "fyko+d2lbbFgONRv9qkxdawL3rfcNHYJY1ZVvWVs7j";
     ScramMessageServerFirst.salt := Sample.salt;
     ScramMessageServerFirst.iterations := 0 |}.

Definition zeroClient : ScramRequestClient.t :=
  ScramRequestClient.setServerFirstMessage zeroServerFirst
    (ScramRequestClient.setClientFirstMessage Sample.clientFirst
       (ScramRequestClient.new ScramSha256 ScramRequestClient.no_options)).

(** The salted password of the password [pencil] under the salt of the
    tests and one iteration. *)
Definition pencilSaltedPassword : bytes :=
  subtle_deriveBits_PBKDF2 (Platform := Reference.platform) (lit "SHA-256")
    (TextEncoder.encode (lit "pencil")) Sample.salt 1 256.

(** The server over a repository that holds, under [username], the
    credentials derived from [pencilSaltedPassword]. *)
Definition serverOf (username : jsstring) : ScramRequestServer.t :=
  ScramRequestServer.new ScramSha256
    (MockScramUserRepo.repo
       (MockScramUserRepo.addUser
          (registerUser (W := Reference.platform) ScramSha256 username Sample.salt
             pencilSaltedPassword 1)
          UserDictionary.empty))
    (PepperedSaltGenerator (W := Reference.platform) ScramSha256 (lit "pepper"))
    4096 ScramRequestServer.no_options.

End Cases.

(** ** Reading of the statements, continued *)

(** The text of [s] before and after its first occurrence of [sep]. *)
Fixpoint cut_at (sep s : jsstring) : option (jsstring * jsstring) :=
  if JS.startsWith sep s then Some ([], drop (length sep) s)
  else match s with
       | [] => None
       | x :: s' =>
           match cut_at sep s' with
           | Some (before, after) => Some (x :: before, after)
           | None => None
           end
       end.

(** The proof of a client-final text, given what follows its first [,p=]:
    the text up to the next [,p=], or all of it. *)
Definition proof_text (after : jsstring) : jsstring :=
  match cut_at (lit ",p=") after with
  | Some (proof, _) => proof
  | None => after
  end.

(** The server-first message that advertises [salt] and [iterations] under
    [nonce]. *)
Definition advertised (nonce : jsstring) (salt : bytes) (iterations : Z)
  : ScramMessageServerFirst.t :=
  {| ScramMessageServerFirst.message :=
       lit "r=" ++ nonce ++ lit ",s=" ++ Base64.fromUint8Array salt
       ++ lit ",i=" ++ JS.Number_toString iterations;
     ScramMessageServerFirst.nonce := nonce;
     ScramMessageServerFirst.salt := salt;
     ScramMessageServerFirst.iterations := iterations |}.

(** The auth message of the exchange of [runExchange]: the client draws
    [c_random] and names [username], read as [user]; the server draws
    [s_random] and advertises [salt] and [iterations]. *)
Definition exchange_auth_message (c_random s_random : bytes) (username user : jsstring)
    (salt : bytes) (iterations : Z) : bytes :=
  let nonce := Base64.fromUint8Array c_random ++ Base64.fromUint8Array s_random in
  transcript (built_client_first username user (Base64.fromUint8Array c_random))
    (advertised nonce salt iterations)
    (lit "c=" ++ lit "biws" ++ lit ",r=" ++ nonce).

(** * Statements *)

(** ** Strings *)

Lemma cut_Some c s before after :
  cut c s = Some (before, after) ->
  s = before ++ c :: after /\ Forall (fun x => x <> c) before.
Proof.
  revert before after. induction s as [|x s IH]; intros before after H; simpl in H.
  - discriminate.
  - destruct (N.eqb_spec x c) as [->|Hne].
    + inversion H; subst. split; [reflexivity | constructor].
    + destruct (cut c s) as [[b a]|] eqn:E; [|discriminate].
      inversion H; subst. destruct (IH _ _ eq_refl) as [-> Hb].
      split; [reflexivity | constructor; assumption].
Qed.

Lemma cut_None c s : cut c s = None <-> Forall (fun x => x <> c) s.
Proof.
  induction s as [|x s IH]; simpl.
  - split; [constructor | reflexivity].
  - destruct (N.eqb_spec x c) as [->|Hne].
    + split; [discriminate | intros H; inversion H; congruence].
    + destruct (cut c s) as [[b a]|] eqn:E.
      * split; [discriminate|]. intros H. inversion H; subst.
        apply IH in H3. discriminate.
      * split; [|reflexivity]. intros _. constructor; [assumption | apply IH; reflexivity].
Qed.

Lemma cut_app c before after :
  Forall (fun x => x <> c) before -> cut c (before ++ c :: after) = Some (before, after).
Proof.
  induction 1 as [|x b Hx Hb IH]; simpl.
  - rewrite N.eqb_refl. reflexivity.
  - destruct (N.eqb_spec x c); [contradiction|]. rewrite IH. reflexivity.
Qed.

Lemma indexOf_scan_char c s i :
  JS.indexOf_scan [c] s i
  = match cut c s with Some (before, _) => i + Z.of_nat (length before) | None => -1 end.
Proof.
  revert i. induction s as [|x s IH]; intros i; simpl.
  - reflexivity.
  - unfold JS.code_eqb. rewrite (N.eqb_sym c x).
    destruct (N.eqb x c); simpl.
    + lia.
    + rewrite IH. destruct (cut c s) as [[b a]|]; simpl; lia.
Qed.

Lemma clamp_of_nat len k : JS.clamp len (Z.of_nat k) = Nat.min k len.
Proof. unfold JS.clamp. lia. Qed.

Lemma indexOf_char s c (p : nat) :
  JS.indexOf s [c] (Z.of_nat p)
  = match cut c (drop p s) with
    | Some (before, _) => Z.of_nat (Nat.min p (length s)) + Z.of_nat (length before)
    | None => -1
    end.
Proof.
  unfold JS.indexOf. rewrite clamp_of_nat, indexOf_scan_char.
  destruct (Nat.le_ge_cases p (length s)) as [H|H].
  - rewrite Nat.min_l by assumption. reflexivity.
  - rewrite Nat.min_r by assumption.
    rewrite !drop_ge by lia. reflexivity.
Qed.

Lemma indexOf_char0 s c :
  JS.indexOf s [c] 0
  = match cut c s with Some (before, _) => Z.of_nat (length before) | None => -1 end.
Proof.
  change 0 with (Z.of_nat 0). rewrite indexOf_char, drop_0.
  destruct (cut c s) as [[b a]|]; [|reflexivity].
  rewrite Nat.min_0_l. reflexivity.
Qed.

Lemma substring_take s (k : nat) : JS.substring s 0 (Some (Z.of_nat k)) = take k s.
Proof.
  unfold JS.substring. rewrite clamp_of_nat.
  replace (JS.clamp (length s) 0) with 0%nat by (unfold JS.clamp; lia).
  rewrite Nat.min_0_l, Nat.max_0_l, Nat.sub_0_r, drop_0.
  destruct (Nat.le_ge_cases k (length s)) as [H|H].
  - rewrite Nat.min_l by assumption. reflexivity.
  - rewrite Nat.min_r by assumption. rewrite !take_ge by lia. reflexivity.
Qed.

Lemma substring_drop s (k : nat) : JS.substring s (Z.of_nat k) None = drop k s.
Proof.
  unfold JS.substring. rewrite clamp_of_nat.
  destruct (Nat.le_ge_cases k (length s)) as [H|H].
  - rewrite (Nat.min_l k) by assumption.
    rewrite Nat.min_l, Nat.max_r by lia.
    apply take_ge. rewrite length_drop. lia.
  - rewrite (Nat.min_r k) by assumption.
    rewrite Nat.min_id, Nat.max_id, Nat.sub_diag. rewrite (drop_ge s k) by lia. reflexivity.
Qed.

Lemma split_char s c : JS.split s [c] = segments c s.
Proof.
  unfold JS.split. induction s as [|x s IH]; simpl.
  - reflexivity.
  - unfold JS.code_eqb. rewrite (N.eqb_sym c x).
    destruct (N.eqb x c); simpl; rewrite IH; reflexivity.
Qed.

Lemma segments_no_sep c s : Forall (fun x => x <> c) s -> segments c s = [s].
Proof.
  induction 1 as [|x s Hx Hs IH]; simpl.
  - reflexivity.
  - destruct (N.eqb_spec x c); [contradiction|]. rewrite IH. reflexivity.
Qed.

Lemma segments_app c before after :
  Forall (fun x => x <> c) before ->
  segments c (before ++ c :: after) = before :: segments c after.
Proof.
  induction 1 as [|x b Hx Hb IH]; simpl.
  - rewrite N.eqb_refl. reflexivity.
  - destruct (N.eqb_spec x c); [contradiction|]. rewrite IH. reflexivity.
Qed.

(** ** The parameter reader *)

Lemma lit_comma : lit "," = [44%N].
Proof. reflexivity. Qed.

Lemma lit_equals : lit "=" = [61%N].
Proof. reflexivity. Qed.

Lemma readScramParamString_unfold str :
  readScramParamString str = foldl param_step ∅ (segments 44 str).
Proof.
  unfold readScramParamString. rewrite lit_comma, split_char.
  generalize (∅ : gmap jsstring jsstring) as results.
  induction (segments 44 str) as [|part parts IH]; intros results; simpl.
  - reflexivity.
  - rewrite <- IH. f_equal. unfold param_step.
    rewrite lit_equals, indexOf_char0.
    destruct (cut 61 part) as [[before after]|] eqn:E.
    + apply cut_Some in E as [-> _].
      destruct (decide (Z.of_nat (length before) ≠ -1)) as [_|H]; [|exfalso; apply H; lia].
      replace (Z.of_nat (length before) + 1) with (Z.of_nat (S (length before))) by lia.
      rewrite substring_take, substring_drop.
      rewrite take_app_length.
      change (before ++ 61%N :: after) with (before ++ [61%N] ++ after).
      rewrite app_assoc.
      replace (S (length before)) with (length (before ++ [61%N]))
        by (rewrite length_app; simpl; lia).
      rewrite drop_app_length. reflexivity.
    + destruct (decide (-1 ≠ -1)) as [H|_]; [contradiction | reflexivity].
Qed.

Lemma carries_functional segment key value value' :
  carries segment key value -> carries segment key value' -> value = value'.
Proof.
  intros (b & a & E & _ & <-) (b' & a' & E' & _ & <-). congruence.
Qed.

Lemma param_step_lookup results part key :
  key <> lit "__proto__" ->
  param_step results part !! key
  = match cut 61 part with
    | Some (before, after) =>
        if decide (JS.trim before = key) then Some (JS.trim after) else results !! key
    | None => results !! key
    end.
Proof.
  intros Hkey. unfold param_step. destruct (cut 61 part) as [[before after]|]; [|reflexivity].
  destruct (decide (JS.trim before = lit "__proto__")) as [E|E].
  - rewrite decide_False by congruence. reflexivity.
  - apply lookup_insert.
Qed.

(** The name [__proto__] is never stored. *)
Lemma foldl_param_step_proto parts results :
  results !! lit "__proto__" = None ->
  foldl param_step results parts !! lit "__proto__" = None.
Proof.
  revert results. induction parts as [|part parts IH]; intros results H; simpl; [exact H|].
  apply IH. unfold param_step.
  destruct (cut 61 part) as [[before after]|]; [|exact H].
  destruct (decide (JS.trim before = lit "__proto__")) as [E|E]; [exact H|].
  rewrite lookup_insert_ne by exact E. exact H.
Qed.

Lemma foldl_param_step_lookup parts results key value :
  key <> lit "__proto__" ->
  foldl param_step results parts !! key = Some value <->
  (exists i segment,
      parts !! i = Some segment /\ carries segment key value
      /\ forall j segment' value', (i < j)%nat -> parts !! j = Some segment' ->
                                   ~ carries segment' key value')
  \/ (results !! key = Some value
      /\ forall j segment' value', parts !! j = Some segment' -> ~ carries segment' key value').
Proof.
  intros Hkey.
  revert results. induction parts as [|part parts IH]; intros results; simpl.
  - split.
    + intros H. right. split; [assumption|]. intros j s v Hj. rewrite lookup_nil in Hj. discriminate.
    + intros [(i & s & Hi & _)|[H _]]; [rewrite lookup_nil in Hi; discriminate | assumption].
  - rewrite IH, param_step_lookup by exact Hkey. split.
    + intros [(i & s & Hi & Hc & Hlater)|[Hres Hnone]].
      * left. exists (S i), s. split; [assumption|]. split; [assumption|].
        intros [|j] s' v' Hlt Hj; [lia|]. apply (Hlater j); [lia | assumption].
      * destruct (cut 61 part) as [[before after]|] eqn:E.
        -- destruct (decide (JS.trim before = key)) as [Hk|Hk].
           ++ left. exists 0%nat, part. split; [reflexivity|]. split.
              ** exists before, after. inversion Hres. auto.
              ** intros [|j] s' v' Hlt Hj; [lia|]. apply (Hnone j). assumption.
           ++ right. split; [assumption|].
              intros [|j] s' v' Hj; [|apply (Hnone j); assumption].
              simpl in Hj. inversion Hj; subst s'.
              intros (b & a & E' & Hb & _). congruence.
        -- right. split; [assumption|].
           intros [|j] s' v' Hj; [|apply (Hnone j); assumption].
           simpl in Hj. inversion Hj; subst s'.
           intros (b & a & E' & _). congruence.
    + intros [(i & s & Hi & Hc & Hlater)|[Hres Hnone]].
      * destruct i as [|i].
        -- simpl in Hi. inversion Hi; subst s. right. split.
           ++ destruct Hc as (b & a & -> & Hb & Ha).
              rewrite decide_True by assumption. congruence.
           ++ intros j s' v' Hj. apply (Hlater (S j)); [lia | assumption].
        -- left. exists i, s. split; [assumption|]. split; [assumption|].
           intros j s' v' Hlt Hj. apply (Hlater (S j)); [lia | assumption].
      * right. split.
        -- destruct (cut 61 part) as [[before after]|] eqn:E; [|assumption].
           destruct (decide (JS.trim before = key)) as [Hk|Hk]; [|assumption].
           exfalso. apply (Hnone 0%nat part (JS.trim after)); [reflexivity|].
           exists before, after. auto.
        -- intros j s' v' Hj. apply (Hnone (S j)). assumption.
Qed.

Example readScramParamString_client_first :
  readScramParamString (lit "n,,n=user,r=JGJSURiTWKnNivjGf6Wz2vn7dcHvuP0U")
  = <[lit "r" := lit "JGJSURiTWKnNivjGf6Wz2vn7dcHvuP0U"]> (<[lit "n" := lit "user"]> ∅).
Proof. vm_compute. reflexivity. Qed.

(** C8, as stated, fails: the reader trims both sides of the first [=], so
    the value of [n] in ["n= user"] is ["user"], not the exact text [" user"]
    that follows the [=]; and the key [__proto__] of ["__proto__=x"] is
    mapped to nothing. *)
Lemma C8_counterexample :
  readScramParamString (lit "n= user") !! lit "n" = Some (lit "user")
  /\ readScramParamString_as_specified (lit "n= user") !! lit "n" = Some (lit " user")
  /\ readScramParamString (lit "n= user")
     <> readScramParamString_as_specified (lit "n= user")
  /\ readScramParamString (lit "__proto__=x") !! lit "__proto__" = None
  /\ readScramParamString_as_specified (lit "__proto__=x") !! lit "__proto__"
     = Some (lit "x").
Proof.
  split; [vm_compute; reflexivity|]. split; [vm_compute; reflexivity|].
  split; [|split; vm_compute; reflexivity].
  intros H.
  assert (E : readScramParamString (lit "n= user") !! lit "n"
              = readScramParamString_as_specified (lit "n= user") !! lit "n")
    by (rewrite H; reflexivity).
  vm_compute in E. discriminate E.
Qed.

(** C8, amended: for every [key] other than [__proto__],
    [readScramParamString] splits the string on [,] and maps [key] to
    [value] exactly when some segment carries them (the segment has a [=],
    the trimmed text before its first [=] is [key] and the trimmed text
    after it is [value]) and no later segment carries [key]; segments with
    no [=] carry nothing. *)
Theorem C8_readScramParamString_last_segment_wins (str key value : jsstring) :
  key <> lit "__proto__" ->
  (readScramParamString str !! key = Some value <->
   exists (i : nat) (segment : jsstring),
     JS.split str (lit ",") !! i = Some segment
     /\ carries segment key value
     /\ forall (j : nat) (segment' value' : jsstring),
          (i < j)%nat -> JS.split str (lit ",") !! j = Some segment' ->
          ~ carries segment' key value').
Proof.
  intros Hkey.
  rewrite readScramParamString_unfold, lit_comma, split_char,
    foldl_param_step_lookup by exact Hkey.
  split.
  - intros [H|[H _]]; [exact H | rewrite lookup_empty in H; discriminate].
  - intros H. left. exact H.
Qed.

(** C8 at the client-first message of the function's documentation: the
    key [n] is mapped to the user, which the last segment with that key
    carries. *)
Lemma C8_witness :
  lit "n" <> lit "__proto__"
  /\ (readScramParamString (lit "n,,n=user,r=JGJSURiTWKnNivjGf6Wz2vn7dcHvuP0U") !! lit "n"
      = Some (lit "user") <->
      exists (i : nat) (segment : jsstring),
        JS.split (lit "n,,n=user,r=JGJSURiTWKnNivjGf6Wz2vn7dcHvuP0U") (lit ",") !! i
        = Some segment
        /\ carries segment (lit "n") (lit "user")
        /\ forall (j : nat) (segment' value' : jsstring),
             (i < j)%nat ->
             JS.split (lit "n,,n=user,r=JGJSURiTWKnNivjGf6Wz2vn7dcHvuP0U") (lit ",") !! j
             = Some segment' ->
             ~ carries segment' (lit "n") value').
Proof.
  assert (H : lit "n" <> lit "__proto__") by discriminate.
  split; [exact H|].
  exact (C8_readScramParamString_last_segment_wins
           (lit "n,,n=user,r=JGJSURiTWKnNivjGf6Wz2vn7dcHvuP0U") (lit "n") (lit "user") H).
Defined.

(** ** Reading the server messages *)

Lemma truthy_or_false x : JS.truthy (ScramMessageServerFinal.or_false x) = JS.truthy x.
Proof.
  unfold ScramMessageServerFinal.or_false.
  destruct (JS.truthy x) eqn:E; [assumption | reflexivity].
Qed.

(** C7, as stated, fails: a server-final message that carries both an error
    and a verifier is read without error. *)
Lemma C7_counterexample :
  ScramMessageServerFinal.new (lit "e=invalid-proof,v=AAAA")
  = Return {| ScramMessageServerFinal.message := lit "e=invalid-proof,v=AAAA";
              ScramMessageServerFinal.error := Some (lit "invalid-proof");
              ScramMessageServerFinal.verifier := Some (lit "AAAA") |}
  /\ ~ exactly_one (extractable "e" (lit "e=invalid-proof,v=AAAA"))
                   (extractable "v" (lit "e=invalid-proof,v=AAAA")).
Proof.
  split; [vm_compute; reflexivity|].
  unfold exactly_one, extractable.
  intros [[_ H]|[H _]]; apply H; vm_compute; reflexivity.
Qed.

(** C7, amended: constructing a [ScramMessageServerFinal] succeeds exactly
    when at least one of the parameters [e] and [v] is extractable (present
    and not empty); with both absent it fails, with both present it
    succeeds and keeps both. *)
Theorem C7_server_final_reads_error_or_verifier (str : jsstring) :
  ((exists m, ScramMessageServerFinal.new str = Return m)
   <-> (extractable "e" str \/ extractable "v" str))
  /\ (~ extractable "e" str -> ~ extractable "v" str ->
      ScramMessageServerFinal.new str = Throw ScramMessageServerFinal.unreadable)
  /\ (forall m, ScramMessageServerFinal.new str = Return m ->
                ScramMessageServerFinal.getMessage m = str
                /\ (extractable "e" str ->
                    ScramMessageServerFinal.getError m = readScramParamString str !! lit "e")
                /\ (extractable "v" str ->
                    ScramMessageServerFinal.getVerifier m = readScramParamString str !! lit "v")).
Proof.
  unfold extractable, ScramMessageServerFinal.new.
  rewrite !truthy_or_false.
  unfold ScramMessageServerFinal.or_false.
  destruct (JS.truthy (readScramParamString str !! lit "e")) eqn:He;
    destruct (JS.truthy (readScramParamString str !! lit "v")) eqn:Hv; simpl.
  all: split; [split; [intros [m H]; try discriminate H; auto
                      | intros [H|H]; try discriminate H; eauto] |].
  all: split; [intros H1 H2; try reflexivity; exfalso; auto |].
  all: intros m H; inversion H; subst m; simpl.
  all: split; [reflexivity|]; split; intros H'; try discriminate H'; reflexivity.
Qed.

Lemma readDigits_acc radix s a : is_Some (JS.readDigits radix s (Some a)).
Proof.
  revert a. induction s as [|c s IH]; intros a; simpl.
  - eauto.
  - destruct (JS.digitValue radix c); [apply IH | eauto].
Qed.

Lemma readDigits_is_Some radix s :
  is_Some (JS.readDigits radix s None)
  <-> match s with c :: _ => is_Some (JS.digitValue radix c) | [] => False end.
Proof.
  destruct s as [|c s]; simpl.
  - split; [intros [x H]; discriminate | tauto].
  - destruct (JS.digitValue radix c) as [d|].
    + split; [eauto | intros _; apply readDigits_acc].
    + split; intros [x H]; discriminate.
Qed.

Lemma parseInt_is_Some s : is_Some (JS.parseInt s) <-> has_leading_digits s = true.
Proof.
  unfold JS.parseInt, has_leading_digits.
  destruct (JS.parseInt_sign (JS.trimStart s)) as [sign s1].
  destruct (JS.parseInt_radix s1) as [radix s2].
  transitivity (is_Some (JS.readDigits radix s2 None)).
  - destruct (JS.readDigits radix s2 None); split; intros [x Hx]; eauto; discriminate.
  - rewrite readDigits_is_Some. destruct s2 as [|c s2].
    + split; [tauto | discriminate].
    + rewrite bool_decide_eq_true. reflexivity.
Qed.

Lemma truthy_Some x : JS.truthy x = true -> exists s, x = Some s /\ s <> [].
Proof.
  destruct x as [[|c s]|]; simpl; try discriminate. intros _. eauto.
Qed.

Example server_first_of_the_tests :
  ScramMessageServerFirst.new
    (lit "r=fyko+d2lbbFgONRv9qkxdawL3rfcNHYJY1ZVvWVs7j,s=QSXCR+Q6sek8bf92,i=4096")
  = Return {| ScramMessageServerFirst.message :=
                lit "r=fyko+d2lbbFgONRv9qkxdawL3rfcNHYJY1ZVvWVs7j,s=QSXCR+Q6sek8bf92,i=4096";
              ScramMessageServerFirst.nonce := lit "fyko+d2lbbFgONRv9qkxdawL3rfcNHYJY1ZVvWVs7j";
              ScramMessageServerFirst.salt := Base64.toUint8Array (lit "QSXCR+Q6sek8bf92");
              ScramMessageServerFirst.iterations := 4096 |}.
Proof. vm_compute. reflexivity. Qed.

(** C6, as stated, fails: an [i] parameter with a negative value is read
    without error, and so is one with text after its digits. *)
Lemma C6_counterexample :
  ScramMessageServerFirst.new (lit "r=abc,s=QUJD,i=-5")
  = Return {| ScramMessageServerFirst.message := lit "r=abc,s=QUJD,i=-5";
              ScramMessageServerFirst.nonce := lit "abc";
              ScramMessageServerFirst.salt := [x41; x42; x43];
              ScramMessageServerFirst.iterations := -5 |}
  /\ readScramParamString (lit "r=abc,s=QUJD,i=-5") !! lit "i" = Some (lit "-5")
  /\ ~ (exists n, JS.parseInt (lit "-5") = Some n /\ 0 <= n)
  /\ ScramMessageServerFirst.iterations
       <$> (match ScramMessageServerFirst.new (lit "r=abc,s=QUJD,i=12abc") with
            | Return m => Some m
            | Throw _ => None
            end) = Some 12.
Proof.
  split; [vm_compute; reflexivity|]. split; [vm_compute; reflexivity|].
  split; [|vm_compute; reflexivity].
  intros (n & H & Hn). vm_compute in H. inversion H; subst n. lia.
Qed.

(** C6, amended: constructing a [ScramMessageServerFirst] succeeds exactly
    when the parameters [r], [s] and [i] are extractable and [parseInt]
    finds a number in [i], that is, [i] begins (after an optional sign) with
    a decimal digit, or with [0x] and a hexadecimal digit; the iteration
    count is the value [parseInt] gives, which may be negative, and text
    after the digits is ignored. *)
Theorem C6_server_first_reads_parsed_integer (str : jsstring) :
  ((exists m, ScramMessageServerFirst.new str = Return m)
   <-> (extractable "r" str /\ extractable "s" str
        /\ exists i, readScramParamString str !! lit "i" = Some i
                     /\ i <> [] /\ has_leading_digits i = true))
  /\ (forall m, ScramMessageServerFirst.new str = Return m ->
        ScramMessageServerFirst.getMessage m = str
        /\ readScramParamString str !! lit "r" = Some (ScramMessageServerFirst.getNonce m)
        /\ exists s i,
             readScramParamString str !! lit "s" = Some s
             /\ ScramMessageServerFirst.getSalt m = Base64.toUint8Array s
             /\ readScramParamString str !! lit "i" = Some i
             /\ JS.parseInt i = Some (ScramMessageServerFirst.getIterations m)).
Proof.
  unfold extractable, ScramMessageServerFirst.new.
  destruct (JS.truthy (readScramParamString str !! lit "r")) eqn:Hr; simpl;
    [|split; [split; [intros [m H]; discriminate | intros [H _]; discriminate]
             | intros m H; discriminate]].
  destruct (JS.truthy (readScramParamString str !! lit "s")) eqn:Hs; simpl;
    [|split; [split; [intros [m H]; discriminate | intros (_ & H & _); discriminate]
             | intros m H; discriminate]].
  destruct (truthy_Some _ Hr) as (r & Er & Hr').
  destruct (truthy_Some _ Hs) as (s & Es & Hs').
  destruct (JS.truthy (readScramParamString str !! lit "i")) eqn:Hi; simpl.
  - destruct (truthy_Some _ Hi) as (i & Ei & Hi').
    rewrite Er, Es, Ei. simpl.
    pose proof (parseInt_is_Some i) as P.
    destruct (JS.parseInt i) as [n|] eqn:En.
    + split.
      * split; [|eauto]. intros _. repeat split; try reflexivity.
        exists i. repeat split; [assumption|]. apply P. eauto.
      * intros m H. inversion H; subst m; simpl. repeat split. eauto 10.
    + split; [|intros m H; discriminate].
      split; [intros [m H]; discriminate|].
      intros (_ & _ & i' & Ei' & _ & Hd). inversion Ei'; subst i'.
      apply P in Hd. destruct Hd as [x Hx]. discriminate.
  - split; [|intros m H; discriminate].
    split; [intros [m H]; discriminate|].
    intros (_ & _ & i & Ei & Hne & _). rewrite Ei in Hi.
    destruct i; [contradiction | discriminate].
Qed.

Example sha256_abc :
  List.map Byte.to_N (SHA256.digest (TextEncoder.encode (lit "abc")))
  = [186; 120; 22; 191; 143; 1; 207; 234; 65; 65; 64; 222; 93; 174; 34; 35;
     176; 3; 97; 163; 150; 23; 122; 156; 180; 16; 255; 97; 242; 0; 21; 173]%N.
Proof. vm_compute. reflexivity. Qed.

Example hmac_sha256_fox :
  List.map Byte.to_N
    (HMAC.sign SHA256.digest (TextEncoder.encode (lit "key"))
       (TextEncoder.encode (lit "The quick brown fox jumps over the lazy dog")))
  = [247; 188; 131; 244; 48; 83; 132; 36; 177; 50; 152; 230; 170; 111; 177; 67;
     239; 77; 89; 161; 73; 70; 23; 89; 151; 71; 157; 188; 45; 26; 60; 216]%N.
Proof. vm_compute. reflexivity. Qed.

Example pbkdf2_sha256_two_iterations :
  List.map Byte.to_N
    (PBKDF2.deriveBits (HMAC.sign SHA256.digest) 32
       (TextEncoder.encode (lit "password")) (TextEncoder.encode (lit "salt")) 2 256)
  = [174; 77; 12; 149; 175; 107; 70; 211; 45; 10; 223; 249; 40; 240; 109; 208;
     42; 48; 63; 142; 243; 194; 81; 223; 214; 226; 216; 90; 149; 71; 76; 67]%N.
Proof. vm_compute. reflexivity. Qed.

(** ** Preconditions of the exchange operations *)

Example sample_client_first_reads :
  ScramMessageClientFirst.new (W := Reference.platform) Sample.clientFirstText
  = Return Sample.clientFirst.
Proof. vm_compute. reflexivity. Qed.

Example sample_server_first_reads :
  ScramMessageServerFirst.new Sample.serverFirstText = Return Sample.serverFirst.
Proof. vm_compute. reflexivity. Qed.

Section Preconditions.
Context {W : Platform}.

Lemma client_getSaltedPassword_missing password (this : ScramRequestClient.t) :
  ScramRequest.clientFirstMessage (ScramRequestClient.base this) = None
  \/ ScramRequest.serverFirstMessage (ScramRequestClient.base this) = None ->
  exists msg, ScramRequestClient.getSaltedPassword password this = (Throw (Error msg), this).
Proof.
  intros H. unfold ScramRequestClient.getSaltedPassword, bind, this_, throw.
  destruct (ScramRequest.clientFirstMessage (ScramRequestClient.base this)) as [cf|];
    destruct (ScramRequest.serverFirstMessage (ScramRequestClient.base this)) as [sf|];
    try (eexists; reflexivity).
  destruct H; discriminate.
Qed.

Lemma client_createClientFinalMessage_missing saltedPassword (this : ScramRequestClient.t) :
  ScramRequest.clientFirstMessage (ScramRequestClient.base this) = None
  \/ ScramRequest.serverFirstMessage (ScramRequestClient.base this) = None ->
  exists msg,
    ScramRequestClient.createClientFinalMessage saltedPassword this = (Throw (Error msg), this).
Proof.
  intros H. unfold ScramRequestClient.createClientFinalMessage, bind, this_, throw.
  destruct (ScramRequest.clientFirstMessage (ScramRequestClient.base this)) as [cf|];
    destruct (ScramRequest.serverFirstMessage (ScramRequestClient.base this)) as [sf|];
    try (eexists; reflexivity).
  destruct H; discriminate.
Qed.

Lemma client_verifyServerFinalMessage_missing saltedPassword (this : ScramRequestClient.t) :
  ScramRequest.clientFirstMessage (ScramRequestClient.base this) = None
  \/ ScramRequest.serverFirstMessage (ScramRequestClient.base this) = None
  \/ ScramRequest.clientFinalMessage (ScramRequestClient.base this) = None
  \/ ScramRequest.serverFinalMessage (ScramRequestClient.base this) = None ->
  exists msg,
    ScramRequestClient.verifyServerFinalMessage saltedPassword this = (Throw (Error msg), this).
Proof.
  intros H. unfold ScramRequestClient.verifyServerFinalMessage, bind, this_, throw.
  destruct (ScramRequest.clientFirstMessage (ScramRequestClient.base this)) as [cf|];
    destruct (ScramRequest.serverFirstMessage (ScramRequestClient.base this)) as [sf|];
    destruct (ScramRequest.clientFinalMessage (ScramRequestClient.base this)) as [cl|];
    destruct (ScramRequest.serverFinalMessage (ScramRequestClient.base this)) as [sl|];
    try (eexists; reflexivity).
  destruct H as [H|[H|[H|H]]]; discriminate.
Qed.

Lemma server_createServerFirstMessage_missing randomBuffer (this : ScramRequestServer.t) :
  ScramRequest.clientFirstMessage (ScramRequestServer.base this) = None ->
  exists msg,
    ScramRequestServer.createServerFirstMessage randomBuffer this = (Throw (Error msg), this).
Proof.
  intros H. unfold ScramRequestServer.createServerFirstMessage, bind, this_, throw.
  rewrite H. eexists; reflexivity.
Qed.

Lemma server_createServerFinalMessage_missing (this : ScramRequestServer.t) :
  ScramRequest.clientFirstMessage (ScramRequestServer.base this) = None
  \/ ScramRequest.serverFirstMessage (ScramRequestServer.base this) = None
  \/ ScramRequest.clientFinalMessage (ScramRequestServer.base this) = None ->
  exists msg, ScramRequestServer.createServerFinalMessage this = (Throw (Error msg), this).
Proof.
  intros H. unfold ScramRequestServer.createServerFinalMessage, bind, this_, throw.
  destruct (ScramRequest.clientFirstMessage (ScramRequestServer.base this)) as [cf|];
    destruct (ScramRequest.serverFirstMessage (ScramRequestServer.base this)) as [sf|];
    destruct (ScramRequest.clientFinalMessage (ScramRequestServer.base this)) as [cl|];
    try (eexists; reflexivity).
  destruct H as [H|[H|H]]; discriminate.
Qed.

Lemma server_verifyClientFinalMessage_missing (this : ScramRequestServer.t) :
  ScramRequest.clientFirstMessage (ScramRequestServer.base this) = None
  \/ ScramRequest.serverFirstMessage (ScramRequestServer.base this) = None
  \/ ScramRequest.clientFinalMessage (ScramRequestServer.base this) = None ->
  exists msg, ScramRequestServer.verifyClientFinalMessage this = (Throw (Error msg), this).
Proof.
  intros H. unfold ScramRequestServer.verifyClientFinalMessage, bind, this_, throw.
  destruct (ScramRequest.clientFirstMessage (ScramRequestServer.base this)) as [cf|];
    destruct (ScramRequest.serverFirstMessage (ScramRequestServer.base this)) as [sf|];
    destruct (ScramRequest.clientFinalMessage (ScramRequestServer.base this)) as [cl|];
    try (eexists; reflexivity).
  destruct H as [H|[H|H]]; discriminate.
Qed.

End Preconditions.

(** C9: each of the six exchange operations, called on an object one of
    whose required message slots is unset, throws an [Error] at once and
    leaves the object, and so its four message slots, as it was. *)
Theorem C9_missing_predecessor_throws_and_keeps_slots (W : Platform) :
  (forall password (client : ScramRequestClient.t),
      ScramRequest.clientFirstMessage (ScramRequestClient.base client) = None
      \/ ScramRequest.serverFirstMessage (ScramRequestClient.base client) = None ->
      exists msg,
        ScramRequestClient.getSaltedPassword password client = (Throw (Error msg), client))
  /\ (forall saltedPassword (client : ScramRequestClient.t),
      ScramRequest.clientFirstMessage (ScramRequestClient.base client) = None
      \/ ScramRequest.serverFirstMessage (ScramRequestClient.base client) = None ->
      exists msg,
        ScramRequestClient.createClientFinalMessage saltedPassword client
        = (Throw (Error msg), client))
  /\ (forall saltedPassword (client : ScramRequestClient.t),
      ScramRequest.clientFirstMessage (ScramRequestClient.base client) = None
      \/ ScramRequest.serverFirstMessage (ScramRequestClient.base client) = None
      \/ ScramRequest.clientFinalMessage (ScramRequestClient.base client) = None
      \/ ScramRequest.serverFinalMessage (ScramRequestClient.base client) = None ->
      exists msg,
        ScramRequestClient.verifyServerFinalMessage saltedPassword client
        = (Throw (Error msg), client))
  /\ (forall randomBuffer (server : ScramRequestServer.t),
      ScramRequest.clientFirstMessage (ScramRequestServer.base server) = None ->
      exists msg,
        ScramRequestServer.createServerFirstMessage randomBuffer server
        = (Throw (Error msg), server))
  /\ (forall server : ScramRequestServer.t,
      ScramRequest.clientFirstMessage (ScramRequestServer.base server) = None
      \/ ScramRequest.serverFirstMessage (ScramRequestServer.base server) = None
      \/ ScramRequest.clientFinalMessage (ScramRequestServer.base server) = None ->
      exists msg,
        ScramRequestServer.createServerFinalMessage server = (Throw (Error msg), server))
  /\ (forall server : ScramRequestServer.t,
      ScramRequest.clientFirstMessage (ScramRequestServer.base server) = None
      \/ ScramRequest.serverFirstMessage (ScramRequestServer.base server) = None
      \/ ScramRequest.clientFinalMessage (ScramRequestServer.base server) = None ->
      exists msg,
        ScramRequestServer.verifyClientFinalMessage server = (Throw (Error msg), server)).
Proof.
  repeat apply conj.
  - intros. apply client_getSaltedPassword_missing. assumption.
  - intros. apply client_createClientFinalMessage_missing. assumption.
  - intros. apply client_verifyServerFinalMessage_missing. assumption.
  - intros. apply server_createServerFirstMessage_missing. assumption.
  - intros. apply server_createServerFinalMessage_missing. assumption.
  - intros. apply server_verifyClientFinalMessage_missing. assumption.
Qed.

(** ** The client's bound on the iteration count *)

(** C5, as stated, fails: a server-first message may advertise the count 0,
    which is below the maximum, and [getSaltedPassword] throws all the same,
    since PBKDF2 refuses a count below 1. *)
Lemma C5_counterexample :
  ScramMessageServerFirst.new Cases.zeroServerFirstText = Return Cases.zeroServerFirst
  /\ ScramRequest.clientFirstMessage (ScramRequestClient.base Cases.zeroClient)
     = Some Sample.clientFirst
  /\ ScramRequest.serverFirstMessage (ScramRequestClient.base Cases.zeroClient)
     = Some Cases.zeroServerFirst
  /\ ScramMessageServerFirst.getIterations Cases.zeroServerFirst
     <= ScramRequestClient.maxIterations (ScramRequestClient.options Cases.zeroClient)
  /\ ScramRequestClient.getSaltedPassword (W := Reference.platform) (lit "pencil")
       Cases.zeroClient
     = (Throw (Error (lit "iterations: Is less than 1")), Cases.zeroClient).
Proof.
  split; [vm_compute; reflexivity|]. split; [reflexivity|]. split; [reflexivity|].
  split; [vm_compute; discriminate | reflexivity].
Qed.

(** C5, amended: with client-first and server-first set, [getSaltedPassword]
    throws its error about the iteration count exactly when the count of the
    server-first message exceeds the configured maximum; a count equal to or
    below the maximum goes to PBKDF2, for the password's bytes, the
    advertised salt and that count, and the call gives what PBKDF2 gives:
    the derived bytes for a count from 1 to 2^31 - 1, and the error of
    PBKDF2 for a count below 1. So the call throws exactly when the count
    exceeds the maximum or PBKDF2 refuses it, and it leaves the object as it
    was. The maximum is 16,777,215 unless the options set another. *)
Theorem C5_getSaltedPassword_iteration_bound (W : Platform)
    (client : ScramRequestClient.t) (password : jsstring)
    (clientFirst : ScramMessageClientFirst.t) (serverFirst : ScramMessageServerFirst.t) :
  ScramRequest.clientFirstMessage (ScramRequestClient.base client) = Some clientFirst ->
  ScramRequest.serverFirstMessage (ScramRequestClient.base client) = Some serverFirst ->
  let iterations := ScramMessageServerFirst.getIterations serverFirst in
  let maximum := ScramRequestClient.maxIterations (ScramRequestClient.options client) in
  let salt := ScramMessageServerFirst.getSalt serverFirst in
  let algo := ScramRequestClient.algo client in
  let derived := ScramAlgo.pbkdf2 algo (TextEncoder.encode password) salt iterations in
  (ScramRequestClient.getSaltedPassword password client
   = (Throw (Error (lit "Iteration count of " ++ JS.Number_toString iterations
                    ++ lit " exceeed maximum of " ++ JS.Number_toString maximum)),
      client)
   <-> maximum < iterations)
  /\ (iterations <= maximum ->
      ScramRequestClient.getSaltedPassword password client = (derived, client))
  /\ (1 <= iterations <= 2147483647 ->
      derived
      = Return (subtle_deriveBits_PBKDF2 (ScramAlgo.algo algo) (TextEncoder.encode password)
                  salt iterations (ScramAlgo.keylen algo)))
  /\ (iterations < 1 -> derived = Throw (Error (lit "iterations: Is less than 1")))
  /\ ((exists e, ScramRequestClient.getSaltedPassword password client = (Throw e, client))
      <-> maximum < iterations \/ exists e, derived = Throw e)
  /\ ScramRequestClient.maxIterations ScramRequestClient.DEFAULT_CONFIG = 16777215
  /\ (forall algo,
        ScramRequestClient.maxIterations
          (ScramRequestClient.options
             (ScramRequestClient.new algo ScramRequestClient.no_options)) = 16777215)
  /\ (forall algo limit,
        ScramRequestClient.maxIterations
          (ScramRequestClient.options
             (ScramRequestClient.new algo
                {| ScramRequestClient.opt_maxIterations := Some limit |})) = limit).
Proof.
  intros Hcf Hsf iterations maximum salt algo derived.
  assert (Hbelow : iterations < 1 ->
                   derived = Throw (Error (lit "iterations: Is less than 1"))).
  { intros H. unfold derived, ScramAlgo.pbkdf2, Crypto.deriveBits_PBKDF2.
    destruct (Z.ltb_spec iterations 1); [reflexivity | lia]. }
  assert (Hwithin : 1 <= iterations <= 2147483647 ->
                    derived
                    = Return (subtle_deriveBits_PBKDF2 (ScramAlgo.algo algo)
                                (TextEncoder.encode password) salt iterations
                                (ScramAlgo.keylen algo))).
  { intros H. unfold derived, ScramAlgo.pbkdf2, Crypto.deriveBits_PBKDF2, Crypto.INT_MAX.
    destruct (Z.ltb_spec iterations 1); [lia|].
    destruct (Z.ltb_spec 2147483647 iterations); [lia | reflexivity]. }
  assert (Hother : forall text,
             derived <> Throw (Error (lit "Iteration count of " ++ text))).
  { intros text. unfold derived, ScramAlgo.pbkdf2, Crypto.deriveBits_PBKDF2.
    destruct (iterations <? 1); [discriminate|].
    destruct (Crypto.INT_MAX <? iterations); discriminate. }
  unfold ScramRequestClient.getSaltedPassword, bind, this_, throw, lift.
  rewrite Hcf, Hsf. fold iterations. fold maximum. fold salt. fold algo. fold derived.
  destruct (Z.ltb_spec maximum iterations) as [Hlt|Hle].
  - split; [split; [intros _; assumption | intros _; reflexivity]|].
    split; [intros H; lia|]. split; [exact Hwithin|]. split; [exact Hbelow|].
    split; [split; [intros _; left; assumption | intros _; eexists; reflexivity]|].
    repeat split; reflexivity.
  - split.
    { split; [|intros H; lia]. intros H. exfalso.
      apply (Hother (JS.Number_toString iterations ++ lit " exceeed maximum of "
                     ++ JS.Number_toString maximum)).
      exact (f_equal fst H). }
    split; [intros _; reflexivity|]. split; [exact Hwithin|]. split; [exact Hbelow|].
    split.
    { split.
      - intros [e H]. right. exists e. exact (f_equal fst H).
      - intros [H|[e H]]; [lia|]. exists e. rewrite H. reflexivity. }
    repeat split; reflexivity.
Qed.

(** C5 at the sample client (iteration count 4096) with the maximum of the
    tests, 256. *)
Lemma C5_witness :
  (ScramRequest.clientFirstMessage
     (ScramRequestClient.base
        (Sample.client {| ScramRequestClient.opt_maxIterations := Some 256 |}))
   = Some Sample.clientFirst
   /\ ScramRequest.serverFirstMessage
        (ScramRequestClient.base
           (Sample.client {| ScramRequestClient.opt_maxIterations := Some 256 |}))
      = Some Sample.serverFirst)
  /\ (ScramRequestClient.getSaltedPassword (W := Reference.platform) (lit "pencil")
        (Sample.client {| ScramRequestClient.opt_maxIterations := Some 256 |})
      = (Throw (Error (lit "Iteration count of " ++ JS.Number_toString 4096
                       ++ lit " exceeed maximum of " ++ JS.Number_toString 256)),
         Sample.client {| ScramRequestClient.opt_maxIterations := Some 256 |})
      <-> 256 < 4096).
Proof.
  split; [split; reflexivity|].
  exact (proj1 (C5_getSaltedPassword_iteration_bound Reference.platform
                  (Sample.client {| ScramRequestClient.opt_maxIterations := Some 256 |})
                  (lit "pencil") Sample.clientFirst Sample.serverFirst
                  eq_refl eq_refl)).
Defined.

(** ** The key derivations *)

(** C2 on the code: [hmac(message, secret)] imports its second argument as
    the key, so [getClientKey] and [getServerKey] sign the salted password
    under the keys ["Client Key"] and ["Server Key"]; with HMAC-SHA-256 the
    results differ from the HMAC keyed by the salted password over those
    labels. [getStoredKey] is the hash of the client key. *)
Theorem C2_keys_are_keyed_by_the_label :
  (forall (W : Platform) (algo : ScramAlgo.t) (saltedPassword : bytes),
      ScramAlgo.getClientKey algo saltedPassword
      = subtle_sign_HMAC (ScramAlgo.algo algo)
          (TextEncoder.encode (lit "Client Key")) saltedPassword
      /\ ScramAlgo.getServerKey algo saltedPassword
         = subtle_sign_HMAC (ScramAlgo.algo algo)
             (TextEncoder.encode (lit "Server Key")) saltedPassword
      /\ ScramAlgo.getStoredKey algo saltedPassword
         = subtle_digest (ScramAlgo.algo algo) (ScramAlgo.getClientKey algo saltedPassword))
  /\ ScramAlgo.getClientKey (W := Reference.platform) ScramSha256 Sample.saltedPassword
     <> HMAC.sign SHA256.digest Sample.saltedPassword (TextEncoder.encode (lit "Client Key"))
  /\ ScramAlgo.getServerKey (W := Reference.platform) ScramSha256 Sample.saltedPassword
     <> HMAC.sign SHA256.digest Sample.saltedPassword (TextEncoder.encode (lit "Server Key")).
Proof.
  split; [intros W algo sp; repeat split; reflexivity|].
  split; intros H; vm_compute in H; discriminate H.
Qed.

(** C3 on the code: the client's [getSaltedPassword] encodes the password
    as given, while [ScramAlgo.getSaltedPassword] encodes its SASLprep
    form; for a password with a soft hyphen the two salted passwords,
    under the same salt and iteration count, differ. *)
Theorem C3_client_getSaltedPassword_skips_saslPrep :
  saslPrep (Platform := Reference.platform) Sample.softHyphenPassword
  = Return (lit "password")
  /\ fst (ScramRequestClient.getSaltedPassword (W := Reference.platform)
            Sample.softHyphenPassword Sample.clientOne)
     = Return (subtle_deriveBits_PBKDF2 (Platform := Reference.platform) (lit "SHA-256")
                 (TextEncoder.encode Sample.softHyphenPassword) Sample.salt 1 256)
  /\ ScramAlgo.getSaltedPassword (W := Reference.platform) ScramSha256
       Sample.softHyphenPassword Sample.salt 1
     = Return (subtle_deriveBits_PBKDF2 (Platform := Reference.platform) (lit "SHA-256")
                 (TextEncoder.encode (lit "password")) Sample.salt 1 256)
  /\ fst (ScramRequestClient.getSaltedPassword (W := Reference.platform)
            Sample.softHyphenPassword Sample.clientOne)
     <> ScramAlgo.getSaltedPassword (W := Reference.platform) ScramSha256
          Sample.softHyphenPassword Sample.salt 1.
Proof.
  split; [reflexivity|]. split; [reflexivity|]. split; [reflexivity|].
  intros H. vm_compute in H. discriminate H.
Qed.

(** ** Base64 *)

Lemma bytes_ind3 (P : bytes -> Prop) :
  P [] -> (forall a, P [a]) -> (forall a b, P [a; b]) ->
  (forall a b c rest, P rest -> P (a :: b :: c :: rest)) ->
  forall bs, P bs.
Proof.
  intros H0 H1 H2 H3 bs.
  assert (G : forall n bs, (length bs <= n)%nat -> P bs).
  { induction n as [|n IH]; intros l Hl.
    - destruct l; [assumption | simpl in Hl; lia].
    - destruct l as [|a [|b [|c rest]]]; auto.
      apply H3. apply IH. simpl in Hl. lia. }
  apply (G (length bs)). lia.
Qed.

Lemma char_plain i : plain (Base64.char i) = true.
Proof.
  unfold Base64.char. generalize (N.to_nat i) as n. intros n.
  do 64 (destruct n as [|n]; [reflexivity|]).
  destruct n; reflexivity.
Qed.

Lemma sextet_char i : (i < 64)%N -> Base64.sextet (Base64.char i) = Some i.
Proof.
  intros H. unfold Base64.char.
  rewrite <- (N2Nat.id i) at 2.
  assert (Hn : (N.to_nat i < 64)%nat) by lia.
  revert Hn. generalize (N.to_nat i) as n. intros n Hn.
  do 64 (destruct n as [|n]; [reflexivity|]).
  lia.
Qed.

Lemma fromUint8Array_plain bs : Forall (fun c => plain c = true) (Base64.fromUint8Array bs).
Proof.
  induction bs as [|a|a b|a b c rest IH] using bytes_ind3.
  - constructor.
  - repeat constructor; try apply char_plain.
  - repeat constructor; try apply char_plain.
  - change (Forall (fun c => plain c = true)
              ([Base64.char (Byte.to_N a / 4);
                Base64.char ((Byte.to_N a mod 4) * 16 + Byte.to_N b / 16);
                Base64.char ((Byte.to_N b mod 16) * 4 + Byte.to_N c / 64);
                Base64.char (Byte.to_N c mod 64)]%N ++ Base64.fromUint8Array rest)).
    apply Forall_app. split; [|assumption].
    repeat constructor; apply char_plain.
Qed.

Lemma fromUint8Array_nonempty bs : bs <> [] -> Base64.fromUint8Array bs <> [].
Proof.
  destruct bs as [|a [|b [|c rest]]]; intros H; try contradiction; discriminate.
Qed.

Lemma byte_of_to_N a : byte_of_N (Byte.to_N a) = a.
Proof.
  unfold byte_of_N. pose proof (Byte.to_N_bounded a) as Hb.
  rewrite N.mod_small by lia. rewrite Byte.of_to_N. reflexivity.
Qed.

Ltac euclid := zify; Z.to_euclidean_division_equations; lia.

Lemma byte_of_N_eq n a : n = Byte.to_N a -> byte_of_N n = a.
Proof. intros ->. apply byte_of_to_N. Qed.

(** Decoding the text of [bs] gives [bs] back. *)
Lemma toUint8Array_fromUint8Array bs :
  Base64.toUint8Array (Base64.fromUint8Array bs) = bs.
Proof.
  unfold Base64.toUint8Array.
  induction bs as [|a|a b|a b c rest IH] using bytes_ind3.
  - reflexivity.
  - pose proof (Byte.to_N_bounded a) as Ha.
    cbn [Base64.fromUint8Array omap list_omap].
    rewrite !sextet_char by euclid.
    change (Base64.sextet 61) with (@None N). cbn.
    f_equal. apply byte_of_N_eq. euclid.
  - pose proof (Byte.to_N_bounded a) as Ha. pose proof (Byte.to_N_bounded b) as Hb.
    cbn [Base64.fromUint8Array omap list_omap].
    rewrite !sextet_char by euclid.
    change (Base64.sextet 61) with (@None N). cbn.
    f_equal; [|f_equal]; apply byte_of_N_eq; euclid.
  - pose proof (Byte.to_N_bounded a) as Ha. pose proof (Byte.to_N_bounded b) as Hb.
    pose proof (Byte.to_N_bounded c) as Hc.
    change (Base64.fromUint8Array (a :: b :: c :: rest))
      with ([Base64.char (Byte.to_N a / 4);
             Base64.char ((Byte.to_N a mod 4) * 16 + Byte.to_N b / 16);
             Base64.char ((Byte.to_N b mod 16) * 4 + Byte.to_N c / 64);
             Base64.char (Byte.to_N c mod 64)]%N ++ Base64.fromUint8Array rest).
    cbn [app omap list_omap].
    rewrite !sextet_char by euclid.
    cbn [Base64.fromSextets app]. rewrite IH.
    f_equal; [|f_equal; [|f_equal]]; apply byte_of_N_eq; euclid.
Qed.

(** ** Exclusive or *)

Lemma xor_bits_cancel x y : xor_bits y (xor_bits x y) = x.
Proof.
  destruct x as (x0 & x1 & x2 & x3 & x4 & x5 & x6 & x7).
  destruct y as (y0 & y1 & y2 & y3 & y4 & y5 & y6 & y7).
  unfold xor_bits.
  repeat f_equal;
    match goal with |- xorb ?b (xorb ?a ?b) = ?a => destruct a, b; reflexivity end.
Qed.

Lemma byte_xor_cancel a b : byte_xor b (byte_xor a b) = a.
Proof.
  unfold byte_xor. rewrite Byte.to_bits_of_bits, xor_bits_cancel.
  apply Byte.of_bits_to_bits.
Qed.

Lemma length_xorArrayBuffer l r : length (xorArrayBuffer l r) = length l.
Proof.
  revert r. induction l as [|a l IH]; intros r; [reflexivity|].
  destruct r; simpl; rewrite IH; reflexivity.
Qed.

(** The proof of the client, combined again with the signature, is the
    client key. *)
Lemma xorArrayBuffer_cancel key signature :
  length key = length signature ->
  xorArrayBuffer signature (xorArrayBuffer key signature) = key.
Proof.
  revert signature. induction key as [|k key IH]; intros [|s signature] H;
    try discriminate; [reflexivity|].
  simpl. rewrite byte_xor_cancel, IH; [reflexivity|]. simpl in H. lia.
Qed.

(** ** Trimming and numbers *)

Lemma trimStart_plain s :
  Forall (fun c => JS.isWhiteSpace c = false) s -> JS.trimStart s = s.
Proof.
  destruct 1 as [|c s Hc Hs]; [reflexivity|]. simpl. rewrite Hc. reflexivity.
Qed.

Lemma trim_no_space s :
  Forall (fun c => JS.isWhiteSpace c = false) s -> JS.trim s = s.
Proof.
  intros H. unfold JS.trim, JS.trimEnd.
  rewrite (trimStart_plain s H).
  rewrite trimStart_plain by (apply Forall_rev; assumption).
  apply rev_involutive.
Qed.

Lemma plain_no_space s :
  Forall (fun c => plain c = true) s -> Forall (fun c => JS.isWhiteSpace c = false) s.
Proof.
  intros H0. eapply Forall_impl; [exact H0|]. intros c H. unfold plain in H.
  apply andb_true_iff in H as [_ H]. apply negb_true_iff in H. exact H.
Qed.

Lemma plain_no_comma s :
  Forall (fun c => plain c = true) s -> Forall (fun c => c <> 44%N) s.
Proof.
  intros H0. eapply Forall_impl; [exact H0|]. intros c H. unfold plain in H.
  apply andb_true_iff in H as [H _]. apply negb_true_iff in H.
  apply N.eqb_neq. exact H.
Qed.

Lemma digits_of_digits fuel n acc :
  Forall (fun c => isDigit c = true) acc ->
  Forall (fun c => isDigit c = true) (JS.digits_of fuel n acc).
Proof.
  revert n acc. induction fuel as [|fuel IH]; intros n acc H; simpl; [assumption|].
  assert (Hd : isDigit (48 + n mod 10) = true).
  { unfold isDigit. apply andb_true_iff. split; apply N.leb_le; euclid. }
  destruct (n / 10 =? 0)%N.
  - constructor; assumption.
  - apply IH. constructor; assumption.
Qed.

Lemma digits_of_nonempty fuel n acc : JS.digits_of (S fuel) n acc <> [].
Proof.
  revert n acc. induction fuel as [|fuel IH]; intros n acc.
  - simpl. destruct (n / 10 =? 0)%N; discriminate.
  - change (JS.digits_of (S (S fuel)) n acc)
      with (if (n / 10 =? 0)%N then (48 + n mod 10)%N :: acc
            else JS.digits_of (S fuel) (n / 10)%N ((48 + n mod 10)%N :: acc)).
    destruct (n / 10 =? 0)%N; [discriminate | apply IH].
Qed.

Lemma isDigit_cases c :
  isDigit c = true ->
  (c = 48 \/ c = 49 \/ c = 50 \/ c = 51 \/ c = 52 \/ c = 53 \/ c = 54 \/ c = 55
   \/ c = 56 \/ c = 57)%N.
Proof.
  unfold isDigit. intros H. apply andb_true_iff in H as [H1 H2].
  apply N.leb_le in H1. apply N.leb_le in H2. lia.
Qed.

Ltac digit_cases H :=
  apply isDigit_cases in H;
  destruct H as [->|[->|[->|[->|[->|[->|[->|[->|[->| ->]]]]]]]]].

Lemma isDigit_plain c : isDigit c = true -> plain c = true.
Proof. intros H. digit_cases H; reflexivity. Qed.

Lemma parseInt_radix_digits ds :
  Forall (fun c => isDigit c = true) ds -> JS.parseInt_radix ds = (10%N, ds).
Proof.
  intros H. destruct H as [|d ds Hd Hds]; [reflexivity|].
  digit_cases Hd; try reflexivity.
  destruct Hds as [|d2 ds Hd2 _]; [reflexivity|].
  digit_cases Hd2; reflexivity.
Qed.

Lemma parseInt_sign_digits ds :
  Forall (fun c => isDigit c = true) ds -> JS.parseInt_sign ds = (1, ds).
Proof.
  intros H. destruct H as [|d ds Hd Hds]; [reflexivity|].
  digit_cases Hd; reflexivity.
Qed.

(** The text of a number is a sign and digits: plain, not empty, and read
    by [parseInt] as a number. *)
Lemma Number_toString_shape z :
  Forall (fun c => plain c = true) (JS.Number_toString z)
  /\ JS.Number_toString z <> []
  /\ is_Some (JS.parseInt (JS.Number_toString z)).
Proof.
  unfold JS.Number_toString.
  set (ds := JS.digits_of (S (N.to_nat (N.log2 (Z.abs_N z)))) (Z.abs_N z) []).
  assert (Hd : Forall (fun c => isDigit c = true) ds)
    by (apply digits_of_digits; constructor).
  assert (Hne : ds <> []) by apply digits_of_nonempty.
  assert (Hp : Forall (fun c => plain c = true) ds)
    by (eapply Forall_impl; [exact Hd | exact isDigit_plain]).
  assert (Hparse : forall sign,
             is_Some (let '(radix, s2) := JS.parseInt_radix ds in
                      match JS.readDigits radix s2 None with
                      | Some n => Some (sign * Z.of_N n)
                      | None => None
                      end)).
  { intros sign. rewrite (parseInt_radix_digits ds Hd).
    destruct ds as [|d ds']; [contradiction|].
    inversion Hd as [|? ? Hd1 Hd2]; subst.
    assert (Hv : JS.digitValue 10 d = Some (d - 48)%N).
    { unfold JS.digitValue. fold (isDigit d). rewrite Hd1. reflexivity. }
    cbn [JS.readDigits]. rewrite Hv.
    destruct (readDigits_acc 10 ds' (d - 48)%N) as [n ->]. eauto. }
  destruct (Z.ltb_spec z 0) as [Hneg|Hpos].
  - split; [constructor; [reflexivity | exact Hp]|].
    split; [discriminate|].
    unfold JS.parseInt.
    change (JS.trimStart (45%N :: ds)) with (45%N :: ds).
    change (JS.parseInt_sign (45%N :: ds)) with (-1, ds).
    apply Hparse.
  - split; [exact Hp|]. split; [assumption|].
    unfold JS.parseInt.
    rewrite trimStart_plain by (apply plain_no_space; exact Hp).
    rewrite (parseInt_sign_digits ds Hd). apply Hparse.
Qed.

(** ** The messages the two sides build *)

Lemma param_step_pair results k v :
  k <> 61%N -> JS.isWhiteSpace k = false ->
  param_step results (k :: 61%N :: v) = <[[k] := JS.trim v]> results.
Proof.
  intros Hk Hw. unfold param_step. simpl.
  destruct (N.eqb_spec k 61) as [|_]; [contradiction|].
  rewrite (trim_no_space [k]) by (constructor; [assumption | constructor]).
  rewrite decide_False by discriminate. reflexivity.
Qed.

Lemma param_step_none results part :
  Forall (fun c => c <> 61%N) part -> param_step results part = results.
Proof.
  intros H. unfold param_step. apply cut_None in H. rewrite H. reflexivity.
Qed.

Lemma split_scan_nonempty sep skip s : JS.split_scan sep skip s <> [].
Proof.
  revert skip. induction s as [|c s IH]; intros skip; simpl; [discriminate|].
  destruct skip as [|k]; [|apply IH].
  destruct (JS.startsWith sep (c :: s)); [discriminate|].
  destruct (JS.split_scan sep 0 s); discriminate.
Qed.

(** Text with no comma is passed over by the scan for a separator that
    begins with a comma. *)
Lemma split_scan_no_comma sep x t :
  Forall (fun c => c <> 44%N) x ->
  JS.split_scan (44%N :: sep) 0 (x ++ t)
  = match JS.split_scan (44%N :: sep) 0 t with
    | piece :: rest => (x ++ piece) :: rest
    | [] => [x]
    end.
Proof.
  induction 1 as [|c x Hc Hx IH].
  - simpl. destruct (JS.split_scan (44%N :: sep) 0 t) eqn:E; [|reflexivity].
    exfalso. exact (split_scan_nonempty _ _ _ E).
  - cbn [app JS.split_scan JS.startsWith]. unfold JS.code_eqb.
    destruct (N.eqb_spec 44 c) as [<-|_]; [contradiction|].
    cbn [andb]. rewrite IH.
    destruct (JS.split_scan (44%N :: sep) 0 t) eqn:E; [|reflexivity].
    exfalso. exact (split_scan_nonempty _ _ _ E).
Qed.

Lemma split_scan_no_comma_all sep x :
  Forall (fun c => c <> 44%N) x -> JS.split_scan (44%N :: sep) 0 x = [x].
Proof.
  intros H. rewrite <- (app_nil_r x) at 1.
  rewrite split_scan_no_comma by assumption.
  simpl. rewrite app_nil_r. reflexivity.
Qed.

Lemma split_scan_comma_other c sep b rest :
  b <> c ->
  JS.split_scan (44%N :: c :: sep) 0 (44%N :: b :: rest)
  = match JS.split_scan (44%N :: c :: sep) 0 (b :: rest) with
    | piece :: r => (44%N :: piece) :: r
    | [] => [[44%N]]
    end.
Proof.
  intros H.
  change (JS.split_scan (44%N :: c :: sep) 0 (44%N :: b :: rest))
    with (if JS.code_eqb c b && JS.startsWith sep rest
          then [] :: JS.split_scan (44%N :: c :: sep) (length (44%N :: c :: sep) - 1) (b :: rest)
          else match JS.split_scan (44%N :: c :: sep) 0 (b :: rest) with
               | piece :: r => (44%N :: piece) :: r
               | [] => [[44%N]]
               end).
  unfold JS.code_eqb. destruct (N.eqb_spec c b) as [->|_]; [contradiction | reflexivity].
Qed.

Lemma split_scan_proof_separator t :
  JS.split_scan [44%N; 112%N; 61%N] 0 (44%N :: 112%N :: 61%N :: t)
  = [] :: JS.split_scan [44%N; 112%N; 61%N] 0 t.
Proof. reflexivity. Qed.

(** The client-final text splits at its [,p=] into the text without the
    proof and the proof. *)
Lemma split_client_final header nonce proof :
  Forall (fun c => c <> 44%N) header -> Forall (fun c => c <> 44%N) nonce ->
  Forall (fun c => c <> 44%N) proof ->
  JS.split (lit "c=" ++ header ++ lit ",r=" ++ nonce ++ lit ",p=" ++ proof) (lit ",p=")
  = [lit "c=" ++ header ++ lit ",r=" ++ nonce; proof].
Proof.
  intros Hh Hn Hp.
  change (JS.split (lit "c=" ++ header ++ lit ",r=" ++ nonce ++ lit ",p=" ++ proof)
            (lit ",p="))
    with (JS.split_scan [44%N; 112%N; 61%N] 0
            ((99%N :: 61%N :: header)
             ++ 44%N :: 114%N :: (61%N :: nonce) ++ 44%N :: 112%N :: 61%N :: proof)).
  rewrite split_scan_no_comma
    by (constructor; [discriminate | constructor; [discriminate | assumption]]).
  rewrite split_scan_comma_other by discriminate.
  change (114%N :: (61%N :: nonce) ++ 44%N :: 112%N :: 61%N :: proof)
    with ((114%N :: 61%N :: nonce) ++ 44%N :: 112%N :: 61%N :: proof).
  rewrite split_scan_no_comma
    by (constructor; [discriminate | constructor; [discriminate | assumption]]).
  rewrite split_scan_proof_separator.
  rewrite split_scan_no_comma_all by assumption.
  rewrite !app_nil_r.
  change (lit "c=" ++ header ++ lit ",r=" ++ nonce)
    with (99%N :: 61%N :: header ++ 44%N :: 114%N :: 61%N :: nonce).
  reflexivity.
Qed.

Lemma segments_join parts :
  Forall (Forall (fun c => c <> 44%N)) parts -> parts <> [] ->
  segments 44 (JS.join parts [44%N]) = parts.
Proof.
  induction 1 as [|p parts Hp Hparts IH]; intros Hne; [contradiction|].
  destruct parts as [|q parts].
  - simpl. apply segments_no_sep. assumption.
  - change (JS.join (p :: q :: parts) [44%N]) with (p ++ 44%N :: JS.join (q :: parts) [44%N]).
    rewrite segments_app by assumption. rewrite IH by discriminate. reflexivity.
Qed.

Lemma read_join parts :
  Forall (Forall (fun c => c <> 44%N)) parts -> parts <> [] ->
  readScramParamString (JS.join parts [44%N]) = foldl param_step ∅ parts.
Proof.
  intros H Hne. rewrite readScramParamString_unfold, segments_join by assumption.
  reflexivity.
Qed.

Ltac solve_parts :=
  repeat first [apply Forall_nil_2 | apply Forall_cons_2 | discriminate | assumption
               | apply plain_no_comma].

Lemma truthy_nonempty s : s <> [] -> JS.truthy (Some s) = true.
Proof. destruct s; [contradiction | reflexivity]. Qed.

Lemma no_comma_cons c s :
  c <> 44%N -> Forall (fun c => plain c = true) s -> Forall (fun c => c <> 44%N) (c :: 61%N :: s).
Proof.
  intros Hc Hs. constructor; [assumption|]. constructor; [discriminate|].
  apply plain_no_comma. assumption.
Qed.

Lemma trim_plain s : Forall (fun c => plain c = true) s -> JS.trim s = s.
Proof. intros H. apply trim_no_space, plain_no_space, H. Qed.

(** A server-final text with one parameter [e] or [v]. *)
Lemma server_final_error code :
  Forall (fun c => plain c = true) code -> code <> [] ->
  ScramMessageServerFinal.new (lit "e=" ++ code)
  = Return {| ScramMessageServerFinal.message := lit "e=" ++ code;
              ScramMessageServerFinal.error := Some code;
              ScramMessageServerFinal.verifier := None |}.
Proof.
  intros Hp Hne. unfold ScramMessageServerFinal.new.
  change (readScramParamString (lit "e=" ++ code))
    with (readScramParamString (JS.join [101%N :: 61%N :: code] [44%N])).
  rewrite read_join by solve_parts.
  cbn [foldl]. rewrite param_step_pair by (discriminate || reflexivity).
  rewrite trim_plain by assumption.
  change (lit "e") with [101%N]. change (lit "v") with [118%N].
  rewrite lookup_insert_eq, lookup_insert_ne, lookup_empty by discriminate.
  rewrite !truthy_or_false. unfold ScramMessageServerFinal.or_false.
  rewrite truthy_nonempty by assumption. reflexivity.
Qed.

Lemma server_final_verifier proof :
  Forall (fun c => plain c = true) proof -> proof <> [] ->
  ScramMessageServerFinal.new (lit "v=" ++ proof)
  = Return {| ScramMessageServerFinal.message := lit "v=" ++ proof;
              ScramMessageServerFinal.error := None;
              ScramMessageServerFinal.verifier := Some proof |}.
Proof.
  intros Hp Hne. unfold ScramMessageServerFinal.new.
  change (readScramParamString (lit "v=" ++ proof))
    with (readScramParamString (JS.join [118%N :: 61%N :: proof] [44%N])).
  rewrite read_join by solve_parts.
  cbn [foldl]. rewrite param_step_pair by (discriminate || reflexivity).
  rewrite trim_plain by assumption.
  change (lit "e") with [101%N]. change (lit "v") with [118%N].
  rewrite lookup_insert_eq, lookup_insert_ne, lookup_empty by discriminate.
  rewrite !truthy_or_false. unfold ScramMessageServerFinal.or_false.
  rewrite truthy_nonempty by assumption. reflexivity.
Qed.

(** The server-first text the server builds. *)
Lemma server_first_built nonce encodedSalt iterations :
  Forall (fun c => plain c = true) nonce -> nonce <> [] ->
  Forall (fun c => plain c = true) encodedSalt -> encodedSalt <> [] ->
  exists n,
    JS.parseInt (JS.Number_toString iterations) = Some n
    /\ ScramMessageServerFirst.new
         (lit "r=" ++ nonce ++ lit ",s=" ++ encodedSalt
          ++ lit ",i=" ++ JS.Number_toString iterations)
       = Return {| ScramMessageServerFirst.message :=
                     lit "r=" ++ nonce ++ lit ",s=" ++ encodedSalt
                     ++ lit ",i=" ++ JS.Number_toString iterations;
                   ScramMessageServerFirst.nonce := nonce;
                   ScramMessageServerFirst.salt := Base64.toUint8Array encodedSalt;
                   ScramMessageServerFirst.iterations := n |}.
Proof.
  intros Hn Hn' Hs Hs'.
  destruct (Number_toString_shape iterations) as (Hi & Hi' & [n Hparse]).
  exists n. split; [assumption|].
  unfold ScramMessageServerFirst.new.
  change (readScramParamString
            (lit "r=" ++ nonce ++ lit ",s=" ++ encodedSalt
             ++ lit ",i=" ++ JS.Number_toString iterations))
    with (readScramParamString
            (JS.join [114%N :: 61%N :: nonce; 115%N :: 61%N :: encodedSalt;
                      105%N :: 61%N :: JS.Number_toString iterations] [44%N])).
  rewrite read_join by solve_parts.
  cbn [foldl]. rewrite !param_step_pair by (discriminate || reflexivity).
  rewrite !trim_plain by assumption.
  change (lit "r") with [114%N]. change (lit "s") with [115%N].
  change (lit "i") with [105%N].
  rewrite lookup_insert_eq.
  rewrite (lookup_insert_ne _ [105%N] [115%N]), lookup_insert_eq by discriminate.
  rewrite !(lookup_insert_ne _ _ [114%N]), lookup_insert_eq by discriminate.
  rewrite !truthy_nonempty by assumption.
  cbn [negb orb default id]. rewrite Hparse. reflexivity.
Qed.

(** The client-final text the client builds. *)
Lemma client_final_built header nonce proof :
  Forall (fun c => plain c = true) header -> header <> [] ->
  Forall (fun c => plain c = true) nonce -> nonce <> [] ->
  Forall (fun c => plain c = true) proof -> proof <> [] ->
  ScramMessageClientFinal.new (lit "c=" ++ header ++ lit ",r=" ++ nonce ++ lit ",p=" ++ proof)
  = Return {| ScramMessageClientFinal.message :=
                lit "c=" ++ header ++ lit ",r=" ++ nonce ++ lit ",p=" ++ proof;
              ScramMessageClientFinal.messageWithoutProof :=
                lit "c=" ++ header ++ lit ",r=" ++ nonce;
              ScramMessageClientFinal.gs2Header := header;
              ScramMessageClientFinal.nonce := nonce;
              ScramMessageClientFinal.clientProof := proof |}.
Proof.
  intros Hh Hh' Hn Hn' Hp Hp'. unfold ScramMessageClientFinal.new.
  rewrite split_client_final by (apply plain_no_comma; assumption).
  cbn [lookup list_lookup default id].
  change (readScramParamString (lit "c=" ++ header ++ lit ",r=" ++ nonce))
    with (readScramParamString
            (JS.join [99%N :: 61%N :: header; 114%N :: 61%N :: nonce] [44%N])).
  rewrite read_join by solve_parts.
  cbn [foldl]. rewrite !param_step_pair by (discriminate || reflexivity).
  rewrite !trim_plain by assumption.
  change (lit "c") with [99%N]. change (lit "r") with [114%N].
  rewrite lookup_insert_eq.
  rewrite (lookup_insert_ne _ [114%N] [99%N]), lookup_insert_eq by discriminate.
  rewrite !truthy_nonempty by (assumption || discriminate).
  reflexivity.
Qed.

Lemma gs2_index rest :
  JS.indexOf (110%N :: 44%N :: 44%N :: rest) [44%N]
    (JS.indexOf (110%N :: 44%N :: 44%N :: rest) [44%N] 0 + 1) + 1 = 3.
Proof.
  assert (E : JS.indexOf (110%N :: 44%N :: 44%N :: rest) [44%N] 0 = 1)
    by (rewrite indexOf_char0; reflexivity).
  rewrite E. change (1 + 1) with (Z.of_nat 2).
  rewrite (indexOf_char (110%N :: 44%N :: 44%N :: rest) 44 2).
  reflexivity.
Qed.

(** The client-first text the client builds: the GS2 header [n,,], then
    the user name as given and the nonce. *)
Lemma client_first_built {W : Platform} username nonce user :
  Forall (fun c => c <> 44%N) username -> JS.trim username <> [] ->
  saslPrep (JS.trim username) = Return user -> user <> [] ->
  Forall (fun c => plain c = true) nonce -> nonce <> [] ->
  ScramMessageClientFirst.new (lit "n," ++ lit ",n=" ++ username ++ lit ",r=" ++ nonce)
  = Return {| ScramMessageClientFirst.message :=
                lit "n," ++ lit ",n=" ++ username ++ lit ",r=" ++ nonce;
              ScramMessageClientFirst.messageBare :=
                lit "n=" ++ username ++ lit ",r=" ++ nonce;
              ScramMessageClientFirst.user := user;
              ScramMessageClientFirst.gs2CbindFlag := lit "n";
              ScramMessageClientFirst.nonce := nonce;
              ScramMessageClientFirst.mext := None |}.
Proof.
  intros Hu Hu' Hprep Huser Hn Hn'. unfold ScramMessageClientFirst.new.
  rewrite lit_comma.
  change (lit "n," ++ lit ",n=" ++ username ++ lit ",r=" ++ nonce)
    with (110%N :: 44%N :: 44%N :: 110%N :: 61%N :: username ++ lit ",r=" ++ nonce).
  rewrite gs2_index.
  change 3 with (Z.of_nat 3). rewrite substring_take, substring_drop.
  cbn [take drop]. rewrite split_char.
  change (segments 44 [110%N; 44%N; 44%N]) with [[110%N]; []; ([] : jsstring)].
  cbn [lookup list_lookup].
  change (readScramParamString
            (110%N :: 44%N :: 44%N :: 110%N :: 61%N :: username ++ lit ",r=" ++ nonce))
    with (readScramParamString
            (JS.join [[110%N]; []; 110%N :: 61%N :: username; 114%N :: 61%N :: nonce]
               [44%N])).
  rewrite read_join by solve_parts.
  cbn [foldl].
  rewrite (param_step_none _ [110%N]) by solve_parts.
  rewrite (param_step_none _ []) by solve_parts.
  rewrite !param_step_pair by (discriminate || reflexivity).
  rewrite (trim_plain nonce) by assumption.
  change (lit "n") with [110%N]. change (lit "r") with [114%N].
  change (lit "m") with [109%N].
  rewrite lookup_insert_eq.
  rewrite (lookup_insert_ne _ [114%N] [110%N]), lookup_insert_eq by discriminate.
  rewrite !(lookup_insert_ne _ _ [109%N]), lookup_empty by discriminate.
  rewrite (truthy_nonempty (JS.trim username)) by assumption.
  cbn [negb default id]. rewrite Hprep.
  rewrite !truthy_nonempty by (assumption || discriminate).
  reflexivity.
Qed.

(** ** The server's final message *)

Lemma forallb_plain s : forallb plain s = true -> Forall (fun c => plain c = true) s.
Proof.
  induction s as [|c s IH]; simpl; intros H; [constructor|].
  apply andb_true_iff in H as [Hc Hs]. constructor; auto.
Qed.

Section ServerFinal.
Context {W : Platform}.

Lemma catch_reply (conceal : bool) (code : jsstring) (this : ScramRequestServer.t) :
  forallb plain code = true -> code <> [] ->
  match ScramMessageServerFinal.new
          (if conceal then lit "e=" ++ SCRAM_OTHER_ERROR else lit "e=" ++ code) with
  | Return a => (Return tt, ScramRequestServer.setServerFinalMessage a this)
  | Throw e => (Throw e, this)
  end
  = (Return tt, ScramRequestServer.setServerFinalMessage (error_reply conceal code) this).
Proof.
  intros Hp Hne. unfold error_reply.
  destruct conceal.
  - rewrite server_final_error by (apply forallb_plain; reflexivity) || discriminate.
    reflexivity.
  - rewrite server_final_error by (apply forallb_plain; assumption) || assumption.
    reflexivity.
Qed.

Lemma verifyClientFinalMessage_returns (this : ScramRequestServer.t) cf sf cl :
  ScramRequest.clientFirstMessage (ScramRequestServer.base this) = Some cf ->
  ScramRequest.serverFirstMessage (ScramRequestServer.base this) = Some sf ->
  ScramRequest.clientFinalMessage (ScramRequestServer.base this) = Some cl ->
  repo_contract (ScramRequestServer.repo this) (ScramMessageClientFirst.getUser cf) ->
  exists ok, ScramRequestServer.verifyClientFinalMessage this = (Return ok, this)
             /\ (ScramUserRepo.has (ScramRequestServer.repo this)
                   (ScramMessageClientFirst.getUser cf) = false -> ok = false).
Proof.
  intros Hcf Hsf Hcl Hrepo.
  unfold ScramRequestServer.verifyClientFinalMessage, bind, this_, ret, lift.
  rewrite Hcf, Hsf, Hcl. unfold repo_contract in Hrepo.
  destruct (ScramUserRepo.has (ScramRequestServer.repo this)
              (ScramMessageClientFirst.getUser cf)) eqn:Hhas; cbn [negb].
  - destruct (ScramUserRepo.find (ScramRequestServer.repo this)
                (ScramMessageClientFirst.getUser cf)) as [user|e];
      [|destruct Hrepo; discriminate].
    unfold ScramRequest.getAuthMessage. rewrite Hcf, Hsf.
    eexists. split; [reflexivity | discriminate].
  - eexists. split; [reflexivity | reflexivity].
Qed.

End ServerFinal.

(** C4: with client-first, server-first and client-final set, and a
    repository that keeps its contract for the user, [createServerFinalMessage]
    does not throw: it returns and stores a server-final message. The checks
    run in order: an extension gives [extensions-not-supported]; else a
    channel-binding flag other than [n] gives [channel-binding-not-supported];
    else an unknown user gives [unknown-user]; else a proof that does not
    verify gives [invalid-proof]; else the message carries the verifier. Each
    failure is the message [e=<code>], and with [concealErrors] every code
    sent is [other-error]. *)
Theorem C4_createServerFinalMessage_folds_failures (W : Platform)
    (server : ScramRequestServer.t)
    (clientFirst : ScramMessageClientFirst.t) (serverFirst : ScramMessageServerFirst.t)
    (clientFinal : ScramMessageClientFinal.t) :
  ScramRequest.clientFirstMessage (ScramRequestServer.base server) = Some clientFirst ->
  ScramRequest.serverFirstMessage (ScramRequestServer.base server) = Some serverFirst ->
  ScramRequest.clientFinalMessage (ScramRequestServer.base server) = Some clientFinal ->
  repo_contract (ScramRequestServer.repo server) (ScramMessageClientFirst.getUser clientFirst) ->
  let conceal := ScramRequestServer.concealErrors (ScramRequestServer.options server) in
  let username := ScramMessageClientFirst.getUser clientFirst in
  let extension := JS.truthy (ScramMessageClientFirst.getMext clientFirst) in
  let flag := ScramMessageClientFirst.getGS2CbindFlag clientFirst in
  let known := ScramUserRepo.has (ScramRequestServer.repo server) username in
  let verified := fst (ScramRequestServer.verifyClientFinalMessage server) in
  exists m,
    ScramRequestServer.createServerFinalMessage server
    = (Return (Some m), ScramRequestServer.setServerFinalMessage m server)
    /\ (extension = true -> m = error_reply conceal SCRAM_EXTENSIONS_NOT_SUPPORTED)
    /\ (extension = false -> flag <> lit "n" ->
        m = error_reply conceal SCRAM_CHANNEL_BINDING_NOT_SUPPORTED)
    /\ (extension = false -> flag = lit "n" -> known = false ->
        m = error_reply conceal SCRAM_UNKNOWN_USER)
    /\ (extension = false -> flag = lit "n" -> known = true -> verified = Return false ->
        m = error_reply conceal SCRAM_INVALID_PROOF)
    /\ (extension = false -> flag = lit "n" -> known = true -> verified = Return true ->
        forall user authMessage,
          ScramUserRepo.find (ScramRequestServer.repo server) username = Return user ->
          ScramRequest.getAuthMessage (ScramRequestServer.base server)
            (ScramMessageClientFinal.getMessageWithoutProof clientFinal)
          = Return authMessage ->
          ScramAlgo.hmac (ScramRequestServer.algo server) (ScramUser.getServerKey user)
            authMessage <> [] ->
          m = verifier_reply
                (Base64.fromUint8Array
                   (ScramAlgo.hmac (ScramRequestServer.algo server)
                      (ScramUser.getServerKey user) authMessage)))
    /\ (conceal = true ->
        forall code, ScramMessageServerFinal.getError m = Some code -> code = SCRAM_OTHER_ERROR).
Proof.
  intros Hcf Hsf Hcl Hrepo conceal username extension flag known verified.
  destruct (verifyClientFinalMessage_returns server _ _ _ Hcf Hsf Hcl Hrepo)
    as (ok & Hverify & Hok).
  assert (Hconceal : forall code,
             conceal = true ->
             forall c, ScramMessageServerFinal.getError (error_reply conceal code) = Some c ->
                       c = SCRAM_OTHER_ERROR).
  { intros code -> c H. inversion H. reflexivity. }
  cbv beta iota zeta delta [ScramRequestServer.createServerFinalMessage bind this_ try_catch
                              throw ret lift assign].
  rewrite Hcf, Hsf, Hcl. cbv beta iota.
  fold extension. fold flag. fold username. fold conceal.
  assert (Hverified : verified = Return ok) by (unfold verified; rewrite Hverify; reflexivity).
  destruct extension eqn:Hext.
  { (* an extension was requested *)
    exists (error_reply conceal SCRAM_EXTENSIONS_NOT_SUPPORTED).
    cbv beta iota delta [errorCode_text].
    rewrite catch_reply by (reflexivity || discriminate).
    split; [reflexivity|].
    repeat split; try discriminate; auto; try (intros; contradiction);
      try (intros Hc code Hcode; eapply Hconceal; eassumption). }
  destruct (bool_decide_reflect (flag = lit "n")) as [Hflag|Hflag]; cbn [negb].
  2:{ (* the channel-binding flag is not n *)
    exists (error_reply conceal SCRAM_CHANNEL_BINDING_NOT_SUPPORTED).
    cbv beta iota delta [errorCode_text].
    rewrite catch_reply by (reflexivity || discriminate).
    split; [reflexivity|].
    repeat split; try discriminate; auto; try (intros; contradiction);
      try (intros Hc code Hcode; eapply Hconceal; eassumption). }
  unfold repo_contract in Hrepo. fold username in Hrepo. fold known in Hrepo. fold known in Hok.
  destruct (ScramUserRepo.find (ScramRequestServer.repo server) username) as [user|e] eqn:Hfind.
  2:{ (* the user is unknown *)
    destruct Hrepo as [Hknown ->].
    exists (error_reply conceal SCRAM_UNKNOWN_USER).
    cbv beta iota delta [errorCode_text].
    rewrite catch_reply by (reflexivity || discriminate).
    split; [reflexivity|].
    repeat split; try discriminate; auto; try (intros; congruence);
      try (intros Hc code Hcode; eapply Hconceal; eassumption). }
  assert (Hauth : exists authMessage,
             ScramRequest.getAuthMessage (ScramRequestServer.base server)
               (ScramMessageClientFinal.getMessageWithoutProof clientFinal)
             = Return authMessage).
  { unfold ScramRequest.getAuthMessage. rewrite Hcf, Hsf. eexists. reflexivity. }
  destruct Hauth as [authMessage Hauth]. rewrite Hauth, Hverify. cbv beta iota.
  destruct ok; cbn [negb]; cbv beta iota.
  2:{ (* the proof does not verify *)
    exists (error_reply conceal SCRAM_INVALID_PROOF).
    cbv beta iota delta [errorCode_text].
    rewrite catch_reply by (reflexivity || discriminate).
    split; [reflexivity|].
    repeat split; try discriminate; auto; try (intros; congruence);
      try (intros Hc code Hcode; eapply Hconceal; eassumption). }
  destruct (ScramAlgo.hmac (ScramRequestServer.algo server) (ScramUser.getServerKey user)
              authMessage) as [|b signature] eqn:Hsig.
  - (* a platform whose HMAC is empty: the verifier cannot be read back *)
    exists (error_reply conceal (lit "undefined")).
    change (ScramMessageServerFinal.new (lit "v=" ++ Base64.fromUint8Array []))
      with (@Throw ScramMessageServerFinal.t ScramMessageServerFinal.unreadable).
    cbv beta iota delta [errorCode_text ScramMessageServerFinal.unreadable].
    rewrite catch_reply by (reflexivity || discriminate).
    split; [reflexivity|].
    repeat split; try discriminate; auto; try (intros; congruence);
      try (intros Hc code Hcode; eapply Hconceal; eassumption).
  - (* the verifier is sent *)
    exists (verifier_reply (Base64.fromUint8Array (b :: signature))).
    rewrite server_final_verifier
      by (apply fromUint8Array_plain || (apply fromUint8Array_nonempty; discriminate)).
    cbv beta iota.
    split; [reflexivity|].
    repeat split; try discriminate; auto; try (intros; congruence);
      try (intros Hc code Hcode; discriminate Hcode).
Qed.

(** ** The dictionary of users *)

Lemma get_set_same users name u :
  name <> lit "__proto__" ->
  UserDictionary.get (UserDictionary.set name u users) name = UserDictionary.user u.
Proof.
  intros H. unfold UserDictionary.get, UserDictionary.set.
  rewrite decide_False by exact H. cbn [UserDictionary.own].
  rewrite lookup_insert_eq. reflexivity.
Qed.

Lemma get_set_other users name name' u :
  name <> lit "__proto__" -> name' <> name ->
  UserDictionary.get (UserDictionary.set name u users) name'
  = UserDictionary.get users name'.
Proof.
  intros H H'. unfold UserDictionary.get, UserDictionary.set.
  rewrite decide_False by exact H. cbn [UserDictionary.own UserDictionary.prototype].
  rewrite lookup_insert_ne by congruence. reflexivity.
Qed.

Lemma mock_repo_added user users :
  ScramUser.getUsername user <> lit "__proto__" ->
  ScramUserRepo.has (MockScramUserRepo.repo (MockScramUserRepo.addUser user users))
    (ScramUser.getUsername user) = true
  /\ ScramUserRepo.find (MockScramUserRepo.repo (MockScramUserRepo.addUser user users))
       (ScramUser.getUsername user) = Return user.
Proof.
  intros H.
  unfold MockScramUserRepo.repo, MockScramUserRepo.find, MockScramUserRepo.has,
    MockScramUserRepo.addUser.
  cbn [ScramUserRepo.find ScramUserRepo.has].
  rewrite get_set_same by exact H. split; reflexivity.
Qed.

Lemma my_repo_registered user users :
  ScramUser.getUsername user <> lit "__proto__" ->
  ScramUserRepo.has (MyScramUserRepo.repo (MyScramUserRepo.registerUser user users))
    (ScramUser.getUsername user) = true
  /\ ScramUserRepo.find (MyScramUserRepo.repo (MyScramUserRepo.registerUser user users))
       (ScramUser.getUsername user) = Return user.
Proof.
  intros H.
  unfold MyScramUserRepo.repo, MyScramUserRepo.find, MyScramUserRepo.has,
    MyScramUserRepo.registerUser.
  cbn [ScramUserRepo.find ScramUserRepo.has].
  rewrite get_set_same by exact H. split; reflexivity.
Qed.

(** A name that the dictionary does not read: the repository does not have
    it. *)
Lemma mock_repo_absent users username :
  UserDictionary.get users username = UserDictionary.undefined ->
  ScramUserRepo.has (MockScramUserRepo.repo users) username = false
  /\ ScramUserRepo.find (MockScramUserRepo.repo users) username
     = Throw (ScramError SCRAM_UNKNOWN_USER).
Proof.
  intros H.
  unfold MockScramUserRepo.repo, MockScramUserRepo.find, MockScramUserRepo.has.
  cbn [ScramUserRepo.find ScramUserRepo.has]. rewrite H. split; reflexivity.
Qed.

(** The mock repository keeps the contract at a name under which its
    dictionary reads a user, or nothing. *)
Lemma mock_repo_contract users username :
  match UserDictionary.get users username with
  | UserDictionary.user _ | UserDictionary.undefined => True
  | _ => False
  end ->
  repo_contract (MockScramUserRepo.repo users) username.
Proof.
  unfold repo_contract, MockScramUserRepo.repo, MockScramUserRepo.find, MockScramUserRepo.has.
  cbn [ScramUserRepo.find ScramUserRepo.has].
  destruct (UserDictionary.get users username); simpl; try contradiction; auto.
Qed.

Lemma sample_repo_contract :
  repo_contract
    (ScramRequestServer.repo
       (Sample.serverReady ScramRequestServer.no_options Sample.clientFirst))
    (ScramMessageClientFirst.getUser Sample.clientFirst).
Proof.
  apply (mock_repo_contract Sample.users (lit "user")). vm_compute. exact I.
Qed.

(** C4 at the sample server, which has received the three messages of the
    tests. *)
Lemma C4_witness :
  (ScramRequest.clientFirstMessage
     (ScramRequestServer.base
        (Sample.serverReady ScramRequestServer.no_options Sample.clientFirst))
   = Some Sample.clientFirst
   /\ ScramRequest.serverFirstMessage
        (ScramRequestServer.base
           (Sample.serverReady ScramRequestServer.no_options Sample.clientFirst))
      = Some Sample.serverFirst
   /\ ScramRequest.clientFinalMessage
        (ScramRequestServer.base
           (Sample.serverReady ScramRequestServer.no_options Sample.clientFirst))
      = Some Sample.clientFinal
   /\ repo_contract
        (ScramRequestServer.repo
           (Sample.serverReady ScramRequestServer.no_options Sample.clientFirst))
        (ScramMessageClientFirst.getUser Sample.clientFirst))
  /\ exists m,
       ScramRequestServer.createServerFinalMessage (W := Reference.platform)
         (Sample.serverReady ScramRequestServer.no_options Sample.clientFirst)
       = (Return (Some m),
          ScramRequestServer.setServerFinalMessage m
            (Sample.serverReady ScramRequestServer.no_options Sample.clientFirst)).
Proof.
  split.
  - split; [reflexivity|]. split; [reflexivity|]. split; [reflexivity|].
    exact sample_repo_contract.
  - destruct (C4_createServerFinalMessage_folds_failures Reference.platform
                (Sample.serverReady ScramRequestServer.no_options Sample.clientFirst)
                Sample.clientFirst Sample.serverFirst Sample.clientFinal
                eq_refl eq_refl eq_refl sample_repo_contract) as (m & H & _).
    exists m. exact H.
Defined.

Example sample_client_final_reads :
  ScramMessageClientFinal.new Sample.clientFinalText = Return Sample.clientFinal.
Proof. vm_compute. reflexivity. Qed.

Example sample_refused_client_firsts_read :
  ScramMessageClientFirst.new (W := Reference.platform)
    (lit "n,,m=invalid,n=user,r=fyko+d2lbbFgONRv9qkxdawL") = Return Sample.withExtension
  /\ ScramMessageClientFirst.new (W := Reference.platform)
       (lit "p=invalid,,n=user,r=T5BSEsIUvPg4V6+P8T57c9mhSbdA")
     = Return Sample.withChannelBinding
  /\ ScramMessageClientFirst.new (W := Reference.platform)
       (lit "n,,n=invalid-user,r=fyko+d2lbbFgONRv9qkxdawL") = Return Sample.unknownUser.
Proof. repeat split; vm_compute; reflexivity. Qed.

(** The error replies of the tests: an extension, a channel binding, an
    unknown user, and an unknown user with errors concealed. *)
Example server_final_error_replies :
  fst (ScramRequestServer.createServerFinalMessage (W := Reference.platform)
         (Sample.serverReady ScramRequestServer.no_options Sample.withExtension))
  = Return (Some (error_reply false SCRAM_EXTENSIONS_NOT_SUPPORTED))
  /\ fst (ScramRequestServer.createServerFinalMessage (W := Reference.platform)
            (Sample.serverReady ScramRequestServer.no_options Sample.withChannelBinding))
     = Return (Some (error_reply false SCRAM_CHANNEL_BINDING_NOT_SUPPORTED))
  /\ fst (ScramRequestServer.createServerFinalMessage (W := Reference.platform)
            (Sample.serverReady ScramRequestServer.no_options Sample.unknownUser))
     = Return (Some (error_reply false SCRAM_UNKNOWN_USER))
  /\ fst (ScramRequestServer.createServerFinalMessage (W := Reference.platform)
            (Sample.serverReady Sample.concealing Sample.unknownUser))
     = Return (Some (error_reply true SCRAM_UNKNOWN_USER))
  /\ ScramMessageServerFinal.getError (error_reply true SCRAM_UNKNOWN_USER)
     = Some (lit "other-error").
Proof. repeat split; vm_compute; reflexivity. Qed.

(** ** Nonces and the two verifications *)

Lemma verifyClientFinalMessage_nonce_blind {W : Platform} (server : ScramRequestServer.t)
    clientFirst serverFirst clientFinal n1 n2 n3 :
  fst (ScramRequestServer.verifyClientFinalMessage
         (server_holding (client_first_with_nonce n1 clientFirst)
            (server_first_with_nonce n2 serverFirst)
            (client_final_with_nonce n3 clientFinal) server))
  = fst (ScramRequestServer.verifyClientFinalMessage
           (server_holding clientFirst serverFirst clientFinal server)).
Proof.
  cbv beta iota zeta delta [ScramRequestServer.verifyClientFinalMessage bind this_ ret lift throw].
  cbn -[Base64.fromUint8Array Base64.toUint8Array xorArrayBuffer TextEncoder.encode JS.join lit].
  unfold ScramMessageClientFirst.getUser.
  destruct (ScramUserRepo.has (ScramRequestServer.repo server)
              (ScramMessageClientFirst.user clientFirst)); cbn [negb]; [|reflexivity].
  destruct (ScramUserRepo.find (ScramRequestServer.repo server)
              (ScramMessageClientFirst.user clientFirst)); reflexivity.
Qed.

Lemma verifyServerFinalMessage_nonce_blind {W : Platform} (client : ScramRequestClient.t)
    saltedPassword clientFirst serverFirst clientFinal serverFinal n1 n2 n3 :
  fst (ScramRequestClient.verifyServerFinalMessage saltedPassword
         (client_holding (client_first_with_nonce n1 clientFirst)
            (server_first_with_nonce n2 serverFirst)
            (client_final_with_nonce n3 clientFinal) serverFinal client))
  = fst (ScramRequestClient.verifyServerFinalMessage saltedPassword
           (client_holding clientFirst serverFirst clientFinal serverFinal client)).
Proof. reflexivity. Qed.

Example crafted_messages_read :
  ScramMessageClientFinal.new Sample.craftedClientFinalText = Return Sample.craftedClientFinal
  /\ ScramMessageServerFirst.new Sample.foreignServerFirstText = Return Sample.foreignServerFirst
  /\ ScramMessageServerFinal.new Sample.foreignServerFinalText
     = Return (verifier_reply (lit "19Weco8C8Gk4QpMJe68ryKFTeDzb9PWxMFlNojBuVV4=")).
Proof. repeat split; vm_compute; reflexivity. Qed.

(** C10: neither verification reads a nonce. The result of the server's
    [verifyClientFinalMessage] and of the client's [verifyServerFinalMessage]
    is the same whatever the nonce fields of the messages held are. In
    particular the server verifies a client-final message whose nonce is
    not the one of its server-first message, when the proof is computed
    over the transcript as received; and the client verifies an exchange
    whose server-first nonce does not begin with its own nonce. *)
Theorem C10_verifications_do_not_compare_nonces :
  (forall (W : Platform) (server : ScramRequestServer.t)
          clientFirst serverFirst clientFinal n1 n2 n3,
      fst (ScramRequestServer.verifyClientFinalMessage
             (server_holding (client_first_with_nonce n1 clientFirst)
                (server_first_with_nonce n2 serverFirst)
                (client_final_with_nonce n3 clientFinal) server))
      = fst (ScramRequestServer.verifyClientFinalMessage
               (server_holding clientFirst serverFirst clientFinal server)))
  /\ (forall (W : Platform) (client : ScramRequestClient.t) saltedPassword
             clientFirst serverFirst clientFinal serverFinal n1 n2 n3,
      fst (ScramRequestClient.verifyServerFinalMessage saltedPassword
             (client_holding (client_first_with_nonce n1 clientFirst)
                (server_first_with_nonce n2 serverFirst)
                (client_final_with_nonce n3 clientFinal) serverFinal client))
      = fst (ScramRequestClient.verifyServerFinalMessage saltedPassword
               (client_holding clientFirst serverFirst clientFinal serverFinal client)))
  /\ (ScramMessageClientFinal.new Sample.craftedClientFinalText
      = Return Sample.craftedClientFinal
      /\ ScramMessageClientFinal.getNonce Sample.craftedClientFinal
         <> ScramMessageServerFirst.getNonce Sample.serverFirst
      /\ fst (ScramRequestServer.verifyClientFinalMessage (W := Reference.platform)
                (server_holding Sample.clientFirst Sample.serverFirst
                   Sample.craftedClientFinal (Sample.server ScramRequestServer.no_options)))
         = Return true)
  /\ (JS.startsWith (ScramMessageClientFirst.getNonce Sample.clientFirst)
        (ScramMessageServerFirst.getNonce Sample.foreignServerFirst) = false
      /\ fst (ScramRequestClient.createClientFinalMessage (W := Reference.platform)
                Sample.saltedPassword
                (ScramRequestClient.setServerFirstMessage Sample.foreignServerFirst
                   (ScramRequestClient.setClientFirstMessage Sample.clientFirst
                      (ScramRequestClient.new ScramSha256 ScramRequestClient.no_options))))
         = Return Sample.foreignClientFinal
      /\ fst (ScramRequestClient.verifyServerFinalMessage (W := Reference.platform)
                Sample.saltedPassword
                (client_holding Sample.clientFirst Sample.foreignServerFirst
                   Sample.foreignClientFinal
                   (verifier_reply (lit "19Weco8C8Gk4QpMJe68ryKFTeDzb9PWxMFlNojBuVV4="))
                   (ScramRequestClient.new ScramSha256 ScramRequestClient.no_options)))
         = Return true).
Proof.
  split; [intros; apply verifyClientFinalMessage_nonce_blind|].
  split; [intros; apply verifyServerFinalMessage_nonce_blind|].
  split.
  - split; [vm_compute; reflexivity|]. split; [discriminate|]. vm_compute. reflexivity.
  - split; [reflexivity|]. split; vm_compute; reflexivity.
Qed.

(** ** The steps of an exchange *)

Section Steps.
Context {W : Platform}.

Lemma createClientFirstMessage_builds (this : ScramRequestClient.t)
    (randomBuffer : bytes) (username user : jsstring) :
  ScramRequestClient.gs2_header this = lit "n," ->
  randomBuffer <> [] ->
  Forall (fun c => c <> 44%N) username -> JS.trim username <> [] ->
  saslPrep (JS.trim username) = Return user -> user <> [] ->
  ScramRequestClient.createClientFirstMessage randomBuffer username this
  = (Return (built_client_first username user (Base64.fromUint8Array randomBuffer)),
     ScramRequestClient.setClientFirstMessage
       (built_client_first username user (Base64.fromUint8Array randomBuffer)) this).
Proof.
  intros Hgs2 Hr Hu Hu' Hprep Huser.
  cbv beta iota zeta delta [ScramRequestClient.createClientFirstMessage bind this_ ret lift
                              assign].
  rewrite Hgs2.
  rewrite (client_first_built username (Base64.fromUint8Array randomBuffer) user)
    by (assumption || apply fromUint8Array_plain || (apply fromUint8Array_nonempty; assumption)).
  reflexivity.
Qed.

Lemma createServerFirstMessage_builds (this : ScramRequestServer.t)
    (randomBuffer : bytes) (clientFirst : ScramMessageClientFirst.t) (record : ScramUser.t) :
  ScramRequest.clientFirstMessage (ScramRequestServer.base this) = Some clientFirst ->
  ScramUserRepo.has (ScramRequestServer.repo this)
    (ScramMessageClientFirst.getUser clientFirst) = true ->
  ScramUserRepo.find (ScramRequestServer.repo this)
    (ScramMessageClientFirst.getUser clientFirst) = Return record ->
  Forall (fun c => plain c = true) (ScramMessageClientFirst.getNonce clientFirst) ->
  ScramMessageClientFirst.getNonce clientFirst <> [] ->
  ScramUser.getSalt record <> [] ->
  exists parsed,
    JS.parseInt (JS.Number_toString (ScramUser.getIterations record)) = Some parsed
    /\ ScramRequestServer.createServerFirstMessage randomBuffer this
       = (Return (built_server_first
                    (ScramMessageClientFirst.getNonce clientFirst
                     ++ Base64.fromUint8Array randomBuffer)
                    (ScramUser.getSalt record) (ScramUser.getIterations record) parsed),
          ScramRequestServer.setServerFirstMessage
            (built_server_first
               (ScramMessageClientFirst.getNonce clientFirst
                ++ Base64.fromUint8Array randomBuffer)
               (ScramUser.getSalt record) (ScramUser.getIterations record) parsed) this).
Proof.
  intros Hcf Hhas Hfind Hn Hn' Hsalt.
  destruct (server_first_built
              (ScramMessageClientFirst.getNonce clientFirst ++ Base64.fromUint8Array randomBuffer)
              (Base64.fromUint8Array (ScramUser.getSalt record))
              (ScramUser.getIterations record))
    as (parsed & Hparsed & Hnew).
  { apply Forall_app. split; [assumption | apply fromUint8Array_plain]. }
  { destruct (ScramMessageClientFirst.getNonce clientFirst); [contradiction | discriminate]. }
  { apply fromUint8Array_plain. }
  { apply fromUint8Array_nonempty. assumption. }
  exists parsed. split; [assumption|].
  cbv beta iota zeta delta [ScramRequestServer.createServerFirstMessage bind this_ ret lift
                              assign].
  rewrite Hcf. cbv beta iota. rewrite Hhas, Hfind. cbv beta iota. cbn [fst snd].
  rewrite Hnew. rewrite toUint8Array_fromUint8Array. reflexivity.
Qed.

End Steps.

Section MoreSteps.
Context {W : Platform}.

Lemma biws : Base64.encode (lit "n," ++ lit ",") = lit "biws".
Proof. reflexivity. Qed.

Lemma getAuthMessage_transcript (this : ScramRequest.t) clientFirst serverFirst text :
  ScramRequest.clientFirstMessage this = Some clientFirst ->
  ScramRequest.serverFirstMessage this = Some serverFirst ->
  ScramRequest.getAuthMessage this text = Return (transcript clientFirst serverFirst text).
Proof.
  intros Hcf Hsf. unfold ScramRequest.getAuthMessage. rewrite Hcf, Hsf. reflexivity.
Qed.

Lemma createClientFinalMessage_builds (this : ScramRequestClient.t)
    (saltedPassword : bytes) clientFirst serverFirst :
  ScramRequest.clientFirstMessage (ScramRequestClient.base this) = Some clientFirst ->
  ScramRequest.serverFirstMessage (ScramRequestClient.base this) = Some serverFirst ->
  ScramRequestClient.gs2_header this = lit "n," ->
  Forall (fun c => plain c = true) (ScramMessageServerFirst.getNonce serverFirst) ->
  ScramMessageServerFirst.getNonce serverFirst <> [] ->
  ScramAlgo.getClientKey (ScramRequestClient.algo this) saltedPassword <> [] ->
  let nonce := ScramMessageServerFirst.getNonce serverFirst in
  let built :=
    built_client_final nonce
      (client_proof (ScramRequestClient.algo this) saltedPassword
         (transcript clientFirst serverFirst (lit "c=" ++ lit "biws" ++ lit ",r=" ++ nonce))) in
  ScramRequestClient.createClientFinalMessage saltedPassword this
  = (Return built, ScramRequestClient.setClientFinalMessage built this).
Proof.
  intros Hcf Hsf Hgs2 Hn Hn' Hkey nonce built.
  cbv beta iota zeta delta [ScramRequestClient.createClientFinalMessage bind this_ ret lift
                              assign].
  rewrite Hcf, Hsf. cbv beta iota. rewrite Hgs2, biws.
  rewrite (getAuthMessage_transcript _ clientFirst serverFirst) by assumption.
  cbv beta iota.
  fold (client_proof (ScramRequestClient.algo this) saltedPassword
          (transcript clientFirst serverFirst
             (lit "c=" ++ lit "biws" ++ lit ",r="
              ++ ScramMessageServerFirst.getNonce serverFirst))).
  change ((lit "c=" ++ lit "biws" ++ lit ",r=" ++ ScramMessageServerFirst.getNonce serverFirst)
          ++ lit ",p="
          ++ client_proof (ScramRequestClient.algo this) saltedPassword
               (transcript clientFirst serverFirst
                  (lit "c=" ++ lit "biws" ++ lit ",r="
                   ++ ScramMessageServerFirst.getNonce serverFirst)))
    with (lit "c=" ++ lit "biws" ++ lit ",r=" ++ ScramMessageServerFirst.getNonce serverFirst
          ++ lit ",p="
          ++ client_proof (ScramRequestClient.algo this) saltedPassword
               (transcript clientFirst serverFirst
                  (lit "c=" ++ lit "biws" ++ lit ",r="
                   ++ ScramMessageServerFirst.getNonce serverFirst))).
  rewrite client_final_built; try assumption; try discriminate.
  - reflexivity.
  - apply forallb_plain. reflexivity.
  - apply fromUint8Array_plain.
  - apply fromUint8Array_nonempty. intros H.
    apply (f_equal (@length byte)) in H. rewrite length_xorArrayBuffer in H.
    destruct (ScramAlgo.getClientKey (ScramRequestClient.algo this) saltedPassword);
      [contradiction | discriminate].
Qed.

Lemma verifyClientFinalMessage_accepts (this : ScramRequestServer.t)
    (saltedPassword : bytes) clientFirst serverFirst clientFinal record :
  ScramRequest.clientFirstMessage (ScramRequestServer.base this) = Some clientFirst ->
  ScramRequest.serverFirstMessage (ScramRequestServer.base this) = Some serverFirst ->
  ScramRequest.clientFinalMessage (ScramRequestServer.base this) = Some clientFinal ->
  ScramUserRepo.has (ScramRequestServer.repo this)
    (ScramMessageClientFirst.getUser clientFirst) = true ->
  ScramUserRepo.find (ScramRequestServer.repo this)
    (ScramMessageClientFirst.getUser clientFirst) = Return record ->
  ScramUser.getStoredKey record
  = ScramAlgo.getStoredKey (ScramRequestServer.algo this) saltedPassword ->
  ScramMessageClientFinal.getClientProof clientFinal
  = client_proof (ScramRequestServer.algo this) saltedPassword
      (transcript clientFirst serverFirst
         (ScramMessageClientFinal.getMessageWithoutProof clientFinal)) ->
  length (ScramAlgo.getClientKey (ScramRequestServer.algo this) saltedPassword)
  = length (ScramAlgo.hmac (ScramRequestServer.algo this)
              (ScramAlgo.getStoredKey (ScramRequestServer.algo this) saltedPassword)
              (transcript clientFirst serverFirst
                 (ScramMessageClientFinal.getMessageWithoutProof clientFinal))) ->
  ScramRequestServer.verifyClientFinalMessage this = (Return true, this).
Proof.
  intros Hcf Hsf Hcl Hhas Hfind Hstored Hproof Hlen.
  cbv beta iota zeta delta [ScramRequestServer.verifyClientFinalMessage bind this_ ret lift].
  rewrite Hcf, Hsf, Hcl. cbv beta iota. rewrite Hhas. cbn [negb]. rewrite Hfind.
  cbv beta iota.
  rewrite (getAuthMessage_transcript _ clientFirst serverFirst) by assumption.
  cbv beta iota. rewrite Hproof, Hstored. unfold client_proof.
  rewrite toUint8Array_fromUint8Array, xorArrayBuffer_cancel by assumption.
  rewrite bool_decide_eq_true_2 by reflexivity. reflexivity.
Qed.

Lemma createServerFinalMessage_sends_verifier (this : ScramRequestServer.t)
    clientFirst serverFirst clientFinal record :
  ScramRequest.clientFirstMessage (ScramRequestServer.base this) = Some clientFirst ->
  ScramRequest.serverFirstMessage (ScramRequestServer.base this) = Some serverFirst ->
  ScramRequest.clientFinalMessage (ScramRequestServer.base this) = Some clientFinal ->
  ScramMessageClientFirst.getMext clientFirst = None ->
  ScramMessageClientFirst.getGS2CbindFlag clientFirst = lit "n" ->
  ScramUserRepo.find (ScramRequestServer.repo this)
    (ScramMessageClientFirst.getUser clientFirst) = Return record ->
  ScramRequestServer.verifyClientFinalMessage this = (Return true, this) ->
  let signature :=
    ScramAlgo.hmac (ScramRequestServer.algo this) (ScramUser.getServerKey record)
      (transcript clientFirst serverFirst
         (ScramMessageClientFinal.getMessageWithoutProof clientFinal)) in
  signature <> [] ->
  ScramRequestServer.createServerFinalMessage this
  = (Return (Some (verifier_reply (Base64.fromUint8Array signature))),
     ScramRequestServer.setServerFinalMessage
       (verifier_reply (Base64.fromUint8Array signature)) this).
Proof.
  intros Hcf Hsf Hcl Hmext Hflag Hfind Hverify signature Hsig.
  cbv beta iota zeta delta [ScramRequestServer.createServerFinalMessage bind this_ try_catch
                              throw ret lift assign].
  rewrite Hcf, Hsf, Hcl. cbv beta iota. rewrite Hmext, Hflag.
  cbn [JS.truthy]. rewrite bool_decide_eq_true_2 by reflexivity. cbn [negb].
  rewrite Hfind.
  rewrite (getAuthMessage_transcript _ clientFirst serverFirst) by assumption.
  rewrite Hverify. cbv beta iota. cbn [negb]. fold signature.
  rewrite server_final_verifier
    by (apply fromUint8Array_plain || (apply fromUint8Array_nonempty; assumption)).
  reflexivity.
Qed.

Lemma verifyServerFinalMessage_accepts (this : ScramRequestClient.t)
    (saltedPassword : bytes) clientFirst serverFirst clientFinal serverFinal :
  ScramRequest.clientFirstMessage (ScramRequestClient.base this) = Some clientFirst ->
  ScramRequest.serverFirstMessage (ScramRequestClient.base this) = Some serverFirst ->
  ScramRequest.clientFinalMessage (ScramRequestClient.base this) = Some clientFinal ->
  ScramRequest.serverFinalMessage (ScramRequestClient.base this) = Some serverFinal ->
  ScramMessageServerFinal.getVerifier serverFinal
  = Some (Base64.fromUint8Array
            (ScramAlgo.hmac (ScramRequestClient.algo this)
               (ScramAlgo.getServerKey (ScramRequestClient.algo this) saltedPassword)
               (transcript clientFirst serverFirst
                  (ScramMessageClientFinal.getMessageWithoutProof clientFinal)))) ->
  ScramRequestClient.verifyServerFinalMessage saltedPassword this = (Return true, this).
Proof.
  intros Hcf Hsf Hcl Hsl Hverifier.
  cbv beta iota zeta delta [ScramRequestClient.verifyServerFinalMessage bind this_ ret lift].
  rewrite Hcf, Hsf, Hcl, Hsl. cbv beta iota.
  rewrite (getAuthMessage_transcript _ clientFirst serverFirst) by assumption.
  cbv beta iota. rewrite Hverifier.
  rewrite bool_decide_eq_true_2 by reflexivity. reflexivity.
Qed.

End MoreSteps.

(** ** The whole exchange *)

(** C1, as stated, fails for user names which SASLprep accepts and the
    client-first message does not carry as they are. The client writes the
    name after [n=] without escaping it, and the server reads that parameter
    up to the next comma and trimmed: it reads [us,er] as [us] and [ user]
    as [user]. With the credentials derived from the password [pencil]
    stored under the name as given, the server does not find the user, and
    both verifications are false. *)
Lemma C1_counterexample :
  saslPrep (Platform := Reference.platform) (lit "us,er") = Return (lit "us,er")
  /\ saslPrep (Platform := Reference.platform) (lit " user") = Return (lit " user")
  /\ ScramAlgo.getSaltedPassword (W := Reference.platform) ScramSha256 (lit "pencil")
       Sample.salt 1 = Return Cases.pencilSaltedPassword
  /\ ScramUserRepo.find (ScramRequestServer.repo (Cases.serverOf (lit "us,er"))) (lit "us,er")
     = Return (registerUser (W := Reference.platform) ScramSha256 (lit "us,er") Sample.salt
                 Cases.pencilSaltedPassword 1)
  /\ fst (runExchange (W := Reference.platform) Sample.clientRandom Sample.serverRandom
            (lit "us,er") Cases.pencilSaltedPassword
            (ScramRequestClient.new ScramSha256 ScramRequestClient.no_options,
             Cases.serverOf (lit "us,er")))
     = Return (false, false)
  /\ ScramUserRepo.find (ScramRequestServer.repo (Cases.serverOf (lit " user"))) (lit " user")
     = Return (registerUser (W := Reference.platform) ScramSha256 (lit " user") Sample.salt
                 Cases.pencilSaltedPassword 1)
  /\ fst (runExchange (W := Reference.platform) Sample.clientRandom Sample.serverRandom
            (lit " user") Cases.pencilSaltedPassword
            (ScramRequestClient.new ScramSha256 ScramRequestClient.no_options,
             Cases.serverOf (lit " user")))
     = Return (false, false).
Proof.
  split; [vm_compute; reflexivity|]. split; [vm_compute; reflexivity|].
  split; [vm_compute; reflexivity|]. split; [vm_compute; reflexivity|].
  split; [vm_compute; reflexivity|]. split; vm_compute; reflexivity.
Qed.

(** C1, amended: for every user name without a comma, every password,
    non-empty salt and iteration count for which the salted password is
    derived, when the repository holds the credentials derived from that
    salted password under the name which the server reads from the
    client-first message (the form SASLprep gives to the trimmed user name,
    which is not empty), the exchange of [runExchange] (client first, server
    first, client final from the salted password, server final, each read
    again from its text by the receiver) ends with both verifications true.
    The platform's HMAC returns a constant, non-zero number of bytes. *)
Theorem C1_matching_credentials_verify (W : Platform) (algo : ScramAlgo.t) (n : nat)
    (repo : ScramUserRepo.t) (saltGenerator : SaltGenerator.t) (defaultIterations : Z)
    (c_options : ScramRequestClient.ScramRequestClientOptions)
    (s_options : ScramRequestServer.ScramRequestServerOptions)
    (c_random s_random : bytes) (username user password : jsstring)
    (salt : bytes) (iterations : Z) (saltedPassword : bytes) :
  (0 < n)%nat ->
  (forall key data, length (subtle_sign_HMAC (ScramAlgo.algo algo) key data) = n) ->
  length c_random = 24%nat -> length s_random = 24%nat ->
  Forall (fun c => c <> 44%N) username -> JS.trim username <> [] ->
  saslPrep (JS.trim username) = Return user -> user <> [] ->
  salt <> [] ->
  ScramAlgo.getSaltedPassword algo password salt iterations = Return saltedPassword ->
  ScramUserRepo.has repo user = true ->
  ScramUserRepo.find repo user
  = Return (registerUser algo user salt saltedPassword iterations) ->
  fst (runExchange c_random s_random username saltedPassword
         (ScramRequestClient.new algo c_options,
          ScramRequestServer.new algo repo saltGenerator defaultIterations s_options))
  = Return (true, true).
Proof.
  intros Hn Hlen Hc Hs Hu Hu' Hprep Huser Hsalt Hsp Hhas Hfind.
  assert (Hc' : c_random <> []) by (intros ->; discriminate).
  set (client0 := ScramRequestClient.new algo c_options).
  set (server0 := ScramRequestServer.new algo repo saltGenerator defaultIterations s_options).
  set (c_nonce := Base64.fromUint8Array c_random).
  set (cf := built_client_first username user c_nonce).
  assert (Hcnonce : Forall (fun c => plain c = true) c_nonce) by apply fromUint8Array_plain.
  assert (Hcnonce' : c_nonce <> []) by (apply fromUint8Array_nonempty; assumption).
  (* the client's first message, and its reading by the server *)
  assert (S1 : ScramRequestClient.createClientFirstMessage c_random username client0
               = (Return cf, ScramRequestClient.setClientFirstMessage cf client0))
    by (apply createClientFirstMessage_builds; try assumption; reflexivity).
  assert (R1 : ScramMessageClientFirst.new (ScramMessageClientFirst.getMessage cf) = Return cf)
    by (apply client_first_built; assumption).
  (* the server's first message *)
  set (server1 := ScramRequestServer.setClientFirstMessage cf server0).
  destruct (createServerFirstMessage_builds server1 s_random cf
              (registerUser algo user salt saltedPassword iterations))
    as (parsed & Hparsed & S2); try assumption; try reflexivity.
  change (ScramMessageClientFirst.getNonce cf) with c_nonce in S2.
  change (ScramUser.getSalt (registerUser algo user salt saltedPassword iterations))
    with salt in S2.
  change (ScramUser.getIterations (registerUser algo user salt saltedPassword iterations))
    with iterations in S2, Hparsed.
  set (nonce := c_nonce ++ Base64.fromUint8Array s_random) in *.
  set (sf := built_server_first nonce salt iterations parsed) in *.
  assert (Hnonce : Forall (fun c => plain c = true) nonce)
    by (apply Forall_app; split; [assumption | apply fromUint8Array_plain]).
  assert (Hnonce' : nonce <> [])
    by (unfold nonce; destruct c_nonce; [contradiction | discriminate]).
  assert (R2 : ScramMessageServerFirst.new (ScramMessageServerFirst.getMessage sf) = Return sf).
  { destruct (server_first_built nonce (Base64.fromUint8Array salt) iterations)
      as (parsed' & Hparsed' & Hnew);
      try assumption; try apply fromUint8Array_plain;
      try (apply fromUint8Array_nonempty; assumption).
    rewrite Hparsed in Hparsed'. inversion Hparsed'; subst parsed'.
    rewrite toUint8Array_fromUint8Array in Hnew. exact Hnew. }
  (* the client's final message *)
  set (client1 := ScramRequestClient.setServerFirstMessage sf
                    (ScramRequestClient.setClientFirstMessage cf client0)).
  set (text := lit "c=" ++ lit "biws" ++ lit ",r=" ++ nonce).
  set (auth := transcript cf sf text).
  set (proof := client_proof algo saltedPassword auth).
  set (cl := built_client_final nonce proof).
  assert (Hkey : ScramAlgo.getClientKey algo saltedPassword <> []).
  { intros H. apply (f_equal (@length byte)) in H.
    unfold ScramAlgo.getClientKey, ScramAlgo.hmac in H. rewrite Hlen in H.
    simpl in H. lia. }
  assert (S3 : ScramRequestClient.createClientFinalMessage saltedPassword client1
               = (Return cl, ScramRequestClient.setClientFinalMessage cl client1))
    by (apply (createClientFinalMessage_builds client1 saltedPassword cf sf);
        try assumption; reflexivity).
  assert (Hproof : Forall (fun c => plain c = true) proof /\ proof <> []).
  { split; [apply fromUint8Array_plain|]. apply fromUint8Array_nonempty.
    intros H. apply (f_equal (@length byte)) in H. rewrite length_xorArrayBuffer in H.
    destruct (ScramAlgo.getClientKey algo saltedPassword); [contradiction | discriminate]. }
  assert (R3 : ScramMessageClientFinal.new (ScramMessageClientFinal.getMessage cl) = Return cl).
  { apply client_final_built; try assumption; try apply Hproof; try discriminate.
    apply forallb_plain. reflexivity. }
  (* the server's final message *)
  set (server2 := ScramRequestServer.setClientFinalMessage cl
                    (ScramRequestServer.setServerFirstMessage sf server1)).
  assert (V : forall server,
             ScramRequest.clientFirstMessage (ScramRequestServer.base server) = Some cf ->
             ScramRequest.serverFirstMessage (ScramRequestServer.base server) = Some sf ->
             ScramRequest.clientFinalMessage (ScramRequestServer.base server) = Some cl ->
             ScramRequestServer.repo server = repo ->
             ScramRequestServer.algo server = algo ->
             ScramRequestServer.verifyClientFinalMessage server = (Return true, server)).
  { intros server H1 H2 H3 H4 H5.
    apply (verifyClientFinalMessage_accepts server saltedPassword cf sf cl
             (registerUser algo user salt saltedPassword iterations));
      try assumption; rewrite ?H4, ?H5; try assumption; try reflexivity.
    unfold ScramAlgo.getClientKey, ScramAlgo.hmac. rewrite !Hlen. reflexivity. }
  set (signature := ScramAlgo.hmac algo (ScramAlgo.getServerKey algo saltedPassword) auth).
  set (sl := verifier_reply (Base64.fromUint8Array signature)).
  assert (Hsig : signature <> []).
  { intros H. apply (f_equal (@length byte)) in H.
    unfold signature, ScramAlgo.hmac in H. rewrite Hlen in H. simpl in H. lia. }
  assert (S4 : ScramRequestServer.createServerFinalMessage server2
               = (Return (Some sl), ScramRequestServer.setServerFinalMessage sl server2)).
  { apply (createServerFinalMessage_sends_verifier server2 cf sf cl
             (registerUser algo user salt saltedPassword iterations));
      try assumption; try reflexivity.
    apply V; reflexivity. }
  assert (R4 : ScramMessageServerFinal.new (ScramMessageServerFinal.getMessage sl) = Return sl)
    by (apply server_final_verifier;
        [apply fromUint8Array_plain | apply fromUint8Array_nonempty; assumption]).
  (* the two verifications *)
  set (server3 := ScramRequestServer.setServerFinalMessage sl server2).
  set (client2 := ScramRequestClient.setServerFinalMessage sl
                    (ScramRequestClient.setClientFinalMessage cl client1)).
  assert (S5 : ScramRequestServer.verifyClientFinalMessage server3 = (Return true, server3))
    by (apply V; reflexivity).
  assert (S6 : ScramRequestClient.verifyServerFinalMessage saltedPassword client2
               = (Return true, client2))
    by (apply (verifyServerFinalMessage_accepts client2 saltedPassword cf sf cl sl);
        reflexivity).
  (* the run *)
  unfold runExchange.
  cbv beta iota zeta delta [bind on_client on_server lift assign ret fst snd].
  rewrite S1. cbv beta iota. rewrite R1. cbv beta iota.
  fold server1. rewrite S2. cbv beta iota. rewrite R2. cbv beta iota.
  fold client1. rewrite S3. cbv beta iota. rewrite R3. cbv beta iota.
  fold server2. rewrite S4. cbv beta iota. rewrite R4. cbv beta iota.
  fold server3. fold client2. rewrite S5. cbv beta iota. rewrite S6. reflexivity.
Qed.

(** ** The reference platform keeps the law of HMAC's length *)

Lemma sha256_digest_length msg : length (SHA256.digest msg) = 32%nat.
Proof.
  unfold SHA256.digest.
  destruct (foldl SHA256.compress SHA256.H0 _) as [[[[[[[a b] c] d] e] f] g] h].
  reflexivity.
Qed.

Lemma reference_hmac_length key data :
  length (subtle_sign_HMAC (Platform := Reference.platform)
            (ScramAlgo.algo ScramSha256) key data) = 32%nat.
Proof.
  change (length (HMAC.sign SHA256.digest key data) = 32%nat).
  unfold HMAC.sign. apply sha256_digest_length.
Qed.

Lemma pbkdf2_derives {W : Platform} algo password salt iterations :
  1 <= iterations <= 2147483647 ->
  ScramAlgo.pbkdf2 algo password salt iterations
  = Return (subtle_deriveBits_PBKDF2 (ScramAlgo.algo algo) password salt iterations
              (ScramAlgo.keylen algo)).
Proof.
  intros H. unfold ScramAlgo.pbkdf2, Crypto.deriveBits_PBKDF2, Crypto.INT_MAX.
  destruct (Z.ltb_spec iterations 1); [lia|].
  destruct (Z.ltb_spec 2147483647 iterations); [lia | reflexivity].
Qed.

Lemma getSaltedPassword_prep {W : Platform} algo password prepared salt iterations :
  saslPrep password = Return prepared ->
  1 <= iterations <= 2147483647 ->
  ScramAlgo.getSaltedPassword algo password salt iterations
  = Return (subtle_deriveBits_PBKDF2 (ScramAlgo.algo algo) (TextEncoder.encode prepared)
              salt iterations (ScramAlgo.keylen algo)).
Proof.
  intros H Hi. unfold ScramAlgo.getSaltedPassword. rewrite H.
  apply pbkdf2_derives. exact Hi.
Qed.

Lemma rfc_iterations_accepted : 1 <= Sample.rfcIterations <= 2147483647.
Proof. unfold Sample.rfcIterations. lia. Qed.

Lemma rfc_user_known :
  ScramUserRepo.has (MockScramUserRepo.repo Sample.rfcUsers) (lit "user") = true
  /\ ScramUserRepo.find (MockScramUserRepo.repo Sample.rfcUsers) (lit "user")
     = Return (registerUser (W := Reference.platform) ScramSha256 (lit "user")
                 Sample.rfcSalt Sample.rfcSaltedPassword Sample.rfcIterations).
Proof.
  apply (mock_repo_added
           (registerUser (W := Reference.platform) ScramSha256 (lit "user")
              Sample.rfcSalt Sample.rfcSaltedPassword Sample.rfcIterations)
           UserDictionary.empty).
  discriminate.
Qed.

(** C1 at the user and password of RFC 7677, registered in the mock
    repository of the tests. *)
Lemma C1_witness :
  ((0 < 32)%nat
   /\ (forall key data,
         length (subtle_sign_HMAC (Platform := Reference.platform)
                   (ScramAlgo.algo ScramSha256) key data) = 32%nat)
   /\ length Sample.clientRandom = 24%nat /\ length Sample.serverRandom = 24%nat
   /\ Forall (fun c => c <> 44%N) (lit "user") /\ JS.trim (lit "user") <> []
   /\ saslPrep (Platform := Reference.platform) (JS.trim (lit "user")) = Return (lit "user")
   /\ lit "user" <> []
   /\ Sample.rfcSalt <> []
   /\ ScramAlgo.getSaltedPassword (W := Reference.platform) ScramSha256 Sample.rfcPassword
        Sample.rfcSalt Sample.rfcIterations = Return Sample.rfcSaltedPassword
   /\ ScramUserRepo.has (MockScramUserRepo.repo Sample.rfcUsers) (lit "user") = true
   /\ ScramUserRepo.find (MockScramUserRepo.repo Sample.rfcUsers) (lit "user")
      = Return (registerUser (W := Reference.platform) ScramSha256 (lit "user")
                  Sample.rfcSalt Sample.rfcSaltedPassword Sample.rfcIterations))
  /\ fst (runExchange (W := Reference.platform) Sample.clientRandom Sample.serverRandom
            (lit "user") Sample.rfcSaltedPassword
            (ScramRequestClient.new ScramSha256 ScramRequestClient.no_options,
             ScramRequestServer.new ScramSha256 (MockScramUserRepo.repo Sample.rfcUsers)
               (PepperedSaltGenerator (W := Reference.platform) ScramSha256 (lit "pepper"))
               4096 ScramRequestServer.no_options))
     = Return (true, true).
Proof.
  assert (H1 : (0 < 32)%nat) by lia.
  assert (H3 : length Sample.clientRandom = 24%nat) by reflexivity.
  assert (H4 : length Sample.serverRandom = 24%nat) by reflexivity.
  assert (H5 : Forall (fun c => c <> 44%N) (lit "user"))
    by (repeat (apply Forall_cons_2; [discriminate|]); apply Forall_nil_2).
  assert (H6 : JS.trim (lit "user") <> []) by discriminate.
  assert (H7 : saslPrep (Platform := Reference.platform) (JS.trim (lit "user"))
               = Return (lit "user")) by reflexivity.
  assert (H8 : lit "user" <> []) by discriminate.
  assert (H9 : Sample.rfcSalt <> []) by discriminate.
  assert (H10 : ScramAlgo.getSaltedPassword (W := Reference.platform) ScramSha256
                  Sample.rfcPassword Sample.rfcSalt Sample.rfcIterations
                = Return Sample.rfcSaltedPassword)
    by exact (getSaltedPassword_prep (W := Reference.platform) ScramSha256
                Sample.rfcPassword (lit "pencil") Sample.rfcSalt Sample.rfcIterations eq_refl
                rfc_iterations_accepted).
  pose proof (rfc_user_known) as [H11 H12].
  split.
  - repeat (split; [assumption || exact reference_hmac_length|]). assumption.
  - exact (C1_matching_credentials_verify Reference.platform ScramSha256 32
             (MockScramUserRepo.repo Sample.rfcUsers)
             (PepperedSaltGenerator (W := Reference.platform) ScramSha256 (lit "pepper"))
             4096 ScramRequestClient.no_options ScramRequestServer.no_options
             Sample.clientRandom Sample.serverRandom (lit "user") (lit "user")
             Sample.rfcPassword Sample.rfcSalt Sample.rfcIterations Sample.rfcSaltedPassword
             H1 reference_hmac_length H3 H4 H5 H6 H7 H8 H9 H10 H11 H12).
Defined.

(** C9 at a client and a server that hold no message yet. *)
Lemma C9_witness :
  (ScramRequest.clientFirstMessage
     (ScramRequestClient.base
        (ScramRequestClient.new ScramSha256 ScramRequestClient.no_options)) = None
   /\ ScramRequest.clientFirstMessage
        (ScramRequestServer.base (Sample.server ScramRequestServer.no_options)) = None)
  /\ (exists msg,
         ScramRequestClient.getSaltedPassword (W := Reference.platform) (lit "pencil")
           (ScramRequestClient.new ScramSha256 ScramRequestClient.no_options)
         = (Throw (Error msg),
            ScramRequestClient.new ScramSha256 ScramRequestClient.no_options))
  /\ (exists msg,
         ScramRequestServer.verifyClientFinalMessage (W := Reference.platform)
           (Sample.server ScramRequestServer.no_options)
         = (Throw (Error msg), Sample.server ScramRequestServer.no_options)).
Proof.
  split; [split; reflexivity|].
  pose proof (C9_missing_predecessor_throws_and_keeps_slots Reference.platform)
    as (Hsalted & _ & _ & _ & _ & Hverify).
  split.
  - apply Hsalted. left. reflexivity.
  - apply Hverify. left. reflexivity.
Defined.

(** ** The exchange of the tests, evaluated *)

(** With the salted password the user was registered with, both
    verifications are true; with another one the server answers
    [invalid-proof] and both are false. *)
Example exchange_of_the_tests :
  fst (runExchange (W := Reference.platform) Sample.clientRandom Sample.serverRandom
         (lit "user") Sample.saltedPassword
         (ScramRequestClient.new ScramSha256 ScramRequestClient.no_options,
          Sample.server ScramRequestServer.no_options))
  = Return (true, true)
  /\ fst (runExchange (W := Reference.platform) Sample.clientRandom Sample.serverRandom
            (lit "user") (TextEncoder.encode (lit "a wrong salted password 32 bytes"))
            (ScramRequestClient.new ScramSha256 ScramRequestClient.no_options,
             Sample.server ScramRequestServer.no_options))
     = Return (false, false).
Proof. split; vm_compute; reflexivity. Qed.

(** * Further statements *)

(** ** Trimming *)

Lemma trimStart_nonws c t : JS.isWhiteSpace c = false -> JS.trimStart (c :: t) = c :: t.
Proof. intros H. simpl. rewrite H. reflexivity. Qed.

Lemma trimStart_snoc l c :
  JS.isWhiteSpace c = false -> JS.trimStart (l ++ [c]) = JS.trimStart l ++ [c].
Proof.
  intros H. induction l as [|x l IH]; simpl.
  - rewrite H. reflexivity.
  - destruct (JS.isWhiteSpace x); [exact IH | reflexivity].
Qed.

Lemma trimEnd_snoc t c : JS.isWhiteSpace c = false -> JS.trimEnd (t ++ [c]) = t ++ [c].
Proof.
  intros H. unfold JS.trimEnd. rewrite rev_app_distr. simpl. rewrite H.
  simpl. rewrite rev_involutive. reflexivity.
Qed.

Lemma trimEnd_cons c t :
  JS.isWhiteSpace c = false -> JS.trimEnd (c :: t) = c :: JS.trimEnd t.
Proof.
  intros H. unfold JS.trimEnd. simpl. rewrite trimStart_snoc by assumption.
  rewrite rev_app_distr. reflexivity.
Qed.

Lemma trimStart_shape s :
  JS.trimStart s = [] \/ exists c t, JS.trimStart s = c :: t /\ JS.isWhiteSpace c = false.
Proof.
  induction s as [|x s IH]; simpl; [left; reflexivity|].
  destruct (JS.isWhiteSpace x) eqn:E; [exact IH | right; eauto].
Qed.

Lemma trimEnd_shape s :
  JS.trimEnd s = [] \/ exists t c, JS.trimEnd s = t ++ [c] /\ JS.isWhiteSpace c = false.
Proof.
  unfold JS.trimEnd. destruct (trimStart_shape (rev s)) as [->|(c & t & -> & Hc)].
  - left. reflexivity.
  - right. exists (rev t), c. split; [reflexivity | assumption].
Qed.

(** Text that begins and ends with no white space is its own trimmed
    text. *)
Lemma trim_edges c t t' c' :
  JS.isWhiteSpace c = false -> JS.isWhiteSpace c' = false -> c :: t = t' ++ [c'] ->
  JS.trim (c :: t) = c :: t.
Proof.
  intros Hc Hc' E. unfold JS.trim. rewrite trimStart_nonws by assumption.
  rewrite E. apply trimEnd_snoc. assumption.
Qed.

(** Trimmed text is empty, or begins and ends with no white space. *)
Lemma trim_shape s :
  JS.trim s = []
  \/ exists c t t' c',
       JS.trim s = c :: t /\ c :: t = t' ++ [c']
       /\ JS.isWhiteSpace c = false /\ JS.isWhiteSpace c' = false.
Proof.
  unfold JS.trim. destruct (trimStart_shape s) as [->|(c & t & -> & Hc)].
  - left. reflexivity.
  - right. rewrite trimEnd_cons by assumption.
    destruct (trimEnd_shape (c :: t)) as [E|(t' & c' & E & Hc')];
      rewrite trimEnd_cons in E by assumption; [discriminate|].
    exists c, (JS.trimEnd t), t', c'. auto.
Qed.

Lemma trim_idempotent s : JS.trim (JS.trim s) = JS.trim s.
Proof.
  destruct (trim_shape s) as [->|(c & t & t' & c' & -> & E & Hc & Hc')]; [reflexivity|].
  eapply trim_edges; eassumption.
Qed.

Lemma trimStart_suffix s : exists p, s = p ++ JS.trimStart s.
Proof.
  induction s as [|x s [p IH]]; simpl; [exists []; reflexivity|].
  destruct (JS.isWhiteSpace x); [|exists []; reflexivity].
  exists (x :: p). simpl. f_equal. exact IH.
Qed.

Lemma trim_infix s : exists p q, s = p ++ JS.trim s ++ q.
Proof.
  unfold JS.trim, JS.trimEnd.
  destruct (trimStart_suffix s) as [p Hp].
  destruct (trimStart_suffix (rev (JS.trimStart s))) as [q Hq].
  exists p, (rev q). rewrite <- rev_app_distr, <- Hq, rev_involutive. exact Hp.
Qed.

Lemma trim_Forall (P : N -> Prop) s : Forall P s -> Forall P (JS.trim s).
Proof.
  intros H. destruct (trim_infix s) as (p & q & E). rewrite E in H.
  apply Forall_app in H as [_ H]. apply Forall_app in H as [H _]. exact H.
Qed.

(** Trimmed text followed by text with no white space is trimmed. *)
Lemma trim_app_plain a b :
  JS.trim a = a -> a <> [] -> Forall (fun c => plain c = true) b -> JS.trim (a ++ b) = a ++ b.
Proof.
  intros Ha Hne Hb.
  destruct (trim_shape a) as [E|(c & t & t' & c' & E & E' & Hc & Hc')];
    rewrite Ha in E; [contradiction|].
  subst a. induction b as [|d b' _] using rev_ind.
  - rewrite app_nil_r. eapply trim_edges; eassumption.
  - change ((c :: t) ++ b' ++ [d]) with (c :: (t ++ b' ++ [d])).
    apply (trim_edges c _ ((c :: t) ++ b') d); [assumption | | rewrite <- app_assoc; reflexivity].
    apply Forall_app in Hb as [_ Hd]. inversion Hd as [|? ? H _]; subst.
    unfold plain in H. apply andb_true_iff in H as [_ H]. apply negb_true_iff in H. exact H.
Qed.

(** ** Segments *)

Lemma segments_nonempty c s : segments c s <> [].
Proof.
  induction s as [|x s IH]; simpl; [discriminate|].
  destruct (N.eqb x c); [discriminate|].
  destruct (segments c s); discriminate.
Qed.

Lemma segments_app_sep c x y :
  segments c (x ++ c :: y) = segments c x ++ segments c y.
Proof.
  induction x as [|h x IH]; simpl.
  - rewrite N.eqb_refl. reflexivity.
  - destruct (N.eqb h c); [rewrite IH; reflexivity|].
    rewrite IH. destruct (segments c x) as [|seg rest] eqn:E; [|reflexivity].
    exfalso. exact (segments_nonempty _ _ E).
Qed.

Lemma segments_no_sep_each c s : Forall (Forall (fun x => x <> c)) (segments c s).
Proof.
  induction s as [|x s IH]; simpl.
  - repeat constructor.
  - destruct (N.eqb_spec x c) as [->|Hne].
    + constructor; [constructor | exact IH].
    + destruct (segments c s) as [|seg rest]; [repeat constructor; assumption|].
      inversion IH; subst. constructor; [constructor; assumption | assumption].
Qed.

(** ** What the reader stores *)

Lemma carries_shape segment key value :
  Forall (fun c => c <> 44%N) segment -> carries segment key value ->
  JS.trim key = key /\ JS.trim value = value
  /\ Forall (fun c => c <> 44%N) key /\ Forall (fun c => c <> 44%N) value
  /\ Forall (fun c => c <> 61%N) key.
Proof.
  intros Hseg (before & after & E & <- & <-).
  apply cut_Some in E as [-> Hb].
  apply Forall_app in Hseg as [Hb' Ha]. inversion Ha; subst.
  repeat split; try apply trim_idempotent; apply trim_Forall; assumption.
Qed.

Lemma read_shape str key value :
  readScramParamString str !! key = Some value ->
  JS.trim key = key /\ JS.trim value = value
  /\ Forall (fun c => c <> 44%N) key /\ Forall (fun c => c <> 44%N) value
  /\ Forall (fun c => c <> 61%N) key.
Proof.
  rewrite readScramParamString_unfold.
  destruct (decide (key = lit "__proto__")) as [->|Hkey].
  { rewrite foldl_param_step_proto by apply lookup_empty. discriminate. }
  rewrite foldl_param_step_lookup by exact Hkey.
  intros [(i & segment & Hi & Hc & _)|[H _]]; [|rewrite lookup_empty in H; discriminate].
  apply (carries_shape segment); [|assumption].
  pose proof (segments_no_sep_each 44 str) as H.
  rewrite Forall_lookup in H. exact (H _ _ Hi).
Qed.

(** X3: every key and every value that [readScramParamString] stores is
    trimmed (it neither begins nor ends with white space) and holds no
    comma, and a key holds no [=]. *)
Theorem X3_readScramParamString_stores_trimmed_fields (str key value : jsstring) :
  readScramParamString str !! key = Some value ->
  JS.trim key = key /\ JS.trim value = value
  /\ Forall (fun c => c <> 44%N) key /\ Forall (fun c => c <> 44%N) value
  /\ Forall (fun c => c <> 61%N) key.
Proof. apply read_shape. Qed.

(** The parameters read from text that ends with a segment [k=v]. *)
Lemma read_last_segment x k v :
  k <> 61%N -> k <> 44%N -> JS.isWhiteSpace k = false -> Forall (fun c => c <> 44%N) v ->
  readScramParamString (x ++ 44%N :: k :: 61%N :: v)
  = <[[k] := JS.trim v]> (readScramParamString x).
Proof.
  intros Hk Hk' Hw Hv. rewrite !readScramParamString_unfold, segments_app_sep, foldl_app.
  rewrite (segments_no_sep 44 (k :: 61%N :: v))
    by (constructor; [assumption | constructor; [discriminate | assumption]]).
  cbn [foldl]. apply param_step_pair; assumption.
Qed.

(** ** The first occurrence of a separator *)

Lemma startsWith_app sep s : JS.startsWith sep s = true -> s = sep ++ drop (length sep) s.
Proof.
  revert s. induction sep as [|a sep IH]; intros s H; simpl in *.
  - rewrite drop_0. reflexivity.
  - destruct s as [|b s]; [discriminate|].
    apply andb_true_iff in H as [Hab H]. apply N.eqb_eq in Hab. subst b.
    simpl. f_equal. apply IH. exact H.
Qed.

Lemma cut_at_Some sep s before after :
  cut_at sep s = Some (before, after) -> s = before ++ sep ++ after.
Proof.
  revert before after. induction s as [|x s IH]; intros before after H.
  - simpl in H. destruct (JS.startsWith sep []) eqn:E; [|discriminate].
    inversion H; subst. apply startsWith_app in E. exact E.
  - cbn [cut_at] in H. destruct (JS.startsWith sep (x :: s)) eqn:E.
    + inversion H; subst. apply startsWith_app in E. exact E.
    + destruct (cut_at sep s) as [[b a]|]; [|discriminate].
      inversion H; subst. simpl. f_equal. apply IH. reflexivity.
Qed.

Lemma split_scan_skip sep k s :
  JS.split_scan sep k s = JS.split_scan sep 0 (drop k s).
Proof.
  revert k. induction s as [|c s IH]; intros [|k]; try reflexivity.
  simpl. apply IH.
Qed.

(** [split] cuts at the first occurrence of the separator and goes on
    with what follows it. *)
Lemma split_cut_at a sep s :
  JS.split s (a :: sep)
  = match cut_at (a :: sep) s with
    | Some (before, after) => before :: JS.split after (a :: sep)
    | None => [s]
    end.
Proof.
  unfold JS.split. induction s as [|c s IH].
  - reflexivity.
  - cbn [JS.split_scan cut_at]. destruct (JS.startsWith (a :: sep) (c :: s)) eqn:E.
    + rewrite split_scan_skip. simpl. rewrite Nat.sub_0_r. reflexivity.
    + rewrite IH. destruct (cut_at (a :: sep) s) as [[b r]|]; reflexivity.
Qed.

Lemma split_head_proof msg :
  JS.split msg (lit ",p=") !! 0%nat
  = Some (match cut_at (lit ",p=") msg with Some (w, _) => w | None => msg end)
  /\ JS.split msg (lit ",p=") !! 1%nat
     = match cut_at (lit ",p=") msg with
       | Some (_, after) => Some (proof_text after)
       | None => None
       end.
Proof.
  change (lit ",p=") with (44%N :: [112%N; 61%N]).
  rewrite (split_cut_at 44 [112%N; 61%N] msg).
  destruct (cut_at (44%N :: [112%N; 61%N]) msg) as [[w after]|]; [|split; reflexivity].
  split; [reflexivity|]. cbn [lookup list_lookup].
  rewrite (split_cut_at 44 [112%N; 61%N] after). unfold proof_text.
  change (lit ",p=") with (44%N :: [112%N; 61%N]).
  destruct (cut_at (44%N :: [112%N; 61%N]) after) as [[p r]|]; reflexivity.
Qed.

Lemma read_empty : readScramParamString [] = ∅.
Proof. reflexivity. Qed.

(** ** Reading the client messages *)

(** Where the constructor of the client-first message finds the GS2
    channel-binding flag and the bare message. *)
Lemma client_first_layout msg :
  let index := JS.indexOf msg [44%N] (JS.indexOf msg [44%N] 0 + 1) + 1 in
  match cut 44 msg with
  | Some (flag, rest) =>
      match cut 44 rest with
      | Some (authzid, bare) =>
          JS.split (JS.substring msg 0 (Some index)) [44%N] !! 0%nat = Some flag
          /\ JS.substring msg index None = bare
      | None => JS.split (JS.substring msg 0 (Some index)) [44%N] !! 0%nat = Some []
      end
  | None => JS.split (JS.substring msg 0 (Some index)) [44%N] !! 0%nat = Some []
  end.
Proof.
  cbv zeta. rewrite indexOf_char0.
  destruct (cut 44 msg) as [[flag rest]|] eqn:E.
  - apply cut_Some in E as [-> Hflag].
    replace (Z.of_nat (length flag) + 1) with (Z.of_nat (S (length flag))) by lia.
    rewrite indexOf_char.
    replace (drop (S (length flag)) (flag ++ 44%N :: rest)) with rest
      by (change (flag ++ 44%N :: rest) with (flag ++ [44%N] ++ rest);
          rewrite app_assoc;
          replace (S (length flag)) with (length (flag ++ [44%N]))
            by (rewrite length_app; simpl; lia);
          rewrite drop_app_length; reflexivity).
    destruct (cut 44 rest) as [[authzid bare]|] eqn:E'.
    + apply cut_Some in E' as [-> Hauthzid].
      rewrite Nat.min_l by (rewrite length_app; simpl; lia).
      set (k := (S (length flag) + length authzid + 1)%nat).
      replace (Z.of_nat (S (length flag)) + Z.of_nat (length authzid) + 1)
        with (Z.of_nat k) by lia.
      rewrite substring_take, substring_drop, split_char.
      assert (Ek : k = length (flag ++ 44%N :: authzid ++ [44%N]))
        by (rewrite length_app; simpl; rewrite length_app; simpl; lia).
      replace (flag ++ 44%N :: authzid ++ 44%N :: bare)
        with ((flag ++ 44%N :: authzid ++ [44%N]) ++ bare)
        by (rewrite <- app_assoc; simpl; rewrite <- app_assoc; reflexivity).
      rewrite Ek, take_app_length, drop_app_length.
      rewrite segments_app by assumption. split; reflexivity.
    + change (-1 + 1) with (Z.of_nat 0).
      rewrite substring_take, split_char. reflexivity.
  - change (-1 + 1) with 0. rewrite indexOf_char0, E.
    change (-1 + 1) with (Z.of_nat 0).
    rewrite substring_take, split_char. reflexivity.
Qed.

(** X1: the constructor of [ScramMessageClientFirst] accepts a text exactly
    when the text is a non-empty channel-binding flag, a comma, an
    authorization identity, a comma and a rest (flag and identity holding
    no comma), the parameters [n] and [r] read from the whole text, GS2
    header included, are not empty, and SASLprep returns a non-empty user
    for [n]. The object then holds the text, the rest as the bare message,
    the prepared user, the flag, [r] as the nonce and the parameter [m], if
    there is one, as the extension. A text with fewer than two commas, or
    one that begins with a comma, is refused. *)
Theorem X1_client_first_reads_exactly_when (W : Platform) (msg : jsstring)
    (m : ScramMessageClientFirst.t) :
  ScramMessageClientFirst.new msg = Return m <->
  exists flag authzid bare n r user : jsstring,
    msg = flag ++ lit "," ++ authzid ++ lit "," ++ bare
    /\ Forall (fun c => c <> 44%N) flag /\ Forall (fun c => c <> 44%N) authzid
    /\ flag <> []
    /\ readScramParamString msg !! lit "n" = Some n /\ n <> []
    /\ readScramParamString msg !! lit "r" = Some r /\ r <> []
    /\ saslPrep n = Return user /\ user <> []
    /\ m = {| ScramMessageClientFirst.message := msg;
              ScramMessageClientFirst.messageBare := bare;
              ScramMessageClientFirst.user := user;
              ScramMessageClientFirst.gs2CbindFlag := flag;
              ScramMessageClientFirst.nonce := r;
              ScramMessageClientFirst.mext := readScramParamString msg !! lit "m" |}.
Proof.
  pose proof (client_first_layout msg) as L. cbv zeta in L.
  unfold ScramMessageClientFirst.new. rewrite lit_comma.
  set (index := JS.indexOf msg [44%N] (JS.indexOf msg [44%N] 0 + 1) + 1) in *.
  split.
  - intros H.
    destruct (JS.truthy (readScramParamString msg !! lit "n")) eqn:Hn; [|discriminate H].
    apply truthy_Some in Hn as (n & En & Hn). rewrite En in H. cbn [negb default id] in H.
    destruct (saslPrep n) as [user|e] eqn:Hprep; [|discriminate H].
    destruct (JS.truthy (readScramParamString msg !! lit "r")) eqn:Hr; [|discriminate H].
    apply truthy_Some in Hr as (r & Er & Hr). rewrite Er in H.
    destruct user as [|u user]; [discriminate H|].
    cbn [negb orb JS.truthy default id] in H.
    destruct (cut 44 msg) as [[flag rest]|] eqn:E;
      [|rewrite L in H; discriminate H].
    destruct (cut 44 rest) as [[authzid bare]|] eqn:E';
      [|rewrite L in H; discriminate H].
    destruct L as [Lflag Lbare]. rewrite Lflag, Lbare in H.
    destruct flag as [|f flag]; [discriminate H|].
    cbn [negb JS.truthy default id] in H. inversion H; subst m.
    apply cut_Some in E as [-> Hflag]. apply cut_Some in E' as [-> Hauthzid].
    exists (f :: flag), authzid, bare, n, r, (u :: user).
    repeat split; try assumption; try discriminate; reflexivity.
  - intros (flag & authzid & bare & n & r & user & -> & Hflag & Hauthzid & Hne
            & En & Hn & Er & Hr & Hprep & Huser & ->).
    change (flag ++ [44%N] ++ authzid ++ [44%N] ++ bare)
      with (flag ++ 44%N :: authzid ++ 44%N :: bare) in *.
    rewrite cut_app in L by assumption. rewrite cut_app in L by assumption.
    destruct L as [Lflag Lbare]. rewrite Lflag, Lbare, En, Er.
    rewrite truthy_nonempty by assumption. cbn [negb default id]. rewrite Hprep.
    rewrite !truthy_nonempty by assumption. reflexivity.
Qed.

(** X2: the constructor of [ScramMessageClientFinal] accepts a text exactly
    when the text has a [,p=], the proof that follows its first [,p=] is
    not empty, and the parameters [c] and [r] read from the text before that
    [,p=] are not empty. The proof ends at the next [,p=] if there is one:
    what follows a second [,p=] is in no field but the full message. The
    object holds the text, the text before the first [,p=], [c], [r] and
    the proof. *)
Theorem X2_client_final_reads_exactly_when (msg : jsstring) (m : ScramMessageClientFinal.t) :
  ScramMessageClientFinal.new msg = Return m <->
  exists withoutProof after c r : jsstring,
    cut_at (lit ",p=") msg = Some (withoutProof, after)
    /\ msg = withoutProof ++ lit ",p=" ++ after
    /\ proof_text after <> []
    /\ readScramParamString withoutProof !! lit "c" = Some c /\ c <> []
    /\ readScramParamString withoutProof !! lit "r" = Some r /\ r <> []
    /\ m = {| ScramMessageClientFinal.message := msg;
              ScramMessageClientFinal.messageWithoutProof := withoutProof;
              ScramMessageClientFinal.gs2Header := c;
              ScramMessageClientFinal.nonce := r;
              ScramMessageClientFinal.clientProof := proof_text after |}.
Proof.
  destruct (split_head_proof msg) as [H0 H1].
  unfold ScramMessageClientFinal.new. rewrite H0, H1. cbn [default id].
  destruct (cut_at (lit ",p=") msg) as [[w after]|] eqn:E.
  - split.
    + intros H.
      destruct (JS.truthy (readScramParamString w !! lit "c")) eqn:Hc; [|discriminate H].
      destruct (JS.truthy (readScramParamString w !! lit "r")) eqn:Hr; [|discriminate H].
      apply truthy_Some in Hc as (c & Ec & Hc). apply truthy_Some in Hr as (r & Er & Hr).
      rewrite Ec, Er in H. cbn [negb orb default id] in H.
      destruct (JS.truthy (Some w)); [|discriminate H].
      destruct (proof_text after) as [|p proof] eqn:Ep; [discriminate H|].
      cbn [negb orb JS.truthy] in H. inversion H; subst m.
      exists w, after, c, r. rewrite Ep.
      repeat split; try assumption; try discriminate.
      apply cut_at_Some. assumption.
    + intros (w' & after' & c & r & E' & _ & Hp & Ec & Hc & Er & Hr & ->).
      inversion E'; subst w' after'. rewrite Ec, Er.
      rewrite !truthy_nonempty by assumption. cbn [negb orb default id].
      assert (Hw : w <> []) by (intros ->; rewrite read_empty, lookup_empty in Ec; discriminate).
      rewrite !truthy_nonempty by assumption. reflexivity.
  - split.
    + intros H.
      destruct (negb (JS.truthy (readScramParamString msg !! lit "c"))
                || negb (JS.truthy (readScramParamString msg !! lit "r"))
                || negb (JS.truthy (Some msg))); discriminate H.
    + intros (w & after & c & r & E' & _). discriminate E'.
Qed.

(** ** Printing and reading a number *)

Lemma digitValue_digit d : (d < 10)%N -> JS.digitValue 10 (48 + d) = Some d.
Proof.
  intros H. unfold JS.digitValue.
  replace ((48 <=? 48 + d) && (48 + d <=? 57))%N with true
    by (symmetry; apply andb_true_iff; split; apply N.leb_le; lia).
  f_equal. lia.
Qed.

Lemma readDigits_digits_of fuel n acc :
  (n < 10 ^ N.of_nat (S fuel))%N ->
  JS.readDigits 10 (JS.digits_of (S fuel) n acc) None = JS.readDigits 10 acc (Some n).
Proof.
  revert n acc. induction fuel as [|fuel IH]; intros n acc Hn.
  - change (10 ^ N.of_nat 1)%N with 10%N in Hn.
    simpl. replace (n / 10 =? 0)%N with true
      by (symmetry; apply N.eqb_eq; apply N.div_small; assumption).
    cbn [JS.readDigits]. rewrite N.mod_small by assumption.
    rewrite digitValue_digit by assumption. reflexivity.
  - change (JS.digits_of (S (S fuel)) n acc)
      with (if (n / 10 =? 0)%N then (48 + n mod 10)%N :: acc
            else JS.digits_of (S fuel) (n / 10)%N ((48 + n mod 10)%N :: acc)).
    assert (Hd : (n mod 10 < 10)%N) by (apply N.mod_lt; discriminate).
    destruct (N.eqb_spec (n / 10) 0) as [E|E].
    + cbn [JS.readDigits]. rewrite digitValue_digit by assumption.
      f_equal. f_equal. pose proof (N.div_mod n 10). lia.
    + rewrite IH.
      * cbn [JS.readDigits]. rewrite digitValue_digit by assumption.
        f_equal. f_equal. pose proof (N.div_mod n 10). lia.
      * apply N.Div0.div_lt_upper_bound.
        replace (10 * 10 ^ N.of_nat (S fuel))%N with (10 ^ N.of_nat (S (S fuel)))%N; [assumption|].
        rewrite (Nat2N.inj_succ (S fuel)), N.pow_succ_r'. reflexivity.
Qed.

Lemma log2_fuel n : (n < 10 ^ N.of_nat (S (N.to_nat (N.log2 n))))%N.
Proof.
  rewrite Nat2N.inj_succ, N2Nat.id.
  destruct (N.eq_dec n 0%N) as [->|Hn]; [reflexivity|].
  pose proof (N.log2_spec n ltac:(lia)) as [_ H].
  eapply N.lt_le_trans; [exact H|].
  apply N.pow_le_mono_l. lia.
Qed.

(** The text of a number reads back as that number. *)
Lemma parseInt_Number_toString z : JS.parseInt (JS.Number_toString z) = Some z.
Proof.
  unfold JS.Number_toString.
  set (ds := JS.digits_of (S (N.to_nat (N.log2 (Z.abs_N z)))) (Z.abs_N z) []).
  assert (Hd : Forall (fun c => isDigit c = true) ds)
    by (apply digits_of_digits; constructor).
  assert (Hr : JS.readDigits 10 ds None = Some (Z.abs_N z))
    by (unfold ds; rewrite readDigits_digits_of by apply log2_fuel; reflexivity).
  assert (Hp : Forall (fun c => plain c = true) ds)
    by (eapply Forall_impl; [exact Hd | exact isDigit_plain]).
  destruct (Z.ltb_spec z 0) as [Hneg|Hpos]; unfold JS.parseInt.
  - change (JS.trimStart (45%N :: ds)) with (45%N :: ds).
    change (JS.parseInt_sign (45%N :: ds)) with (-1, ds). cbv beta iota.
    rewrite (parseInt_radix_digits ds Hd), Hr. f_equal. lia.
  - rewrite trimStart_plain by (apply plain_no_space; exact Hp).
    rewrite (parseInt_sign_digits ds Hd). cbv beta iota.
    rewrite (parseInt_radix_digits ds Hd), Hr. f_equal. lia.
Qed.

(** ** The server's first message *)

(** The server-first text built from a nonce, a salt and a count reads
    back as them. *)
Lemma server_first_reads nonce salt iterations :
  Forall (fun c => c <> 44%N) nonce -> JS.trim nonce = nonce -> nonce <> [] ->
  salt <> [] ->
  ScramMessageServerFirst.new
    (lit "r=" ++ nonce ++ lit ",s=" ++ Base64.fromUint8Array salt
     ++ lit ",i=" ++ JS.Number_toString iterations)
  = Return {| ScramMessageServerFirst.message :=
                lit "r=" ++ nonce ++ lit ",s=" ++ Base64.fromUint8Array salt
                ++ lit ",i=" ++ JS.Number_toString iterations;
              ScramMessageServerFirst.nonce := nonce;
              ScramMessageServerFirst.salt := salt;
              ScramMessageServerFirst.iterations := iterations |}.
Proof.
  intros Hn Ht Hn' Hs.
  destruct (Number_toString_shape iterations) as (Hi & Hi' & _).
  pose proof (fromUint8Array_plain salt) as Hsalt.
  pose proof (fromUint8Array_nonempty salt Hs) as Hsalt'.
  unfold ScramMessageServerFirst.new.
  change (readScramParamString
            (lit "r=" ++ nonce ++ lit ",s=" ++ Base64.fromUint8Array salt
             ++ lit ",i=" ++ JS.Number_toString iterations))
    with (readScramParamString
            (JS.join [114%N :: 61%N :: nonce; 115%N :: 61%N :: Base64.fromUint8Array salt;
                      105%N :: 61%N :: JS.Number_toString iterations] [44%N])).
  rewrite read_join by solve_parts.
  cbn [foldl]. rewrite !param_step_pair by (discriminate || reflexivity).
  rewrite Ht, !trim_plain by assumption.
  change (lit "r") with [114%N]. change (lit "s") with [115%N].
  change (lit "i") with [105%N].
  rewrite lookup_insert_eq.
  rewrite (lookup_insert_ne _ [105%N] [115%N]), lookup_insert_eq by discriminate.
  rewrite !(lookup_insert_ne _ _ [114%N]), lookup_insert_eq by discriminate.
  rewrite !truthy_nonempty by assumption.
  cbn [negb orb default id]. rewrite parseInt_Number_toString, toUint8Array_fromUint8Array.
  reflexivity.
Qed.

(** A server-first text whose salt is empty is refused. *)
Lemma server_first_empty_salt nonce iterations :
  ScramMessageServerFirst.new
    (lit "r=" ++ nonce ++ lit ",s=" ++ Base64.fromUint8Array []
     ++ lit ",i=" ++ JS.Number_toString iterations)
  = Throw ScramMessageServerFirst.unreadable.
Proof.
  destruct (Number_toString_shape iterations) as (Hi & _ & _).
  unfold ScramMessageServerFirst.new.
  replace (lit "r=" ++ nonce ++ lit ",s=" ++ Base64.fromUint8Array []
           ++ lit ",i=" ++ JS.Number_toString iterations)
    with (((114%N :: 61%N :: nonce) ++ 44%N :: 115%N :: 61%N :: [])
          ++ 44%N :: 105%N :: 61%N :: JS.Number_toString iterations)
    by (simpl; rewrite <- app_assoc; reflexivity).
  rewrite read_last_segment
    by (discriminate || reflexivity || (apply plain_no_comma; assumption)).
  rewrite read_last_segment by (discriminate || reflexivity || constructor).
  change (lit "s") with [115%N].
  rewrite (lookup_insert_ne _ [105%N] [115%N]), lookup_insert_eq by discriminate.
  change (JS.truthy (Some (JS.trim []))) with false.
  cbn [negb]. rewrite orb_true_r. reflexivity.
Qed.

(** The nonce of a client-first message that was read from text. *)
Lemma client_first_nonce_shape {W : Platform} text m :
  ScramMessageClientFirst.new text = Return m ->
  Forall (fun c => c <> 44%N) (ScramMessageClientFirst.getNonce m)
  /\ JS.trim (ScramMessageClientFirst.getNonce m) = ScramMessageClientFirst.getNonce m
  /\ ScramMessageClientFirst.getNonce m <> [].
Proof.
  unfold ScramMessageClientFirst.new. intros H.
  destruct (negb (JS.truthy (readScramParamString text !! lit "n"))); [discriminate H|].
  destruct (saslPrep _) as [user|e]; [|discriminate H].
  destruct (JS.truthy (readScramParamString text !! lit "r")) eqn:Hr; [|discriminate H].
  apply truthy_Some in Hr as (r & Er & Hr). rewrite Er in H.
  destruct (negb true || negb (JS.truthy (Some user)) || _); [discriminate H|].
  inversion H; subst m.
  cbn [ScramMessageClientFirst.getNonce ScramMessageClientFirst.nonce default id].
  apply read_shape in Er as (_ & Ht & _ & Hc & _). auto.
Qed.

(** X5: when the server holds a client-first message that the constructor
    read from some text, [createServerFirstMessage] returns and stores the
    message [r=<nonce>,s=<salt>,i=<count>] whose nonce is the client's nonce
    followed by the Base64 text of the 24 random bytes, and whose salt and
    iteration count, as the client will read them, are exactly those of
    the user's record when the repository has the user, and otherwise the
    salt of the salt generator and the server's default count. The salt is
    not empty and the count is a safe integer. *)
Theorem X5_createServerFirstMessage_advertises_salt_and_count (W : Platform)
    (this : ScramRequestServer.t) (randomBuffer : bytes) (text : jsstring)
    (clientFirst : ScramMessageClientFirst.t) (salt : bytes) (iterations : Z) :
  ScramMessageClientFirst.new text = Return clientFirst ->
  ScramRequest.clientFirstMessage (ScramRequestServer.base this) = Some clientFirst ->
  let username := ScramMessageClientFirst.getUser clientFirst in
  (ScramUserRepo.has (ScramRequestServer.repo this) username = true
   /\ exists record,
        ScramUserRepo.find (ScramRequestServer.repo this) username = Return record
        /\ ScramUser.getSalt record = salt /\ ScramUser.getIterations record = iterations)
  \/ (ScramUserRepo.has (ScramRequestServer.repo this) username = false
      /\ SaltGenerator.get (ScramRequestServer.saltGenerator this) username = salt
      /\ ScramRequestServer.iterations this = iterations) ->
  salt <> [] ->
  length randomBuffer = 24%nat ->
  Z.abs iterations <= 9007199254740991 ->
  let nonce := ScramMessageClientFirst.getNonce clientFirst
               ++ Base64.fromUint8Array randomBuffer in
  let m := {| ScramMessageServerFirst.message :=
                lit "r=" ++ nonce ++ lit ",s=" ++ Base64.fromUint8Array salt
                ++ lit ",i=" ++ JS.Number_toString iterations;
              ScramMessageServerFirst.nonce := nonce;
              ScramMessageServerFirst.salt := salt;
              ScramMessageServerFirst.iterations := iterations |} in
  ScramRequestServer.createServerFirstMessage randomBuffer this
  = (Return m, ScramRequestServer.setServerFirstMessage m this).
Proof.
  intros Hread Hcf username Hsource Hsalt _ _ nonce m.
  destruct (client_first_nonce_shape text clientFirst Hread) as (Hc & Ht & Hne).
  assert (Hnew : ScramMessageServerFirst.new
                   (lit "r=" ++ nonce ++ lit ",s=" ++ Base64.fromUint8Array salt
                    ++ lit ",i=" ++ JS.Number_toString iterations) = Return m).
  { apply server_first_reads; try assumption.
    - apply Forall_app. split; [assumption | apply plain_no_comma, fromUint8Array_plain].
    - apply trim_app_plain; [assumption | assumption | apply fromUint8Array_plain].
    - unfold nonce. destruct (ScramMessageClientFirst.getNonce clientFirst);
        [contradiction | discriminate]. }
  cbv beta iota zeta delta [ScramRequestServer.createServerFirstMessage bind this_ ret lift
                              assign].
  rewrite Hcf. cbv beta iota. fold username.
  destruct Hsource as [(Hhas & record & Hfind & <- & <-)|(Hhas & <- & <-)];
    rewrite Hhas; [rewrite Hfind|]; cbv beta iota; cbn [fst snd];
    fold nonce; rewrite Hnew; reflexivity.
Qed.

(** X6: when the salt to advertise is empty (the user's record has an empty
    salt, or the salt generator returns no byte for an unknown user),
    [createServerFirstMessage] throws [Unable to read server-first-message]
    and leaves the request as it was, whatever the client's nonce and the
    iteration count are. *)
Theorem X6_createServerFirstMessage_refuses_empty_salt
    (this : ScramRequestServer.t) (randomBuffer : bytes)
    (clientFirst : ScramMessageClientFirst.t) :
  ScramRequest.clientFirstMessage (ScramRequestServer.base this) = Some clientFirst ->
  let username := ScramMessageClientFirst.getUser clientFirst in
  (ScramUserRepo.has (ScramRequestServer.repo this) username = true
   /\ exists record,
        ScramUserRepo.find (ScramRequestServer.repo this) username = Return record
        /\ ScramUser.getSalt record = [])
  \/ (ScramUserRepo.has (ScramRequestServer.repo this) username = false
      /\ SaltGenerator.get (ScramRequestServer.saltGenerator this) username = []) ->
  ScramRequestServer.createServerFirstMessage randomBuffer this
  = (Throw ScramMessageServerFirst.unreadable, this).
Proof.
  intros Hcf username Hsource.
  cbv beta iota zeta delta [ScramRequestServer.createServerFirstMessage bind this_ ret lift
                              assign].
  rewrite Hcf. cbv beta iota. fold username.
  destruct Hsource as [(Hhas & record & Hfind & Hsalt)|(Hhas & Hsalt)];
    rewrite Hhas; [rewrite Hfind|]; cbv beta iota; cbn [fst snd];
    rewrite Hsalt, server_first_empty_salt; reflexivity.
Qed.

(** ** The client's first message, for any user name *)

Lemma client_first_text_params username nonce :
  Forall (fun c => plain c = true) nonce ->
  readScramParamString (lit "n," ++ lit ",n=" ++ username ++ lit ",r=" ++ nonce)
  = <[lit "r" := nonce]> (readScramParamString (lit "n,,n=" ++ username)).
Proof.
  intros Hn.
  change (lit "n," ++ lit ",n=" ++ username ++ lit ",r=" ++ nonce)
    with ((lit "n,,n=" ++ username) ++ 44%N :: 114%N :: 61%N :: nonce).
  rewrite read_last_segment
    by (discriminate || reflexivity || (apply plain_no_comma; assumption)).
  rewrite trim_plain by assumption. reflexivity.
Qed.

(** The client-first text of [createClientFirstMessage], read by the
    constructor: whatever the user name holds, the flag is [n], the bare
    message is what follows [n,,] and the nonce is the last parameter. *)
Lemma client_first_text_reads {W : Platform} username nonce :
  Forall (fun c => plain c = true) nonce ->
  match ScramMessageClientFirst.new (lit "n," ++ lit ",n=" ++ username ++ lit ",r=" ++ nonce) with
  | Return m =>
      exists user,
        m = {| ScramMessageClientFirst.message :=
                 lit "n," ++ lit ",n=" ++ username ++ lit ",r=" ++ nonce;
               ScramMessageClientFirst.messageBare := lit "n=" ++ username ++ lit ",r=" ++ nonce;
               ScramMessageClientFirst.user := user;
               ScramMessageClientFirst.gs2CbindFlag := lit "n";
               ScramMessageClientFirst.nonce := nonce;
               ScramMessageClientFirst.mext :=
                 readScramParamString (lit "n,,n=" ++ username) !! lit "m" |}
        /\ exists n, readScramParamString (lit "n,,n=" ++ username) !! lit "n" = Some n
                     /\ saslPrep n = Return user
  | Throw _ => True
  end.
Proof.
  intros Hn. unfold ScramMessageClientFirst.new.
  rewrite client_first_text_params by assumption. rewrite lit_comma.
  change (lit "n," ++ lit ",n=" ++ username ++ lit ",r=" ++ nonce)
    with (110%N :: 44%N :: 44%N :: 110%N :: 61%N :: username ++ lit ",r=" ++ nonce).
  rewrite gs2_index.
  change 3 with (Z.of_nat 3). rewrite substring_take, substring_drop.
  cbn [take drop]. rewrite split_char.
  change (segments 44 [110%N; 44%N; 44%N]) with [[110%N]; []; ([] : jsstring)].
  cbn [lookup list_lookup].
  change (lit "n") with [110%N]. change (lit "r") with [114%N]. change (lit "m") with [109%N].
  rewrite lookup_insert_eq, !(lookup_insert_ne _ [114%N]) by discriminate.
  destruct (JS.truthy (readScramParamString (lit "n,,n=" ++ username) !! [110%N])) eqn:E;
    cbn [negb]; [|exact I].
  apply truthy_Some in E as (n & En & _). rewrite En. cbn [default id].
  destruct (saslPrep n) as [user|e] eqn:Hprep; [|exact I].
  destruct (negb (JS.truthy (Some nonce)) || negb (JS.truthy (Some user))
            || negb (JS.truthy (Some [110%N]))); [exact I|].
  exists user. split; [reflexivity|]. exists n. auto.
Qed.

(** X7: [createClientFirstMessage] copies the user name into the message
    as it is given, commas and [=] included: whenever it returns a message,
    the text of the message is [n,,n=<user name>,r=<nonce>], its bare
    message is that text without [n,,], its channel-binding flag is [n] and
    its nonce is the Base64 text of the random bytes. *)
Theorem X7_createClientFirstMessage_copies_the_user_name (W : Platform)
    (this : ScramRequestClient.t) (randomBuffer : bytes) (username : jsstring) :
  ScramRequestClient.gs2_header this = lit "n," ->
  forall m : ScramMessageClientFirst.t,
    fst (ScramRequestClient.createClientFirstMessage randomBuffer username this) = Return m ->
    ScramMessageClientFirst.getMessage m
    = lit "n,,n=" ++ username ++ lit ",r=" ++ Base64.fromUint8Array randomBuffer
    /\ ScramMessageClientFirst.getMessageBare m
       = lit "n=" ++ username ++ lit ",r=" ++ Base64.fromUint8Array randomBuffer
    /\ ScramMessageClientFirst.getGS2CbindFlag m = lit "n"
    /\ ScramMessageClientFirst.getNonce m = Base64.fromUint8Array randomBuffer.
Proof.
  intros Hgs2 m.
  cbv beta iota zeta delta [ScramRequestClient.createClientFirstMessage bind this_ ret lift
                              assign].
  rewrite Hgs2.
  pose proof (client_first_text_reads username (Base64.fromUint8Array randomBuffer)
                (fromUint8Array_plain randomBuffer)) as H.
  destruct (ScramMessageClientFirst.new
              (lit "n," ++ lit ",n=" ++ username ++ lit ",r="
               ++ Base64.fromUint8Array randomBuffer)) as [m'|e]; [|discriminate].
  destruct H as (user & -> & _). cbn [fst]. intros E. inversion E; subst m.
  repeat split; reflexivity.
Qed.

(** X8: for a user name of the form [<any text>,n=<name>], where [<name>]
    holds no comma, the message that [createClientFirstMessage] returns
    names the SASLprep form of [<name>] as its user: the text after the
    comma takes the place of the text before it. *)
Theorem X8_createClientFirstMessage_later_name_takes_over (W : Platform)
    (this : ScramRequestClient.t) (randomBuffer : bytes) (u1 u2 user : jsstring) :
  ScramRequestClient.gs2_header this = lit "n," ->
  length randomBuffer = 24%nat ->
  Forall (fun c => c <> 44%N) u2 -> JS.trim u2 <> [] ->
  saslPrep (JS.trim u2) = Return user -> user <> [] ->
  exists m : ScramMessageClientFirst.t,
    fst (ScramRequestClient.createClientFirstMessage randomBuffer (u1 ++ lit ",n=" ++ u2) this)
    = Return m
    /\ ScramMessageClientFirst.getUser m = user.
Proof.
  intros Hgs2 Hlen Hu2 Hne Hprep Huser.
  assert (Hr : randomBuffer <> []) by (intros ->; discriminate).
  set (nonce := Base64.fromUint8Array randomBuffer).
  assert (Hn : Forall (fun c => plain c = true) nonce) by apply fromUint8Array_plain.
  assert (Hn' : nonce <> []) by (apply fromUint8Array_nonempty; assumption).
  cbv beta iota zeta delta [ScramRequestClient.createClientFirstMessage bind this_ ret lift
                              assign].
  rewrite Hgs2. fold nonce.
  assert (En : readScramParamString (lit "n,,n=" ++ u1 ++ lit ",n=" ++ u2) !! lit "n"
               = Some (JS.trim u2)).
  { change (lit "n,,n=" ++ u1 ++ lit ",n=" ++ u2)
      with ((lit "n,,n=" ++ u1) ++ 44%N :: 110%N :: 61%N :: u2).
    rewrite read_last_segment by (discriminate || reflexivity || assumption).
    apply lookup_insert_eq. }
  unfold ScramMessageClientFirst.new.
  rewrite client_first_text_params by assumption. rewrite lit_comma.
  change (lit "n," ++ lit ",n=" ++ (u1 ++ lit ",n=" ++ u2) ++ lit ",r=" ++ nonce)
    with (110%N :: 44%N :: 44%N :: 110%N :: 61%N :: (u1 ++ lit ",n=" ++ u2) ++ lit ",r=" ++ nonce).
  rewrite gs2_index.
  change 3 with (Z.of_nat 3). rewrite substring_take, substring_drop.
  cbn [take drop]. rewrite split_char.
  change (segments 44 [110%N; 44%N; 44%N]) with [[110%N]; []; ([] : jsstring)].
  cbn [lookup list_lookup].
  change (lit "r") with [114%N] at 1 2.
  rewrite lookup_insert_eq.
  rewrite (lookup_insert_ne _ [114%N] (lit "n")) by discriminate.
  rewrite En. rewrite (truthy_nonempty (JS.trim u2)) by assumption.
  cbn [negb default id]. rewrite Hprep.
  rewrite !truthy_nonempty by (assumption || discriminate).
  cbn [negb orb fst]. eexists. split; reflexivity.
Qed.

(** ** The client's final message, for any server-first message read *)

Lemma server_first_nonce_shape text m :
  ScramMessageServerFirst.new text = Return m ->
  Forall (fun c => c <> 44%N) (ScramMessageServerFirst.getNonce m)
  /\ JS.trim (ScramMessageServerFirst.getNonce m) = ScramMessageServerFirst.getNonce m
  /\ ScramMessageServerFirst.getNonce m <> [].
Proof.
  unfold ScramMessageServerFirst.new. intros H.
  destruct (JS.truthy (readScramParamString text !! lit "r")) eqn:Hr; [|discriminate H].
  apply truthy_Some in Hr as (r & Er & Hr). rewrite Er in H.
  destruct (negb true || _ || _); [discriminate H|].
  destruct (JS.parseInt _); [|discriminate H].
  inversion H; subst m.
  cbn [ScramMessageServerFirst.getNonce ScramMessageServerFirst.nonce default id].
  apply read_shape in Er as (_ & Ht & _ & Hc & _). auto.
Qed.

Lemma client_final_reads nonce proof :
  Forall (fun c => c <> 44%N) nonce -> JS.trim nonce = nonce -> nonce <> [] ->
  Forall (fun c => plain c = true) proof -> proof <> [] ->
  ScramMessageClientFinal.new (lit "c=" ++ lit "biws" ++ lit ",r=" ++ nonce ++ lit ",p=" ++ proof)
  = Return (built_client_final nonce proof).
Proof.
  intros Hn Ht Hn' Hp Hp'. unfold ScramMessageClientFinal.new.
  rewrite split_client_final
    by (assumption || (apply plain_no_comma; assumption)
        || (repeat (apply Forall_cons_2; [discriminate|]); apply Forall_nil_2)).
  cbn [lookup list_lookup default id].
  change (readScramParamString (lit "c=" ++ lit "biws" ++ lit ",r=" ++ nonce))
    with (readScramParamString
            (JS.join [99%N :: 61%N :: lit "biws"; 114%N :: 61%N :: nonce] [44%N])).
  rewrite read_join
    by (repeat first [apply Forall_nil_2 | apply Forall_cons_2 | discriminate | assumption]).
  cbn [foldl]. rewrite !param_step_pair by (discriminate || reflexivity).
  rewrite Ht. change (JS.trim (lit "biws")) with (lit "biws").
  change (lit "c") with [99%N]. change (lit "r") with [114%N].
  rewrite lookup_insert_eq.
  rewrite (lookup_insert_ne _ [114%N] [99%N]), lookup_insert_eq by discriminate.
  rewrite !truthy_nonempty by (assumption || discriminate).
  reflexivity.
Qed.

(** X9: for every server-first message that the constructor read from some
    text, the client that holds it, after its own first message, builds and
    stores the client-final message [c=biws,r=<nonce>,p=<proof>], where the
    nonce is the one of the server-first message, copied without a
    comparison with the client's own nonce, and the proof is computed over
    the transcript of the three messages. The client key is not empty. *)
Theorem X9_createClientFinalMessage_answers_any_server_first (W : Platform)
    (this : ScramRequestClient.t) (saltedPassword : bytes) (text : jsstring)
    (clientFirst : ScramMessageClientFirst.t) (serverFirst : ScramMessageServerFirst.t) :
  ScramMessageServerFirst.new text = Return serverFirst ->
  ScramRequest.clientFirstMessage (ScramRequestClient.base this) = Some clientFirst ->
  ScramRequest.serverFirstMessage (ScramRequestClient.base this) = Some serverFirst ->
  ScramRequestClient.gs2_header this = lit "n," ->
  ScramAlgo.getClientKey (ScramRequestClient.algo this) saltedPassword <> [] ->
  let nonce := ScramMessageServerFirst.getNonce serverFirst in
  let built :=
    built_client_final nonce
      (client_proof (ScramRequestClient.algo this) saltedPassword
         (transcript clientFirst serverFirst (lit "c=" ++ lit "biws" ++ lit ",r=" ++ nonce))) in
  ScramRequestClient.createClientFinalMessage saltedPassword this
  = (Return built, ScramRequestClient.setClientFinalMessage built this).
Proof.
  intros Hread Hcf Hsf Hgs2 Hkey nonce built.
  destruct (server_first_nonce_shape text serverFirst Hread) as (Hc & Ht & Hne).
  cbv beta iota zeta delta [ScramRequestClient.createClientFinalMessage bind this_ ret lift
                              assign].
  rewrite Hcf, Hsf. cbv beta iota. rewrite Hgs2, biws.
  rewrite (getAuthMessage_transcript _ clientFirst serverFirst) by assumption.
  cbv beta iota. fold nonce.
  fold (client_proof (ScramRequestClient.algo this) saltedPassword
          (transcript clientFirst serverFirst (lit "c=" ++ lit "biws" ++ lit ",r=" ++ nonce))).
  set (proof := client_proof (ScramRequestClient.algo this) saltedPassword
                  (transcript clientFirst serverFirst
                     (lit "c=" ++ lit "biws" ++ lit ",r=" ++ nonce))) in *.
  change ((lit "c=" ++ lit "biws" ++ lit ",r=" ++ nonce) ++ lit ",p=" ++ proof)
    with (lit "c=" ++ lit "biws" ++ lit ",r=" ++ nonce ++ lit ",p=" ++ proof).
  rewrite client_final_reads; try assumption.
  - reflexivity.
  - apply fromUint8Array_plain.
  - apply fromUint8Array_nonempty. intros H.
    apply (f_equal (@length byte)) in H. rewrite length_xorArrayBuffer in H.
    destruct (ScramAlgo.getClientKey (ScramRequestClient.algo this) saltedPassword);
      [contradiction | discriminate].
Qed.

(** ** Exclusive or, for buffers of any lengths *)

Lemma xor_bits_zero x : xor_bits x (Byte.to_bits x00) = x.
Proof.
  destruct x as (x0 & x1 & x2 & x3 & x4 & x5 & x6 & x7). unfold xor_bits. simpl.
  rewrite !xorb_false_r. reflexivity.
Qed.

Lemma byte_xor_zero a : byte_xor a x00 = a.
Proof. unfold byte_xor. rewrite xor_bits_zero. apply Byte.of_bits_to_bits. Qed.

Lemma xor_bits_twice x y : xor_bits (xor_bits x y) y = x.
Proof.
  destruct x as (x0 & x1 & x2 & x3 & x4 & x5 & x6 & x7).
  destruct y as (y0 & y1 & y2 & y3 & y4 & y5 & y6 & y7).
  unfold xor_bits.
  repeat f_equal;
    match goal with |- xorb (xorb ?a ?b) ?b = ?a => destruct a, b; reflexivity end.
Qed.

Lemma byte_xor_twice a b : byte_xor (byte_xor a b) b = a.
Proof.
  unfold byte_xor. rewrite Byte.to_bits_of_bits, xor_bits_twice.
  apply Byte.of_bits_to_bits.
Qed.

Lemma xor_bits_comm x y : xor_bits x y = xor_bits y x.
Proof.
  destruct x as (x0 & x1 & x2 & x3 & x4 & x5 & x6 & x7).
  destruct y as (y0 & y1 & y2 & y3 & y4 & y5 & y6 & y7).
  unfold xor_bits. repeat (f_equal; [apply xorb_comm|]). apply xorb_comm.
Qed.

(** X4: [xorArrayBuffer] returns as many bytes as its left buffer has,
    whatever the length of the right one. Combining the result with the
    same right buffer again gives the left buffer back; with an empty right
    buffer the left one is returned; the bytes of the left buffer past the
    end of the right one are returned unchanged; and on buffers of equal
    lengths the order of the two arguments does not matter. *)
Theorem X4_xorArrayBuffer_any_lengths (leftBuffer rightBuffer : bytes) :
  length (xorArrayBuffer leftBuffer rightBuffer) = length leftBuffer
  /\ xorArrayBuffer (xorArrayBuffer leftBuffer rightBuffer) rightBuffer = leftBuffer
  /\ xorArrayBuffer leftBuffer [] = leftBuffer
  /\ drop (length rightBuffer) (xorArrayBuffer leftBuffer rightBuffer)
     = drop (length rightBuffer) leftBuffer
  /\ (length leftBuffer = length rightBuffer ->
      xorArrayBuffer leftBuffer rightBuffer = xorArrayBuffer rightBuffer leftBuffer).
Proof.
  assert (Hnil : forall l, xorArrayBuffer l [] = l).
  { induction l as [|a l IH]; [reflexivity|]. simpl. rewrite byte_xor_zero, IH. reflexivity. }
  split; [apply length_xorArrayBuffer|].
  split.
  { revert rightBuffer. induction leftBuffer as [|a l IH]; intros [|b r]; try reflexivity.
    - rewrite !Hnil. reflexivity.
    - simpl. rewrite byte_xor_twice, IH. reflexivity. }
  split; [apply Hnil|].
  split.
  { revert rightBuffer. induction leftBuffer as [|a l IH]; intros [|b r]; try reflexivity.
    - rewrite Hnil. reflexivity.
    - simpl. apply IH. }
  revert rightBuffer. induction leftBuffer as [|a l IH]; intros [|b r] H;
    try discriminate; [reflexivity|].
  simpl. f_equal.
  - unfold byte_xor. rewrite xor_bits_comm. reflexivity.
  - apply IH. simpl in H. lia.
Qed.

(** ** The two verifications *)

Lemma fromUint8Array_inj a b : Base64.fromUint8Array a = Base64.fromUint8Array b -> a = b.
Proof.
  intros H. apply (f_equal Base64.toUint8Array) in H.
  rewrite !toUint8Array_fromUint8Array in H. exact H.
Qed.

(** X10: with the three messages set, [verifyClientFinalMessage] returns
    without a change to the request: [false] when the repository does not
    have the user; and for a user it has, [true] exactly when the stored key
    of the record is, byte for byte, the hash of the client signature
    combined by exclusive or with the decoded proof. Comparing the Base64
    texts, as the code does, decides the equality of the bytes. *)
Theorem X10_verifyClientFinalMessage_compares_the_stored_key (W : Platform)
    (this : ScramRequestServer.t) (clientFirst : ScramMessageClientFirst.t)
    (serverFirst : ScramMessageServerFirst.t) (clientFinal : ScramMessageClientFinal.t) :
  ScramRequest.clientFirstMessage (ScramRequestServer.base this) = Some clientFirst ->
  ScramRequest.serverFirstMessage (ScramRequestServer.base this) = Some serverFirst ->
  ScramRequest.clientFinalMessage (ScramRequestServer.base this) = Some clientFinal ->
  let username := ScramMessageClientFirst.getUser clientFirst in
  let authMessage :=
    transcript clientFirst serverFirst
      (ScramMessageClientFinal.getMessageWithoutProof clientFinal) in
  (ScramUserRepo.has (ScramRequestServer.repo this) username = false ->
   ScramRequestServer.verifyClientFinalMessage this = (Return false, this))
  /\ (forall record,
        ScramUserRepo.has (ScramRequestServer.repo this) username = true ->
        ScramUserRepo.find (ScramRequestServer.repo this) username = Return record ->
        let clientSignature :=
          ScramAlgo.hmac (ScramRequestServer.algo this) (ScramUser.getStoredKey record)
            authMessage in
        let clientKey :=
          xorArrayBuffer clientSignature
            (Base64.toUint8Array (ScramMessageClientFinal.getClientProof clientFinal)) in
        exists ok : bool,
          ScramRequestServer.verifyClientFinalMessage this = (Return ok, this)
          /\ (ok = true
              <-> ScramUser.getStoredKey record
                  = ScramAlgo.hash (ScramRequestServer.algo this) clientKey)).
Proof.
  intros Hcf Hsf Hcl username authMessage.
  cbv beta iota zeta delta [ScramRequestServer.verifyClientFinalMessage bind this_ ret lift].
  rewrite Hcf, Hsf, Hcl. cbv beta iota. fold username. split.
  - intros ->. reflexivity.
  - intros record -> ->. cbn [negb]. cbv beta iota.
    rewrite (getAuthMessage_transcript _ clientFirst serverFirst) by assumption.
    cbv beta iota. fold authMessage. eexists. split; [reflexivity|].
    rewrite bool_decide_eq_true.
    split; [apply fromUint8Array_inj | intros E; rewrite <- E; reflexivity].
Qed.

(** X11: with the four messages set, the server-final one read from [text],
    [verifyServerFinalMessage] returns, without a change to the request,
    [true] exactly when the parameter [v] of [text] is the Base64 text of
    the expected server signature. The parameter [e] plays no part: a
    message with an error and no verifier gives [false], and one with an
    error and the right verifier gives [true]. The signature is not empty. *)
Theorem X11_verifyServerFinalMessage_reads_only_the_verifier (W : Platform)
    (this : ScramRequestClient.t) (saltedPassword : bytes) (text : jsstring)
    (clientFirst : ScramMessageClientFirst.t) (serverFirst : ScramMessageServerFirst.t)
    (clientFinal : ScramMessageClientFinal.t) (serverFinal : ScramMessageServerFinal.t) :
  ScramMessageServerFinal.new text = Return serverFinal ->
  ScramRequest.clientFirstMessage (ScramRequestClient.base this) = Some clientFirst ->
  ScramRequest.serverFirstMessage (ScramRequestClient.base this) = Some serverFirst ->
  ScramRequest.clientFinalMessage (ScramRequestClient.base this) = Some clientFinal ->
  ScramRequest.serverFinalMessage (ScramRequestClient.base this) = Some serverFinal ->
  let signature :=
    ScramAlgo.hmac (ScramRequestClient.algo this)
      (ScramAlgo.getServerKey (ScramRequestClient.algo this) saltedPassword)
      (transcript clientFirst serverFirst
         (ScramMessageClientFinal.getMessageWithoutProof clientFinal)) in
  signature <> [] ->
  ScramRequestClient.verifyServerFinalMessage saltedPassword this
  = (Return (bool_decide (readScramParamString text !! lit "v"
                          = Some (Base64.fromUint8Array signature))),
     this).
Proof.
  intros Hread Hcf Hsf Hcl Hsl signature Hsig.
  cbv beta iota zeta delta [ScramRequestClient.verifyServerFinalMessage bind this_ ret lift].
  rewrite Hcf, Hsf, Hcl, Hsl. cbv beta iota.
  rewrite (getAuthMessage_transcript _ clientFirst serverFirst) by assumption.
  cbv beta iota. fold signature. f_equal. f_equal.
  unfold ScramMessageServerFinal.new in Hread.
  destruct (negb _ && negb _); [discriminate Hread|]. inversion Hread; subst serverFinal.
  cbn [ScramMessageServerFinal.getVerifier ScramMessageServerFinal.verifier].
  apply bool_decide_ext. unfold ScramMessageServerFinal.or_false.
  destruct (readScramParamString text !! lit "v") as [[|c v]|]; simpl; try tauto.
  split; [discriminate|]. intros E. inversion E as [E'].
  symmetry in E'. apply fromUint8Array_nonempty in Hsig. contradiction.
Qed.

(** ** What an operation leaves in the request *)

(** X12: an operation that creates a message either returns the message
    and stores it in its own slot, every other field of the request
    unchanged, or throws and leaves the request as it was;
    [createServerFinalMessage], when it returns, returns the message it
    stored. [getSaltedPassword] and the two verifications never change the
    request. *)
Theorem X12_operations_store_their_message_or_nothing (W : Platform) :
  (forall randomBuffer user (client : ScramRequestClient.t),
      match ScramRequestClient.createClientFirstMessage randomBuffer user client with
      | (Return m, client') => client' = ScramRequestClient.setClientFirstMessage m client
      | (Throw _, client') => client' = client
      end)
  /\ (forall saltedPassword (client : ScramRequestClient.t),
      match ScramRequestClient.createClientFinalMessage saltedPassword client with
      | (Return m, client') => client' = ScramRequestClient.setClientFinalMessage m client
      | (Throw _, client') => client' = client
      end)
  /\ (forall randomBuffer (server : ScramRequestServer.t),
      match ScramRequestServer.createServerFirstMessage randomBuffer server with
      | (Return m, server') => server' = ScramRequestServer.setServerFirstMessage m server
      | (Throw _, server') => server' = server
      end)
  /\ (forall server : ScramRequestServer.t,
      match ScramRequestServer.createServerFinalMessage server with
      | (Return returned, server') =>
          exists m, returned = Some m
                    /\ server' = ScramRequestServer.setServerFinalMessage m server
      | (Throw _, server') => server' = server
      end)
  /\ (forall password (client : ScramRequestClient.t),
      snd (ScramRequestClient.getSaltedPassword password client) = client)
  /\ (forall saltedPassword (client : ScramRequestClient.t),
      snd (ScramRequestClient.verifyServerFinalMessage saltedPassword client) = client)
  /\ (forall server : ScramRequestServer.t,
      snd (ScramRequestServer.verifyClientFinalMessage server) = server).
Proof.
  assert (Hverify : forall server : ScramRequestServer.t,
             snd (ScramRequestServer.verifyClientFinalMessage server) = server).
  { intros server.
    cbv beta iota zeta delta [ScramRequestServer.verifyClientFinalMessage bind this_ ret lift
                                throw].
    destruct (ScramRequest.clientFirstMessage (ScramRequestServer.base server)) as [cf|];
      destruct (ScramRequest.serverFirstMessage (ScramRequestServer.base server)) as [sf|];
      destruct (ScramRequest.clientFinalMessage (ScramRequestServer.base server)) as [cl|];
      try reflexivity.
    destruct (negb _); [reflexivity|].
    destruct (ScramUserRepo.find _ _); [|reflexivity].
    destruct (ScramRequest.getAuthMessage _ _); reflexivity. }
  repeat apply conj.
  - intros randomBuffer user client.
    cbv beta iota zeta delta [ScramRequestClient.createClientFirstMessage bind this_ ret lift
                                assign].
    destruct (ScramMessageClientFirst.new _); reflexivity.
  - intros saltedPassword client.
    cbv beta iota zeta delta [ScramRequestClient.createClientFinalMessage bind this_ ret lift
                                assign throw].
    destruct (ScramRequest.clientFirstMessage (ScramRequestClient.base client)) as [cf|];
      destruct (ScramRequest.serverFirstMessage (ScramRequestClient.base client)) as [sf|];
      try reflexivity.
    destruct (ScramRequest.getAuthMessage _ _); [|reflexivity].
    destruct (ScramMessageClientFinal.new _); reflexivity.
  - intros randomBuffer server.
    cbv beta iota zeta delta [ScramRequestServer.createServerFirstMessage bind this_ ret lift
                                assign throw].
    destruct (ScramRequest.clientFirstMessage (ScramRequestServer.base server)) as [cf|];
      [|reflexivity].
    destruct (ScramUserRepo.has _ _).
    + destruct (ScramUserRepo.find _ _); [|reflexivity].
      destruct (ScramMessageServerFirst.new _); reflexivity.
    + destruct (ScramMessageServerFirst.new _); reflexivity.
  - intros server. pose proof (Hverify server) as Hv.
    cbv beta iota zeta delta [ScramRequestServer.createServerFinalMessage bind this_ try_catch
                                throw ret lift assign].
    destruct (ScramRequest.clientFirstMessage (ScramRequestServer.base server)) as [cf|];
      destruct (ScramRequest.serverFirstMessage (ScramRequestServer.base server)) as [sf|];
      destruct (ScramRequest.clientFinalMessage (ScramRequestServer.base server)) as [cl|];
      try reflexivity.
    destruct (JS.truthy (ScramMessageClientFirst.getMext cf)).
    { destruct (ScramMessageServerFinal.new _); [eexists; split; reflexivity | reflexivity]. }
    destruct (negb (bool_decide _)).
    { destruct (ScramMessageServerFinal.new _); [eexists; split; reflexivity | reflexivity]. }
    destruct (ScramUserRepo.find _ _).
    2:{ destruct (ScramMessageServerFinal.new _); [eexists; split; reflexivity | reflexivity]. }
    destruct (ScramRequest.getAuthMessage _ _).
    2:{ destruct (ScramMessageServerFinal.new _); [eexists; split; reflexivity | reflexivity]. }
    destruct (ScramRequestServer.verifyClientFinalMessage server) as [[ok|e] server'].
    2:{ cbn [snd] in Hv. subst server'.
        destruct (ScramMessageServerFinal.new _); [eexists; split; reflexivity | reflexivity]. }
    cbn [snd] in Hv. subst server'.
    destruct (negb ok).
    { destruct (ScramMessageServerFinal.new _); [eexists; split; reflexivity | reflexivity]. }
    destruct (ScramMessageServerFinal.new (lit "v=" ++ _)).
    { eexists; split; reflexivity. }
    destruct (ScramMessageServerFinal.new _); [eexists; split; reflexivity | reflexivity].
  - intros password client.
    cbv beta iota zeta delta [ScramRequestClient.getSaltedPassword bind this_ ret throw].
    destruct (ScramRequest.clientFirstMessage (ScramRequestClient.base client)) as [cf|];
      destruct (ScramRequest.serverFirstMessage (ScramRequestClient.base client)) as [sf|];
      try reflexivity.
    destruct (_ <? _); reflexivity.
  - intros saltedPassword client.
    cbv beta iota zeta delta [ScramRequestClient.verifyServerFinalMessage bind this_ ret lift
                                throw].
    destruct (ScramRequest.clientFirstMessage (ScramRequestClient.base client)) as [cf|];
      destruct (ScramRequest.serverFirstMessage (ScramRequestClient.base client)) as [sf|];
      destruct (ScramRequest.clientFinalMessage (ScramRequestClient.base client)) as [cl|];
      destruct (ScramRequest.serverFinalMessage (ScramRequestClient.base client)) as [sl|];
      try reflexivity.
    destruct (ScramRequest.getAuthMessage _ _); reflexivity.
  - exact Hverify.
Qed.

(** ** An exception that is not a SCRAM error *)

(** X13: when the lookup of the repository throws an error that is not a
    [ScramError], [createServerFinalMessage] does not throw: it returns and
    stores the message [e=undefined], the text of the missing [errorCode]
    property, or [e=other-error] when errors are concealed. *)
Theorem X13_createServerFinalMessage_answers_undefined_to_other_errors (W : Platform)
    (this : ScramRequestServer.t) (clientFirst : ScramMessageClientFirst.t)
    (serverFirst : ScramMessageServerFirst.t) (clientFinal : ScramMessageClientFinal.t)
    (message : jsstring) :
  ScramRequest.clientFirstMessage (ScramRequestServer.base this) = Some clientFirst ->
  ScramRequest.serverFirstMessage (ScramRequestServer.base this) = Some serverFirst ->
  ScramRequest.clientFinalMessage (ScramRequestServer.base this) = Some clientFinal ->
  JS.truthy (ScramMessageClientFirst.getMext clientFirst) = false ->
  ScramMessageClientFirst.getGS2CbindFlag clientFirst = lit "n" ->
  ScramUserRepo.find (ScramRequestServer.repo this)
    (ScramMessageClientFirst.getUser clientFirst) = Throw (Error message) ->
  let reply :=
    error_reply (ScramRequestServer.concealErrors (ScramRequestServer.options this))
      (lit "undefined") in
  ScramRequestServer.createServerFinalMessage this
  = (Return (Some reply), ScramRequestServer.setServerFinalMessage reply this)
  /\ (ScramRequestServer.concealErrors (ScramRequestServer.options this) = false ->
      ScramMessageServerFinal.getMessage reply = lit "e=undefined").
Proof.
  intros Hcf Hsf Hcl Hmext Hflag Hfind reply.
  split; [|intros E; unfold reply; rewrite E; reflexivity].
  cbv beta iota zeta delta [ScramRequestServer.createServerFinalMessage bind this_ try_catch
                              throw ret lift assign].
  rewrite Hcf, Hsf, Hcl. cbv beta iota. rewrite Hmext, Hflag.
  rewrite bool_decide_eq_true_2 by reflexivity. cbn [negb]. rewrite Hfind.
  cbv beta iota delta [errorCode_text].
  rewrite catch_reply by (reflexivity || discriminate). reflexivity.
Qed.

(** ** Stored users *)

(** X14: a [MyScramUser] built from the Base64 texts of a salt, a server
    key and a stored key returns exactly those bytes, with the user name
    and the iteration count it was given. *)
Theorem X14_MyScramUser_decodes_what_was_encoded (username : jsstring) (salt : bytes)
    (iterations : Z) (serverKey storedKey : bytes) :
  MyScramUser username (Base64.fromUint8Array salt) iterations
    (Base64.fromUint8Array serverKey) (Base64.fromUint8Array storedKey)
  = {| ScramUser.getUsername := username;
       ScramUser.getSalt := salt;
       ScramUser.getIterations := iterations;
       ScramUser.getServerKey := serverKey;
       ScramUser.getStoredKey := storedKey |}.
Proof. unfold MyScramUser. rewrite !toUint8Array_fromUint8Array. reflexivity. Qed.

(** X15: after [addUser(user)], for a user whose name is not [__proto__],
    the repository has that name and finds [user] under it, whatever it held
    before, and it reads every other name as before. [find] throws the
    [ScramError] [unknown-user] exactly when [has] is false, and otherwise
    returns what the dictionary reads under the name. That need not be a
    user: a repository to which nothing was added has every name of a
    method of [Object.prototype], and finds a function under it. *)
Theorem X15_MockScramUserRepo_finds_what_was_added (users : UserDictionary.t)
    (user : ScramUser.t) (username : jsstring) :
  (ScramUser.getUsername user <> lit "__proto__" ->
   MockScramUserRepo.has (MockScramUserRepo.addUser user users) (ScramUser.getUsername user)
   = true
   /\ MockScramUserRepo.find (MockScramUserRepo.addUser user users)
        (ScramUser.getUsername user) = Return (UserDictionary.user user)
   /\ (username <> ScramUser.getUsername user ->
       MockScramUserRepo.has (MockScramUserRepo.addUser user users) username
       = MockScramUserRepo.has users username
       /\ MockScramUserRepo.find (MockScramUserRepo.addUser user users) username
          = MockScramUserRepo.find users username))
  /\ (MockScramUserRepo.has users username = false
      <-> MockScramUserRepo.find users username = Throw (ScramError SCRAM_UNKNOWN_USER))
  /\ (MockScramUserRepo.has users username = true
      <-> MockScramUserRepo.find users username
          = Return (UserDictionary.get users username))
  /\ (username ∈ UserDictionary.Object_prototype_methods ->
      MockScramUserRepo.has UserDictionary.empty username = true
      /\ MockScramUserRepo.find UserDictionary.empty username
         = Return UserDictionary.function_).
Proof.
  unfold MockScramUserRepo.find, MockScramUserRepo.has, MockScramUserRepo.addUser.
  split; [|split; [|split]].
  - intros Hname. rewrite get_set_same by exact Hname.
    split; [reflexivity|]. split; [reflexivity|].
    intros Hother. rewrite get_set_other by assumption. split; reflexivity.
  - destruct (UserDictionary.Boolean (UserDictionary.get users username));
      split; (discriminate || reflexivity).
  - destruct (UserDictionary.Boolean (UserDictionary.get users username));
      split; (discriminate || reflexivity).
  - intros Hin.
    assert (E : UserDictionary.get UserDictionary.empty username = UserDictionary.function_).
    { unfold UserDictionary.get, UserDictionary.empty, UserDictionary.get_Object_prototype.
      cbn [UserDictionary.own UserDictionary.prototype]. rewrite lookup_empty.
      destruct (decide (username = lit "__proto__")) as [->|_].
      - exfalso. revert Hin. unfold UserDictionary.Object_prototype_methods.
        rewrite !elem_of_cons, elem_of_nil. intros H.
        repeat (destruct H as [H|H]; [discriminate H|]). exact H.
      - rewrite bool_decide_eq_true_2 by exact Hin. reflexivity. }
    rewrite E. split; reflexivity.
Qed.

(** ** The exchange for a user the repository does not hold *)

(** X16: for a user the repository does not hold, the exchange of
    [runExchange] still runs to its end: the server answers the
    client-first message with the salt of its salt generator and its
    default iteration count, answers the client-final message with the
    error [unknown-user] ([other-error] when errors are concealed), and
    both verifications are false. The user name is one the client-first
    message can carry, the generated salt is not empty and the platform's
    HMAC returns a constant, non-zero number of bytes. *)
Theorem X16_unknown_user_exchange_fails (W : Platform) (algo : ScramAlgo.t) (n : nat)
    (repo : ScramUserRepo.t) (saltGenerator : SaltGenerator.t) (defaultIterations : Z)
    (c_options : ScramRequestClient.ScramRequestClientOptions)
    (s_options : ScramRequestServer.ScramRequestServerOptions)
    (c_random s_random : bytes) (username user : jsstring) (saltedPassword : bytes) :
  (0 < n)%nat ->
  (forall key data, length (subtle_sign_HMAC (ScramAlgo.algo algo) key data) = n) ->
  length c_random = 24%nat -> length s_random = 24%nat ->
  Forall (fun c => c <> 44%N) username -> JS.trim username <> [] ->
  saslPrep (JS.trim username) = Return user -> user <> [] ->
  ScramUserRepo.has repo user = false ->
  ScramUserRepo.find repo user = Throw (ScramError SCRAM_UNKNOWN_USER) ->
  SaltGenerator.get saltGenerator user <> [] ->
  Z.abs defaultIterations <= 9007199254740991 ->
  let server0 := ScramRequestServer.new algo repo saltGenerator defaultIterations s_options in
  let run :=
    runExchange c_random s_random username saltedPassword
      (ScramRequestClient.new algo c_options, server0) in
  fst run = Return (false, false)
  /\ ScramRequest.serverFirstMessage (ScramRequestServer.base (snd (snd run)))
     = Some {| ScramMessageServerFirst.message :=
                 lit "r=" ++ (Base64.fromUint8Array c_random ++ Base64.fromUint8Array s_random)
                 ++ lit ",s=" ++ Base64.fromUint8Array (SaltGenerator.get saltGenerator user)
                 ++ lit ",i=" ++ JS.Number_toString defaultIterations;
               ScramMessageServerFirst.nonce :=
                 Base64.fromUint8Array c_random ++ Base64.fromUint8Array s_random;
               ScramMessageServerFirst.salt := SaltGenerator.get saltGenerator user;
               ScramMessageServerFirst.iterations := defaultIterations |}
  /\ ScramRequest.serverFinalMessage (ScramRequestServer.base (snd (snd run)))
     = Some (error_reply (ScramRequestServer.concealErrors (ScramRequestServer.options server0))
               SCRAM_UNKNOWN_USER).
Proof.
  intros Hn Hlen Hc Hs Hu Hu' Hprep Huser Hhas Hfind Hsalt _ server0 run.
  assert (Hc' : c_random <> []) by (intros ->; discriminate).
  set (client0 := ScramRequestClient.new algo c_options) in *.
  set (c_nonce := Base64.fromUint8Array c_random) in *.
  set (cf := built_client_first username user c_nonce).
  assert (Hcnonce : Forall (fun c => plain c = true) c_nonce) by apply fromUint8Array_plain.
  assert (Hcnonce' : c_nonce <> []) by (apply fromUint8Array_nonempty; assumption).
  assert (S1 : ScramRequestClient.createClientFirstMessage c_random username client0
               = (Return cf, ScramRequestClient.setClientFirstMessage cf client0))
    by (apply createClientFirstMessage_builds; try assumption; reflexivity).
  assert (R1 : ScramMessageClientFirst.new (ScramMessageClientFirst.getMessage cf) = Return cf)
    by (apply client_first_built; assumption).
  (* the server's first message, from the generated salt *)
  set (server1 := ScramRequestServer.setClientFirstMessage cf server0).
  set (nonce := c_nonce ++ Base64.fromUint8Array s_random) in *.
  set (salt := SaltGenerator.get saltGenerator user) in *.
  set (sf := {| ScramMessageServerFirst.message :=
                  lit "r=" ++ nonce ++ lit ",s=" ++ Base64.fromUint8Array salt
                  ++ lit ",i=" ++ JS.Number_toString defaultIterations;
                ScramMessageServerFirst.nonce := nonce;
                ScramMessageServerFirst.salt := salt;
                ScramMessageServerFirst.iterations := defaultIterations |}).
  assert (Hnonce : Forall (fun c => plain c = true) nonce)
    by (apply Forall_app; split; [assumption | apply fromUint8Array_plain]).
  assert (Hnonce' : nonce <> [])
    by (unfold nonce; destruct c_nonce; [contradiction | discriminate]).
  assert (R2 : ScramMessageServerFirst.new (ScramMessageServerFirst.getMessage sf) = Return sf)
    by (apply server_first_reads;
        [apply plain_no_comma | apply trim_plain | | ]; assumption).
  assert (S2 : ScramRequestServer.createServerFirstMessage s_random server1
               = (Return sf, ScramRequestServer.setServerFirstMessage sf server1)).
  { cbv beta iota zeta delta [ScramRequestServer.createServerFirstMessage bind this_ ret lift
                                assign].
    change (ScramRequest.clientFirstMessage (ScramRequestServer.base server1)) with (Some cf).
    cbv beta iota.
    change (ScramUserRepo.has (ScramRequestServer.repo server1)
              (ScramMessageClientFirst.getUser cf)) with (ScramUserRepo.has repo user).
    rewrite Hhas. cbv beta iota. cbn [fst snd].
    change (ScramRequestServer.iterations server1) with defaultIterations.
    change (SaltGenerator.get (ScramRequestServer.saltGenerator server1)
              (ScramMessageClientFirst.getUser cf)) with salt.
    change (ScramMessageClientFirst.getNonce cf ++ Base64.fromUint8Array s_random) with nonce.
    change (ScramMessageServerFirst.new
              (lit "r=" ++ nonce ++ lit ",s=" ++ Base64.fromUint8Array salt
               ++ lit ",i=" ++ JS.Number_toString defaultIterations))
      with (ScramMessageServerFirst.new (ScramMessageServerFirst.getMessage sf)).
    rewrite R2. reflexivity. }
  (* the client's final message *)
  set (client1 := ScramRequestClient.setServerFirstMessage sf
                    (ScramRequestClient.setClientFirstMessage cf client0)).
  set (text := lit "c=" ++ lit "biws" ++ lit ",r=" ++ nonce).
  set (proof := client_proof algo saltedPassword (transcript cf sf text)).
  set (cl := built_client_final nonce proof).
  assert (Hkey : ScramAlgo.getClientKey algo saltedPassword <> []).
  { intros H. apply (f_equal (@length byte)) in H.
    unfold ScramAlgo.getClientKey, ScramAlgo.hmac in H. rewrite Hlen in H.
    simpl in H. lia. }
  assert (S3 : ScramRequestClient.createClientFinalMessage saltedPassword client1
               = (Return cl, ScramRequestClient.setClientFinalMessage cl client1))
    by (apply (createClientFinalMessage_builds client1 saltedPassword cf sf);
        try assumption; reflexivity).
  assert (Hproof : Forall (fun c => plain c = true) proof /\ proof <> []).
  { split; [apply fromUint8Array_plain|]. apply fromUint8Array_nonempty.
    intros H. apply (f_equal (@length byte)) in H. rewrite length_xorArrayBuffer in H.
    destruct (ScramAlgo.getClientKey algo saltedPassword); [contradiction | discriminate]. }
  assert (R3 : ScramMessageClientFinal.new (ScramMessageClientFinal.getMessage cl) = Return cl).
  { apply client_final_built; try assumption; try apply Hproof; try discriminate.
    apply forallb_plain. reflexivity. }
  (* the server's final message *)
  set (server2 := ScramRequestServer.setClientFinalMessage cl
                    (ScramRequestServer.setServerFirstMessage sf server1)).
  set (conceal := ScramRequestServer.concealErrors (ScramRequestServer.options server0)) in *.
  set (sl := error_reply conceal SCRAM_UNKNOWN_USER).
  assert (S4 : ScramRequestServer.createServerFinalMessage server2
               = (Return (Some sl), ScramRequestServer.setServerFinalMessage sl server2)).
  { cbv beta iota zeta delta [ScramRequestServer.createServerFinalMessage bind this_ try_catch
                                throw ret lift assign].
    change (ScramRequest.clientFirstMessage (ScramRequestServer.base server2)) with (Some cf).
    change (ScramRequest.serverFirstMessage (ScramRequestServer.base server2)) with (Some sf).
    change (ScramRequest.clientFinalMessage (ScramRequestServer.base server2)) with (Some cl).
    cbv beta iota.
    change (JS.truthy (ScramMessageClientFirst.getMext cf)) with false.
    change (ScramMessageClientFirst.getGS2CbindFlag cf) with (lit "n").
    rewrite bool_decide_eq_true_2 by reflexivity. cbn [negb].
    change (ScramUserRepo.find (ScramRequestServer.repo server2)
              (ScramMessageClientFirst.getUser cf)) with (ScramUserRepo.find repo user).
    rewrite Hfind. cbv beta iota delta [errorCode_text].
    change (ScramRequestServer.concealErrors (ScramRequestServer.options server2)) with conceal.
    rewrite catch_reply by (reflexivity || discriminate). reflexivity. }
  assert (R4 : ScramMessageServerFinal.new (ScramMessageServerFinal.getMessage sl) = Return sl).
  { unfold sl, error_reply. destruct conceal;
      apply server_final_error; try discriminate; apply forallb_plain; reflexivity. }
  (* the two verifications *)
  set (server3 := ScramRequestServer.setServerFinalMessage sl server2).
  set (client2 := ScramRequestClient.setServerFinalMessage sl
                    (ScramRequestClient.setClientFinalMessage cl client1)).
  assert (S5 : ScramRequestServer.verifyClientFinalMessage server3 = (Return false, server3)).
  { cbv beta iota zeta delta [ScramRequestServer.verifyClientFinalMessage bind this_ ret lift].
    change (ScramRequest.clientFirstMessage (ScramRequestServer.base server3)) with (Some cf).
    change (ScramRequest.serverFirstMessage (ScramRequestServer.base server3)) with (Some sf).
    change (ScramRequest.clientFinalMessage (ScramRequestServer.base server3)) with (Some cl).
    cbv beta iota.
    change (ScramUserRepo.has (ScramRequestServer.repo server3)
              (ScramMessageClientFirst.getUser cf)) with (ScramUserRepo.has repo user).
    rewrite Hhas. reflexivity. }
  assert (S6 : ScramRequestClient.verifyServerFinalMessage saltedPassword client2
               = (Return false, client2)).
  { cbv beta iota zeta delta [ScramRequestClient.verifyServerFinalMessage bind this_ ret lift].
    change (ScramRequest.clientFirstMessage (ScramRequestClient.base client2)) with (Some cf).
    change (ScramRequest.serverFirstMessage (ScramRequestClient.base client2)) with (Some sf).
    change (ScramRequest.clientFinalMessage (ScramRequestClient.base client2)) with (Some cl).
    change (ScramRequest.serverFinalMessage (ScramRequestClient.base client2)) with (Some sl).
    cbv beta iota.
    rewrite (getAuthMessage_transcript _ cf sf) by reflexivity. cbv beta iota.
    change (ScramMessageServerFinal.getVerifier sl) with (@None jsstring).
    rewrite bool_decide_eq_false_2 by discriminate. reflexivity. }
  (* the run *)
  assert (Hrun : run = (Return (false, false), (client2, server3))).
  { unfold run, runExchange.
    cbv beta iota zeta delta [bind on_client on_server lift assign ret fst snd].
    fold client0. rewrite S1. cbv beta iota. rewrite R1. cbv beta iota.
    fold server1. rewrite S2. cbv beta iota. rewrite R2. cbv beta iota.
    fold client1. rewrite S3. cbv beta iota. rewrite R3. cbv beta iota.
    fold server2. rewrite S4. cbv beta iota. rewrite R4. cbv beta iota.
    fold server3. fold client2. rewrite S5. cbv beta iota. rewrite S6. reflexivity. }
  rewrite Hrun. repeat split; reflexivity.
Qed.

(** ** The salted password on the two sides *)

(** X17: for a password that SASLprep returns unchanged, and an iteration
    count within the client's maximum, the client's [getSaltedPassword]
    returns what [ScramAlgo.getSaltedPassword], the function used at
    registration, returns for the salt and the count of the server-first
    message. *)
Theorem X17_client_derives_the_registered_salted_password (W : Platform)
    (client : ScramRequestClient.t) (password : jsstring)
    (clientFirst : ScramMessageClientFirst.t) (serverFirst : ScramMessageServerFirst.t) :
  ScramRequest.clientFirstMessage (ScramRequestClient.base client) = Some clientFirst ->
  ScramRequest.serverFirstMessage (ScramRequestClient.base client) = Some serverFirst ->
  ScramMessageServerFirst.getIterations serverFirst
  <= ScramRequestClient.maxIterations (ScramRequestClient.options client) ->
  saslPrep password = Return password ->
  fst (ScramRequestClient.getSaltedPassword password client)
  = ScramAlgo.getSaltedPassword (ScramRequestClient.algo client) password
      (ScramMessageServerFirst.getSalt serverFirst)
      (ScramMessageServerFirst.getIterations serverFirst).
Proof.
  intros Hcf Hsf Hle Hprep.
  unfold ScramRequestClient.getSaltedPassword, ScramAlgo.getSaltedPassword, bind, this_, ret.
  rewrite Hcf, Hsf, Hprep.
  destruct (Z.ltb_spec (ScramRequestClient.maxIterations (ScramRequestClient.options client))
              (ScramMessageServerFirst.getIterations serverFirst)) as [Hlt|_]; [lia|].
  reflexivity.
Qed.


(** ** The exchange for a user the repository holds, whatever its record *)

(** X18: for a user the repository holds, whatever the keys of its record
    are, the exchange of [runExchange] runs to its end and returns the two
    verdicts. The server's verdict is true exactly when the stored key of
    the record is the hash of the client key it recovers from the proof;
    the client's verdict is true exactly when the server's is and the
    signature under the server key of the record is the one the client
    computes from its salted password: the client never accepts a server
    that refused it. The user name is one the client-first message can
    carry, the salt of the record is not empty, its iteration count is a
    safe integer and the platform's HMAC returns a constant, non-zero
    number of bytes. *)
Theorem X18_exchange_outcome_for_any_record (W : Platform) (algo : ScramAlgo.t) (n : nat)
    (repo : ScramUserRepo.t) (saltGenerator : SaltGenerator.t) (defaultIterations : Z)
    (c_options : ScramRequestClient.ScramRequestClientOptions)
    (s_options : ScramRequestServer.ScramRequestServerOptions)
    (c_random s_random : bytes) (username user : jsstring) (saltedPassword : bytes)
    (record : ScramUser.t) :
  (0 < n)%nat ->
  (forall key data, length (subtle_sign_HMAC (ScramAlgo.algo algo) key data) = n) ->
  length c_random = 24%nat -> length s_random = 24%nat ->
  Forall (fun c => c <> 44%N) username -> JS.trim username <> [] ->
  saslPrep (JS.trim username) = Return user -> user <> [] ->
  ScramUserRepo.has repo user = true ->
  ScramUserRepo.find repo user = Return record ->
  ScramUser.getSalt record <> [] ->
  Z.abs (ScramUser.getIterations record) <= 9007199254740991 ->
  let authMessage :=
    exchange_auth_message c_random s_random username user
      (ScramUser.getSalt record) (ScramUser.getIterations record) in
  let proof :=
    xorArrayBuffer (ScramAlgo.getClientKey algo saltedPassword)
      (ScramAlgo.hmac algo (ScramAlgo.getStoredKey algo saltedPassword) authMessage) in
  let clientKey :=
    xorArrayBuffer (ScramAlgo.hmac algo (ScramUser.getStoredKey record) authMessage) proof in
  exists server_ok client_ok : bool,
    fst (runExchange c_random s_random username saltedPassword
           (ScramRequestClient.new algo c_options,
            ScramRequestServer.new algo repo saltGenerator defaultIterations s_options))
    = Return (server_ok, client_ok)
    /\ (server_ok = true <-> ScramUser.getStoredKey record = ScramAlgo.hash algo clientKey)
    /\ (client_ok = true
        <-> server_ok = true
            /\ ScramAlgo.hmac algo (ScramUser.getServerKey record) authMessage
               = ScramAlgo.hmac algo (ScramAlgo.getServerKey algo saltedPassword) authMessage).
Proof.
  intros Hn Hlen Hc Hs Hu Hu' Hprep Huser Hhas Hfind Hsalt _ authMessage proof clientKey.
  assert (Hc' : c_random <> []) by (intros ->; discriminate).
  set (client0 := ScramRequestClient.new algo c_options).
  set (server0 := ScramRequestServer.new algo repo saltGenerator defaultIterations s_options).
  set (c_nonce := Base64.fromUint8Array c_random) in *.
  set (cf := built_client_first username user c_nonce).
  assert (Hcnonce : Forall (fun c => plain c = true) c_nonce) by apply fromUint8Array_plain.
  assert (Hcnonce' : c_nonce <> []) by (apply fromUint8Array_nonempty; assumption).
  assert (S1 : ScramRequestClient.createClientFirstMessage c_random username client0
               = (Return cf, ScramRequestClient.setClientFirstMessage cf client0))
    by (apply createClientFirstMessage_builds; try assumption; reflexivity).
  assert (R1 : ScramMessageClientFirst.new (ScramMessageClientFirst.getMessage cf) = Return cf)
    by (apply client_first_built; assumption).
  (* the server's first message, from the record *)
  set (server1 := ScramRequestServer.setClientFirstMessage cf server0).
  set (nonce := c_nonce ++ Base64.fromUint8Array s_random) in *.
  set (sf := advertised nonce (ScramUser.getSalt record) (ScramUser.getIterations record)).
  assert (Hnonce : Forall (fun c => plain c = true) nonce)
    by (apply Forall_app; split; [assumption | apply fromUint8Array_plain]).
  assert (Hnonce' : nonce <> [])
    by (unfold nonce; destruct c_nonce; [contradiction | discriminate]).
  assert (R2 : ScramMessageServerFirst.new (ScramMessageServerFirst.getMessage sf) = Return sf)
    by (apply server_first_reads;
        [apply plain_no_comma | apply trim_plain | | ]; assumption).
  assert (S2 : ScramRequestServer.createServerFirstMessage s_random server1
               = (Return sf, ScramRequestServer.setServerFirstMessage sf server1)).
  { cbv beta iota zeta delta [ScramRequestServer.createServerFirstMessage bind this_ ret lift
                                assign].
    change (ScramRequest.clientFirstMessage (ScramRequestServer.base server1)) with (Some cf).
    cbv beta iota.
    change (ScramUserRepo.has (ScramRequestServer.repo server1)
              (ScramMessageClientFirst.getUser cf)) with (ScramUserRepo.has repo user).
    change (ScramUserRepo.find (ScramRequestServer.repo server1)
              (ScramMessageClientFirst.getUser cf)) with (ScramUserRepo.find repo user).
    rewrite Hhas, Hfind. cbv beta iota. cbn [fst snd].
    change (ScramMessageClientFirst.getNonce cf ++ Base64.fromUint8Array s_random) with nonce.
    change (ScramMessageServerFirst.new
              (lit "r=" ++ nonce ++ lit ",s=" ++ Base64.fromUint8Array (ScramUser.getSalt record)
               ++ lit ",i=" ++ JS.Number_toString (ScramUser.getIterations record)))
      with (ScramMessageServerFirst.new (ScramMessageServerFirst.getMessage sf)).
    rewrite R2. reflexivity. }
  (* the client's final message *)
  set (client1 := ScramRequestClient.setServerFirstMessage sf
                    (ScramRequestClient.setClientFirstMessage cf client0)).
  set (text := lit "c=" ++ lit "biws" ++ lit ",r=" ++ nonce).
  change authMessage with (transcript cf sf text) in *.
  set (auth := transcript cf sf text) in *.
  set (cl := built_client_final nonce (client_proof algo saltedPassword auth)).
  assert (Hkey : ScramAlgo.getClientKey algo saltedPassword <> []).
  { intros H. apply (f_equal (@length byte)) in H.
    unfold ScramAlgo.getClientKey, ScramAlgo.hmac in H. rewrite Hlen in H.
    simpl in H. lia. }
  assert (S3 : ScramRequestClient.createClientFinalMessage saltedPassword client1
               = (Return cl, ScramRequestClient.setClientFinalMessage cl client1))
    by (apply (createClientFinalMessage_builds client1 saltedPassword cf sf);
        try assumption; reflexivity).
  assert (Hproof : Forall (fun c => plain c = true) (client_proof algo saltedPassword auth)
                   /\ client_proof algo saltedPassword auth <> []).
  { split; [apply fromUint8Array_plain|]. apply fromUint8Array_nonempty.
    intros H. apply (f_equal (@length byte)) in H. rewrite length_xorArrayBuffer in H.
    destruct (ScramAlgo.getClientKey algo saltedPassword); [contradiction | discriminate]. }
  assert (R3 : ScramMessageClientFinal.new (ScramMessageClientFinal.getMessage cl) = Return cl).
  { apply client_final_built; try assumption; try apply Hproof; try discriminate.
    apply forallb_plain. reflexivity. }
  (* the server's verification *)
  set (server_ok :=
         bool_decide (Base64.fromUint8Array (ScramUser.getStoredKey record)
                      = Base64.fromUint8Array (ScramAlgo.hash algo clientKey))).
  assert (V : forall server,
             ScramRequest.clientFirstMessage (ScramRequestServer.base server) = Some cf ->
             ScramRequest.serverFirstMessage (ScramRequestServer.base server) = Some sf ->
             ScramRequest.clientFinalMessage (ScramRequestServer.base server) = Some cl ->
             ScramRequestServer.repo server = repo ->
             ScramRequestServer.algo server = algo ->
             ScramRequestServer.verifyClientFinalMessage server = (Return server_ok, server)).
  { intros server H1 H2 H3 H4 H5.
    cbv beta iota zeta delta [ScramRequestServer.verifyClientFinalMessage bind this_ ret lift].
    rewrite H1, H2, H3. cbv beta iota. rewrite H4, H5.
    change (ScramMessageClientFirst.getUser cf) with user.
    rewrite Hhas, Hfind. cbn [negb]. cbv beta iota.
    rewrite (getAuthMessage_transcript _ cf sf) by assumption. cbv beta iota.
    change (ScramMessageClientFinal.getMessageWithoutProof cl) with text. fold auth.
    change (ScramMessageClientFinal.getClientProof cl)
      with (Base64.fromUint8Array proof).
    rewrite toUint8Array_fromUint8Array. reflexivity. }
  assert (Hserver_ok : server_ok = true
                       <-> ScramUser.getStoredKey record = ScramAlgo.hash algo clientKey).
  { unfold server_ok. rewrite bool_decide_eq_true.
    split; [apply fromUint8Array_inj | intros E; rewrite <- E; reflexivity]. }
  (* the server's final message *)
  set (server2 := ScramRequestServer.setClientFinalMessage cl
                    (ScramRequestServer.setServerFirstMessage sf server1)).
  set (conceal := ScramRequestServer.concealErrors (ScramRequestServer.options server0)).
  set (signature := ScramAlgo.hmac algo (ScramUser.getServerKey record) auth) in *.
  assert (Hsig : signature <> []).
  { intros H. apply (f_equal (@length byte)) in H.
    unfold signature, ScramAlgo.hmac in H. rewrite Hlen in H. simpl in H. lia. }
  set (sl := if server_ok then verifier_reply (Base64.fromUint8Array signature)
             else error_reply conceal SCRAM_INVALID_PROOF).
  assert (S4 : ScramRequestServer.createServerFinalMessage server2
               = (Return (Some sl), ScramRequestServer.setServerFinalMessage sl server2)).
  { cbv beta iota zeta delta [ScramRequestServer.createServerFinalMessage bind this_ try_catch
                                throw ret lift assign].
    change (ScramRequest.clientFirstMessage (ScramRequestServer.base server2)) with (Some cf).
    change (ScramRequest.serverFirstMessage (ScramRequestServer.base server2)) with (Some sf).
    change (ScramRequest.clientFinalMessage (ScramRequestServer.base server2)) with (Some cl).
    cbv beta iota.
    change (JS.truthy (ScramMessageClientFirst.getMext cf)) with false.
    change (ScramMessageClientFirst.getGS2CbindFlag cf) with (lit "n").
    rewrite bool_decide_eq_true_2 by reflexivity. cbn [negb].
    change (ScramUserRepo.find (ScramRequestServer.repo server2)
              (ScramMessageClientFirst.getUser cf)) with (ScramUserRepo.find repo user).
    rewrite Hfind. cbv beta iota.
    rewrite (getAuthMessage_transcript _ cf sf) by reflexivity. cbv beta iota.
    rewrite (V server2) by reflexivity. cbv beta iota.
    change (ScramMessageClientFinal.getMessageWithoutProof cl) with text. fold auth.
    change (ScramRequestServer.algo server2) with algo. fold signature.
    change (ScramRequestServer.concealErrors (ScramRequestServer.options server2)) with conceal.
    unfold sl. destruct server_ok; cbn [negb]; cbv beta iota delta [errorCode_text].
    - rewrite server_final_verifier
        by (apply fromUint8Array_plain || (apply fromUint8Array_nonempty; assumption)).
      reflexivity.
    - rewrite catch_reply by (reflexivity || discriminate). reflexivity. }
  assert (R4 : ScramMessageServerFinal.new (ScramMessageServerFinal.getMessage sl) = Return sl).
  { unfold sl. destruct server_ok.
    - apply server_final_verifier;
        [apply fromUint8Array_plain | apply fromUint8Array_nonempty; assumption].
    - unfold error_reply. destruct conceal;
        apply server_final_error; try discriminate; apply forallb_plain; reflexivity. }
  (* the two verifications *)
  set (server3 := ScramRequestServer.setServerFinalMessage sl server2).
  set (client2 := ScramRequestClient.setServerFinalMessage sl
                    (ScramRequestClient.setClientFinalMessage cl client1)).
  set (expected := ScramAlgo.hmac algo (ScramAlgo.getServerKey algo saltedPassword) auth) in *.
  set (client_ok := bool_decide (ScramMessageServerFinal.getVerifier sl
                                 = Some (Base64.fromUint8Array expected))).
  assert (S6 : ScramRequestClient.verifyServerFinalMessage saltedPassword client2
               = (Return client_ok, client2)).
  { cbv beta iota zeta delta [ScramRequestClient.verifyServerFinalMessage bind this_ ret lift].
    change (ScramRequest.clientFirstMessage (ScramRequestClient.base client2)) with (Some cf).
    change (ScramRequest.serverFirstMessage (ScramRequestClient.base client2)) with (Some sf).
    change (ScramRequest.clientFinalMessage (ScramRequestClient.base client2)) with (Some cl).
    change (ScramRequest.serverFinalMessage (ScramRequestClient.base client2)) with (Some sl).
    cbv beta iota.
    rewrite (getAuthMessage_transcript _ cf sf) by reflexivity. reflexivity. }
  exists server_ok, client_ok. split; [|split].
  - unfold runExchange.
    cbv beta iota zeta delta [bind on_client on_server lift assign ret fst snd].
    fold client0. rewrite S1. cbv beta iota. rewrite R1. cbv beta iota.
    fold server0. fold server1. rewrite S2. cbv beta iota. rewrite R2. cbv beta iota.
    fold client1. rewrite S3. cbv beta iota. rewrite R3. cbv beta iota.
    fold server2. rewrite S4. cbv beta iota. rewrite R4. cbv beta iota.
    fold server3. fold client2. rewrite (V server3) by reflexivity. cbv beta iota.
    rewrite S6. reflexivity.
  - exact Hserver_ok.
  - unfold client_ok, sl. rewrite bool_decide_eq_true. destruct server_ok.
    + cbn [ScramMessageServerFinal.getVerifier ScramMessageServerFinal.verifier verifier_reply].
      split.
      * intros E. inversion E as [E']. apply fromUint8Array_inj in E'. auto.
      * intros [_ E]. rewrite E. reflexivity.
    + split; [discriminate | intros [E _]; discriminate E].
Qed.

(** ** The steps of an exchange with matching credentials *)

Lemma matching_exchange_steps {W : Platform} (algo : ScramAlgo.t) (n : nat)
    (repo : ScramUserRepo.t) (saltGenerator : SaltGenerator.t) (defaultIterations : Z)
    (c_options : ScramRequestClient.ScramRequestClientOptions)
    (s_options : ScramRequestServer.ScramRequestServerOptions)
    (c_random s_random : bytes) (username user : jsstring)
    (salt : bytes) (iterations : Z) (saltedPassword : bytes) :
  (0 < n)%nat ->
  (forall key data, length (subtle_sign_HMAC (ScramAlgo.algo algo) key data) = n) ->
  length c_random = 24%nat -> length s_random = 24%nat ->
  Forall (fun c => c <> 44%N) username -> JS.trim username <> [] ->
  saslPrep (JS.trim username) = Return user -> user <> [] ->
  salt <> [] ->
  ScramUserRepo.has repo user = true ->
  ScramUserRepo.find repo user
  = Return (registerUser algo user salt saltedPassword iterations) ->
  let client0 := ScramRequestClient.new algo c_options in
  let server0 := ScramRequestServer.new algo repo saltGenerator defaultIterations s_options in
  exists cf sf cl sl,
    let server1 := ScramRequestServer.setClientFirstMessage cf server0 in
    let client1 :=
      ScramRequestClient.setServerFirstMessage sf
        (ScramRequestClient.setClientFirstMessage cf client0) in
    let server2 :=
      ScramRequestServer.setClientFinalMessage cl
        (ScramRequestServer.setServerFirstMessage sf server1) in
    let server3 := ScramRequestServer.setServerFinalMessage sl server2 in
    let client2 :=
      ScramRequestClient.setServerFinalMessage sl
        (ScramRequestClient.setClientFinalMessage cl client1) in
    ScramRequestClient.createClientFirstMessage c_random username client0
    = (Return cf, ScramRequestClient.setClientFirstMessage cf client0)
    /\ ScramMessageClientFirst.new (ScramMessageClientFirst.getMessage cf) = Return cf
    /\ ScramRequestServer.createServerFirstMessage s_random server1
       = (Return sf, ScramRequestServer.setServerFirstMessage sf server1)
    /\ ScramMessageServerFirst.new (ScramMessageServerFirst.getMessage sf) = Return sf
    /\ ScramRequestClient.createClientFinalMessage saltedPassword client1
       = (Return cl, ScramRequestClient.setClientFinalMessage cl client1)
    /\ ScramMessageClientFinal.new (ScramMessageClientFinal.getMessage cl) = Return cl
    /\ ScramRequestServer.createServerFinalMessage server2 = (Return (Some sl), server3)
    /\ ScramMessageServerFinal.new (ScramMessageServerFinal.getMessage sl) = Return sl
    /\ ScramRequestServer.verifyClientFinalMessage server3 = (Return true, server3)
    /\ ScramRequestClient.verifyServerFinalMessage saltedPassword client2
       = (Return true, client2).
Proof.
  intros Hn Hlen Hc Hs Hu Hu' Hprep Huser Hsalt Hhas Hfind client0 server0.
  assert (Hc' : c_random <> []) by (intros ->; discriminate).
  set (c_nonce := Base64.fromUint8Array c_random).
  set (cf := built_client_first username user c_nonce).
  assert (Hcnonce : Forall (fun c => plain c = true) c_nonce) by apply fromUint8Array_plain.
  assert (Hcnonce' : c_nonce <> []) by (apply fromUint8Array_nonempty; assumption).
  assert (S1 : ScramRequestClient.createClientFirstMessage c_random username client0
               = (Return cf, ScramRequestClient.setClientFirstMessage cf client0))
    by (apply createClientFirstMessage_builds; try assumption; reflexivity).
  assert (R1 : ScramMessageClientFirst.new (ScramMessageClientFirst.getMessage cf) = Return cf)
    by (apply client_first_built; assumption).
  set (server1 := ScramRequestServer.setClientFirstMessage cf server0).
  set (nonce := c_nonce ++ Base64.fromUint8Array s_random).
  set (sf := advertised nonce salt iterations).
  assert (Hnonce : Forall (fun c => plain c = true) nonce)
    by (apply Forall_app; split; [assumption | apply fromUint8Array_plain]).
  assert (Hnonce' : nonce <> [])
    by (unfold nonce; destruct c_nonce; [contradiction | discriminate]).
  assert (R2 : ScramMessageServerFirst.new (ScramMessageServerFirst.getMessage sf) = Return sf)
    by (apply server_first_reads;
        [apply plain_no_comma | apply trim_plain | | ]; assumption).
  assert (S2 : ScramRequestServer.createServerFirstMessage s_random server1
               = (Return sf, ScramRequestServer.setServerFirstMessage sf server1)).
  { cbv beta iota zeta delta [ScramRequestServer.createServerFirstMessage bind this_ ret lift
                                assign].
    change (ScramRequest.clientFirstMessage (ScramRequestServer.base server1)) with (Some cf).
    cbv beta iota.
    change (ScramUserRepo.has (ScramRequestServer.repo server1)
              (ScramMessageClientFirst.getUser cf)) with (ScramUserRepo.has repo user).
    change (ScramUserRepo.find (ScramRequestServer.repo server1)
              (ScramMessageClientFirst.getUser cf)) with (ScramUserRepo.find repo user).
    rewrite Hhas, Hfind. cbv beta iota. cbn [fst snd].
    change (ScramMessageServerFirst.new _)
      with (ScramMessageServerFirst.new (ScramMessageServerFirst.getMessage sf)).
    rewrite R2. reflexivity. }
  set (client1 := ScramRequestClient.setServerFirstMessage sf
                    (ScramRequestClient.setClientFirstMessage cf client0)).
  set (text := lit "c=" ++ lit "biws" ++ lit ",r=" ++ nonce).
  set (auth := transcript cf sf text).
  set (proof := client_proof algo saltedPassword auth).
  set (cl := built_client_final nonce proof).
  assert (Hkey : ScramAlgo.getClientKey algo saltedPassword <> []).
  { intros H. apply (f_equal (@length byte)) in H.
    unfold ScramAlgo.getClientKey, ScramAlgo.hmac in H. rewrite Hlen in H.
    simpl in H. lia. }
  assert (S3 : ScramRequestClient.createClientFinalMessage saltedPassword client1
               = (Return cl, ScramRequestClient.setClientFinalMessage cl client1))
    by (apply (createClientFinalMessage_builds client1 saltedPassword cf sf);
        try assumption; reflexivity).
  assert (Hproof : Forall (fun c => plain c = true) proof /\ proof <> []).
  { split; [apply fromUint8Array_plain|]. apply fromUint8Array_nonempty.
    intros H. apply (f_equal (@length byte)) in H. rewrite length_xorArrayBuffer in H.
    destruct (ScramAlgo.getClientKey algo saltedPassword); [contradiction | discriminate]. }
  assert (R3 : ScramMessageClientFinal.new (ScramMessageClientFinal.getMessage cl) = Return cl).
  { apply client_final_built; try assumption; try apply Hproof; try discriminate.
    apply forallb_plain. reflexivity. }
  set (server2 := ScramRequestServer.setClientFinalMessage cl
                    (ScramRequestServer.setServerFirstMessage sf server1)).
  assert (V : forall server,
             ScramRequest.clientFirstMessage (ScramRequestServer.base server) = Some cf ->
             ScramRequest.serverFirstMessage (ScramRequestServer.base server) = Some sf ->
             ScramRequest.clientFinalMessage (ScramRequestServer.base server) = Some cl ->
             ScramRequestServer.repo server = repo ->
             ScramRequestServer.algo server = algo ->
             ScramRequestServer.verifyClientFinalMessage server = (Return true, server)).
  { intros server H1 H2 H3 H4 H5.
    apply (verifyClientFinalMessage_accepts server saltedPassword cf sf cl
             (registerUser algo user salt saltedPassword iterations));
      try assumption; rewrite ?H4, ?H5; try assumption; try reflexivity.
    unfold ScramAlgo.getClientKey, ScramAlgo.hmac. rewrite !Hlen. reflexivity. }
  set (signature := ScramAlgo.hmac algo (ScramAlgo.getServerKey algo saltedPassword) auth).
  set (sl := verifier_reply (Base64.fromUint8Array signature)).
  assert (Hsig : signature <> []).
  { intros H. apply (f_equal (@length byte)) in H.
    unfold signature, ScramAlgo.hmac in H. rewrite Hlen in H. simpl in H. lia. }
  assert (S4 : ScramRequestServer.createServerFinalMessage server2
               = (Return (Some sl), ScramRequestServer.setServerFinalMessage sl server2)).
  { apply (createServerFinalMessage_sends_verifier server2 cf sf cl
             (registerUser algo user salt saltedPassword iterations));
      try assumption; try reflexivity.
    apply V; reflexivity. }
  assert (R4 : ScramMessageServerFinal.new (ScramMessageServerFinal.getMessage sl) = Return sl)
    by (apply server_final_verifier;
        [apply fromUint8Array_plain | apply fromUint8Array_nonempty; assumption]).
  exists cf, sf, cl, sl. cbv zeta.
  repeat split; try assumption.
  - apply V; reflexivity.
  - apply (verifyServerFinalMessage_accepts _ saltedPassword cf sf cl sl); reflexivity.
Qed.

(** ** The example program *)

(** X19: [runExample] returns [true], whatever the random bytes drawn for
    the salt and for the two nonces are, on every platform whose HMAC for
    the algorithm of [ScramSha256] returns a constant, non-zero number of
    bytes, whose hash of the salt's random bytes is not empty, and whose
    SASLprep returns [test] for [test] and some text for [password]. *)
Theorem X19_runExample_returns_true (W : Platform) (n : nat)
    (saltRandom c_random s_random : bytes) (prepared : jsstring) :
  (0 < n)%nat ->
  (forall key data, length (subtle_sign_HMAC (ScramAlgo.algo ScramSha256) key data) = n) ->
  length saltRandom = 24%nat -> length c_random = 24%nat -> length s_random = 24%nat ->
  saslPrep (lit "test") = Return (lit "test") ->
  saslPrep (lit "password") = Return prepared ->
  ScramAlgo.hash ScramSha256 saltRandom <> [] ->
  runExample saltRandom c_random s_random = Return true.
Proof.
  intros Hn Hlen _ Hc Hs Htest Hpassword Hsalt.
  unfold runExample. rewrite Htest.
  rewrite (getSaltedPassword_prep ScramSha256 (lit "password") prepared)
    by (assumption || (unfold ITERATIONS; lia)).
  cbv zeta. cbn [SaltGenerator.get RandomSaltGenerator].
  set (salt := ScramAlgo.hash ScramSha256 saltRandom) in *.
  set (saltedPassword := subtle_deriveBits_PBKDF2 (ScramAlgo.algo ScramSha256)
                           (TextEncoder.encode prepared) salt ITERATIONS
                           (ScramAlgo.keylen ScramSha256)).
  assert (Erecord :
            MyScramUser (lit "test") (Base64.fromUint8Array salt) ITERATIONS
              (Base64.fromUint8Array (ScramAlgo.getServerKey ScramSha256 saltedPassword))
              (Base64.fromUint8Array (ScramAlgo.getStoredKey ScramSha256 saltedPassword))
            = registerUser ScramSha256 (lit "test") salt saltedPassword ITERATIONS).
  { unfold MyScramUser, registerUser, MockScramUser.
    rewrite !toUint8Array_fromUint8Array. reflexivity. }
  rewrite Erecord.
  set (repo := MyScramUserRepo.repo
                 (MyScramUserRepo.registerUser
                    (registerUser ScramSha256 (lit "test") salt saltedPassword ITERATIONS)
                    UserDictionary.empty)).
  destruct (my_repo_registered
              (registerUser ScramSha256 (lit "test") salt saltedPassword ITERATIONS)
              UserDictionary.empty) as [Hhas Hfind]; [discriminate|].
  change (ScramUser.getUsername
            (registerUser ScramSha256 (lit "test") salt saltedPassword ITERATIONS))
    with (lit "test") in Hhas, Hfind.
  fold repo in Hhas, Hfind.
  destruct (matching_exchange_steps ScramSha256 n repo
              (RandomSaltGenerator ScramSha256 saltRandom) ITERATIONS
              ScramRequestClient.no_options ScramRequestServer.no_options
              c_random s_random (lit "test") (lit "test") salt ITERATIONS saltedPassword)
    as (cf & sf & cl & sl & S1 & R1 & S2 & R2 & S3 & R3 & S4 & R4 & S5 & S6);
    try assumption; try discriminate.
  { repeat (apply Forall_cons_2; [discriminate|]). apply Forall_nil_2. }
  cbv beta iota zeta delta [bind on_client on_server lift assign ret fst snd].
  rewrite S1. cbv beta iota. rewrite R1. cbv beta iota.
  rewrite S2. cbv beta iota. rewrite R2. cbv beta iota.
  rewrite S3. cbv beta iota. rewrite R3. cbv beta iota.
  rewrite S4. cbv beta iota. rewrite S5. cbv beta iota. rewrite R4. cbv beta iota.
  rewrite S6. cbv beta iota. rewrite S5. cbv beta iota. rewrite S6. reflexivity.
Qed.

(** ** The properties at sample data *)

(** X3 at a text with white space around a key and a value. *)
Lemma X3_witness :
  readScramParamString (lit "n,, n = us er ,r=abc") !! lit "n" = Some (lit "us er")
  /\ JS.trim (lit "us er") = lit "us er"
  /\ Forall (fun c => c <> 44%N) (lit "us er").
Proof.
  assert (H : readScramParamString (lit "n,, n = us er ,r=abc") !! lit "n" = Some (lit "us er"))
    by (vm_compute; reflexivity).
  split; [exact H|].
  destruct (X3_readScramParamString_stores_trimmed_fields _ _ _ H) as (_ & Ht & _ & Hc & _).
  split; assumption.
Defined.

Lemma sample_user_known :
  ScramUserRepo.has (MockScramUserRepo.repo Sample.users) (lit "user") = true
  /\ ScramUserRepo.find (MockScramUserRepo.repo Sample.users) (lit "user")
     = Return (registerUser (W := Reference.platform) ScramSha256 (lit "user") Sample.salt
                 Sample.saltedPassword 4096).
Proof.
  apply (mock_repo_added
           (registerUser (W := Reference.platform) ScramSha256 (lit "user") Sample.salt
              Sample.saltedPassword 4096)
           UserDictionary.empty).
  discriminate.
Qed.

(** X5 at the server and the registered user of the tests. *)
Lemma X5_witness :
  exists m,
    ScramRequestServer.createServerFirstMessage Sample.serverRandom Cases.receivingServer
    = (Return m, ScramRequestServer.setServerFirstMessage m Cases.receivingServer)
    /\ ScramMessageServerFirst.getSalt m = Sample.salt
    /\ ScramMessageServerFirst.getIterations m = 4096.
Proof.
  eexists. split.
  - apply (X5_createServerFirstMessage_advertises_salt_and_count Reference.platform
             Cases.receivingServer Sample.serverRandom Sample.clientFirstText
             Sample.clientFirst Sample.salt 4096).
    + exact sample_client_first_reads.
    + reflexivity.
    + left. split; [exact (proj1 sample_user_known)|].
      eexists. split; [exact (proj2 sample_user_known)|]. split; reflexivity.
    + discriminate.
    + reflexivity.
    + cbn. discriminate.
  - split; reflexivity.
Defined.

(** X6 at a repository whose user was stored without a salt. *)
Lemma X6_witness :
  ScramRequestServer.createServerFirstMessage Sample.serverRandom Cases.saltlessServer
  = (Throw ScramMessageServerFirst.unreadable, Cases.saltlessServer).
Proof.
  apply (X6_createServerFirstMessage_refuses_empty_salt Cases.saltlessServer Sample.serverRandom
           Sample.clientFirst eq_refl).
  left. split; [reflexivity|]. eexists. split; reflexivity.
Defined.

Lemma sample_client_first_created :
  fst (ScramRequestClient.createClientFirstMessage (W := Reference.platform)
         Sample.clientRandom (lit "user")
         (ScramRequestClient.new ScramSha256 ScramRequestClient.no_options))
  = Return (built_client_first (lit "user") (lit "user")
              (Base64.fromUint8Array Sample.clientRandom)).
Proof. vm_compute. reflexivity. Qed.

(** X7 at the user name [user]. *)
Lemma X7_witness :
  ScramMessageClientFirst.getMessage
    (built_client_first (lit "user") (lit "user") (Base64.fromUint8Array Sample.clientRandom))
  = lit "n,,n=" ++ lit "user" ++ lit ",r=" ++ Base64.fromUint8Array Sample.clientRandom
  /\ ScramMessageClientFirst.getMessageBare
       (built_client_first (lit "user") (lit "user")
          (Base64.fromUint8Array Sample.clientRandom))
     = lit "n=" ++ lit "user" ++ lit ",r=" ++ Base64.fromUint8Array Sample.clientRandom
  /\ ScramMessageClientFirst.getGS2CbindFlag
       (built_client_first (lit "user") (lit "user")
          (Base64.fromUint8Array Sample.clientRandom))
     = lit "n"
  /\ ScramMessageClientFirst.getNonce
       (built_client_first (lit "user") (lit "user")
          (Base64.fromUint8Array Sample.clientRandom))
     = Base64.fromUint8Array Sample.clientRandom.
Proof.
  exact (X7_createClientFirstMessage_copies_the_user_name Reference.platform
           (ScramRequestClient.new ScramSha256 ScramRequestClient.no_options)
           Sample.clientRandom (lit "user") eq_refl
           (built_client_first (lit "user") (lit "user")
              (Base64.fromUint8Array Sample.clientRandom))
           sample_client_first_created).
Defined.

(** X8 at the user name [alice,n=admin]: the user is [admin]. *)
Lemma X8_witness :
  exists m,
    fst (ScramRequestClient.createClientFirstMessage (W := Reference.platform)
           Sample.clientRandom (lit "alice" ++ lit ",n=" ++ lit "admin")
           (ScramRequestClient.new ScramSha256 ScramRequestClient.no_options))
    = Return m
    /\ ScramMessageClientFirst.getUser m = lit "admin".
Proof.
  apply (X8_createClientFirstMessage_later_name_takes_over Reference.platform
           (ScramRequestClient.new ScramSha256 ScramRequestClient.no_options)
           Sample.clientRandom (lit "alice") (lit "admin") (lit "admin"));
    try reflexivity; try discriminate.
  repeat (apply Forall_cons_2; [discriminate|]). apply Forall_nil_2.
Defined.

Lemma reference_client_key_nonempty saltedPassword :
  ScramAlgo.getClientKey (W := Reference.platform) ScramSha256 saltedPassword <> [].
Proof.
  intros H. apply (f_equal (@length byte)) in H.
  unfold ScramAlgo.getClientKey, ScramAlgo.hmac in H.
  rewrite reference_hmac_length in H. discriminate H.
Qed.

(** X9 at the client and the server-first message of the tests. *)
Lemma X9_witness :
  exists built,
    ScramRequestClient.createClientFinalMessage (W := Reference.platform)
      Sample.saltedPassword (Sample.client ScramRequestClient.no_options)
    = (Return built,
       ScramRequestClient.setClientFinalMessage built
         (Sample.client ScramRequestClient.no_options))
    /\ ScramMessageClientFinal.getNonce built
       = ScramMessageServerFirst.getNonce Sample.serverFirst.
Proof.
  eexists. split.
  - exact (X9_createClientFinalMessage_answers_any_server_first Reference.platform
             (Sample.client ScramRequestClient.no_options) Sample.saltedPassword
             Sample.serverFirstText Sample.clientFirst Sample.serverFirst
             sample_server_first_reads eq_refl eq_refl eq_refl
             (reference_client_key_nonempty Sample.saltedPassword)).
  - reflexivity.
Defined.

(** X10 at the server of the tests, holding the three messages. *)
Lemma X10_witness :
  exists ok,
    ScramRequestServer.verifyClientFinalMessage (W := Reference.platform)
      (Sample.serverReady ScramRequestServer.no_options Sample.clientFirst)
    = (Return ok, Sample.serverReady ScramRequestServer.no_options Sample.clientFirst).
Proof.
  destruct (proj2 (X10_verifyClientFinalMessage_compares_the_stored_key Reference.platform
                     (Sample.serverReady ScramRequestServer.no_options Sample.clientFirst)
                     Sample.clientFirst Sample.serverFirst Sample.clientFinal
                     eq_refl eq_refl eq_refl)
              _ (proj1 sample_user_known) (proj2 sample_user_known)) as (ok & H & _).
  exists ok. exact H.
Defined.

Lemma reference_hmac_nonempty (algo : ScramAlgo.t) message secret :
  ScramAlgo.algo algo = lit "SHA-256" ->
  ScramAlgo.hmac (W := Reference.platform) algo message secret <> [].
Proof.
  intros E H. apply (f_equal (@length byte)) in H.
  unfold ScramAlgo.hmac in H. rewrite E in H.
  change (length (HMAC.sign SHA256.digest secret message) = 0%nat) in H.
  unfold HMAC.sign in H. rewrite sha256_digest_length in H. discriminate H.
Qed.

(** X11 at a client that holds four messages. *)
Lemma X11_witness :
  ScramRequestClient.verifyServerFinalMessage (W := Reference.platform) Sample.saltedPassword
    Cases.answeredClient
  = (Return
       (bool_decide
          (readScramParamString Sample.foreignServerFinalText !! lit "v"
           = Some (Base64.fromUint8Array
                     (ScramAlgo.hmac (W := Reference.platform)
                        (ScramRequestClient.algo Cases.answeredClient)
                        (ScramAlgo.getServerKey (W := Reference.platform)
                           (ScramRequestClient.algo Cases.answeredClient)
                           Sample.saltedPassword)
                        (transcript Sample.clientFirst Sample.foreignServerFirst
                           (ScramMessageClientFinal.getMessageWithoutProof
                              Sample.foreignClientFinal)))))),
     Cases.answeredClient).
Proof.
  exact (X11_verifyServerFinalMessage_reads_only_the_verifier Reference.platform
           Cases.answeredClient Sample.saltedPassword Sample.foreignServerFinalText
           Sample.clientFirst Sample.foreignServerFirst Sample.foreignClientFinal
           (verifier_reply (lit "19Weco8C8Gk4QpMJe68ryKFTeDzb9PWxMFlNojBuVV4="))
           (proj2 (proj2 crafted_messages_read)) eq_refl eq_refl eq_refl eq_refl
           (reference_hmac_nonempty (ScramRequestClient.algo Cases.answeredClient) _ _
              eq_refl)).
Defined.

(** X13 at a repository whose lookup fails with a plain [Error]. *)
Lemma X13_witness :
  fst (ScramRequestServer.createServerFinalMessage (W := Reference.platform)
         Cases.failingServer)
  = Return (Some (error_reply false (lit "undefined"))).
Proof.
  rewrite (proj1 (X13_createServerFinalMessage_answers_undefined_to_other_errors
                    Reference.platform Cases.failingServer
                    Sample.clientFirst Sample.serverFirst Sample.clientFinal
                    (lit "connection lost") eq_refl eq_refl eq_refl eq_refl eq_refl eq_refl)).
  reflexivity.
Defined.

Lemma sample_user_unknown :
  ScramUserRepo.has (MockScramUserRepo.repo Sample.users) (lit "nobody") = false
  /\ ScramUserRepo.find (MockScramUserRepo.repo Sample.users) (lit "nobody")
     = Throw (ScramError SCRAM_UNKNOWN_USER).
Proof.
  apply mock_repo_absent. unfold Sample.users, MockScramUserRepo.addUser.
  rewrite get_set_other by discriminate. vm_compute. reflexivity.
Qed.

Lemma reference_hash_nonempty (algo : ScramAlgo.t) text :
  ScramAlgo.algo algo = lit "SHA-256" ->
  ScramAlgo.hash (W := Reference.platform) algo text <> [].
Proof.
  intros E H. apply (f_equal (@length byte)) in H.
  unfold ScramAlgo.hash in H. rewrite E in H.
  change (length (SHA256.digest text) = 0%nat) in H.
  rewrite sha256_digest_length in H. discriminate H.
Qed.

(** X16 at the repository of the tests and the user name [nobody]. *)
Lemma X16_witness :
  fst (runExchange (W := Reference.platform) Sample.clientRandom Sample.serverRandom
         (lit "nobody") Sample.saltedPassword
         (ScramRequestClient.new ScramSha256 ScramRequestClient.no_options,
          Sample.server ScramRequestServer.no_options))
  = Return (false, false).
Proof.
  assert (H1 : (0 < 32)%nat) by lia.
  assert (H5 : Forall (fun c => c <> 44%N) (lit "nobody"))
    by (repeat (apply Forall_cons_2; [discriminate|]); apply Forall_nil_2).
  assert (H6 : JS.trim (lit "nobody") <> []) by discriminate.
  assert (H8 : lit "nobody" <> []) by discriminate.
  assert (H9 : Z.abs 4096 <= 9007199254740991) by (cbn; discriminate).
  exact (proj1 (X16_unknown_user_exchange_fails Reference.platform ScramSha256 32
                  (MockScramUserRepo.repo Sample.users)
                  (PepperedSaltGenerator (W := Reference.platform) ScramSha256
                     (lit "this-should-be-very-random-and-big"))
                  4096 ScramRequestClient.no_options ScramRequestServer.no_options
                  Sample.clientRandom Sample.serverRandom (lit "nobody") (lit "nobody")
                  Sample.saltedPassword H1 reference_hmac_length eq_refl eq_refl H5 H6
                  eq_refl H8 (proj1 sample_user_unknown) (proj2 sample_user_unknown)
                  (reference_hash_nonempty ScramSha256
                     (TextEncoder.encode
                        (lit "nobody" ++ lit ":" ++ lit "this-should-be-very-random-and-big"))
                     eq_refl) H9)).
Defined.

(** X17 at the password [pencil] and a count of one iteration. *)
Lemma X17_witness :
  fst (ScramRequestClient.getSaltedPassword (W := Reference.platform) (lit "pencil")
         Sample.clientOne)
  = ScramAlgo.getSaltedPassword (W := Reference.platform)
      (ScramRequestClient.algo Sample.clientOne) (lit "pencil")
      (ScramMessageServerFirst.getSalt Sample.serverFirstOne)
      (ScramMessageServerFirst.getIterations Sample.serverFirstOne).
Proof.
  assert (Hle : ScramMessageServerFirst.getIterations Sample.serverFirstOne
                <= ScramRequestClient.maxIterations
                     (ScramRequestClient.options Sample.clientOne))
    by (cbn; discriminate).
  exact (X17_client_derives_the_registered_salted_password Reference.platform
           Sample.clientOne (lit "pencil") Sample.clientFirst Sample.serverFirstOne
           eq_refl eq_refl Hle eq_refl).
Defined.

(** X18 at the registered user of the tests. *)
Lemma X18_witness :
  exists server_ok client_ok : bool,
    fst (runExchange (W := Reference.platform) Sample.clientRandom Sample.serverRandom
           (lit "user") Sample.saltedPassword
           (ScramRequestClient.new ScramSha256 ScramRequestClient.no_options,
            Sample.server ScramRequestServer.no_options))
    = Return (server_ok, client_ok).
Proof.
  assert (H1 : (0 < 32)%nat) by lia.
  assert (H5 : Forall (fun c => c <> 44%N) (lit "user"))
    by (repeat (apply Forall_cons_2; [discriminate|]); apply Forall_nil_2).
  assert (H6 : JS.trim (lit "user") <> []) by discriminate.
  assert (H8 : lit "user" <> []) by discriminate.
  assert (H9 : Sample.salt <> []) by discriminate.
  assert (H10 : Z.abs 4096 <= 9007199254740991) by (cbn; discriminate).
  destruct (X18_exchange_outcome_for_any_record Reference.platform ScramSha256 32
              (MockScramUserRepo.repo Sample.users)
              (PepperedSaltGenerator (W := Reference.platform) ScramSha256
                 (lit "this-should-be-very-random-and-big"))
              4096 ScramRequestClient.no_options ScramRequestServer.no_options
              Sample.clientRandom Sample.serverRandom (lit "user") (lit "user")
              Sample.saltedPassword
              (registerUser (W := Reference.platform) ScramSha256 (lit "user") Sample.salt
                 Sample.saltedPassword 4096)
              H1 reference_hmac_length eq_refl eq_refl H5 H6 eq_refl H8
              (proj1 sample_user_known) (proj2 sample_user_known) H9 H10)
    as (server_ok & client_ok & H & _).
  exists server_ok, client_ok. exact H.
Defined.

(** X19 on the reference platform. *)
Lemma X19_witness :
  runExample (W := Reference.platform) Sample.serverRandom Sample.clientRandom
    Sample.serverRandom
  = Return true.
Proof.
  assert (H1 : (0 < 32)%nat) by lia.
  exact (X19_runExample_returns_true Reference.platform 32 Sample.serverRandom
           Sample.clientRandom Sample.serverRandom (lit "password")
           H1 reference_hmac_length eq_refl eq_refl eq_refl eq_refl eq_refl
           (reference_hash_nonempty ScramSha256 Sample.serverRandom eq_refl)).
Defined.
